(** * Qwen image MCP service: a shallow embedding of [qwen_image_mcp.py]

    The Python service is embedded as Rocq functions over a small
    state-and-exception monad.  Python values that reach the service
    through JSON are kept dynamically typed ([value]); [str] objects are
    the UTF-8 byte sequences of their text, on which substring search,
    joining and replacement of well-formed text agree with Python's
    code-point versions.  Everything outside the module (interpreter
    wording of built-in errors, the JSON codec, the clock, the DashScope
    SDK, HTTP and the file system) is gathered in one record of
    [Externals] that every definition is parametric in. *)

From Stdlib Require Import String Ascii List ZArith Bool Lia DecimalString.
Import ListNotations.

Local Open Scope list_scope.
Local Open Scope string_scope.

(** ** Python strings *)

Module PyStr.

(** [sep.join(parts)] *)
Fixpoint join (sep : string) (parts : list string) : string :=
  match parts with
  | [] => ""
  | [p] => p
  | p :: rest => p ++ sep ++ join sep rest
  end.

(** [needle in hay] *)
Fixpoint contains (needle hay : string) : bool :=
  String.prefix needle hay
  || match hay with
     | EmptyString => false
     | String _ rest => contains needle rest
     end.

(** [s.replace(old, new)] for a non-empty [old]: leftmost,
    non-overlapping occurrences.  [skip] counts the bytes of a matched
    occurrence that are still to be dropped. *)
Fixpoint replace_from (old new : string) (skip : nat) (s : string) : string :=
  match s with
  | EmptyString => EmptyString
  | String c rest =>
      match skip with
      | S k => replace_from old new k rest
      | O =>
          if String.prefix old s
          then new ++ replace_from old new (String.length old - 1) rest
          else String c (replace_from old new 0 rest)
      end
  end.

Definition replace (old new s : string) : string := replace_from old new 0 s.

(** A UTF-8 continuation byte, [10xxxxxx]. *)
Definition is_continuation (c : ascii) : bool :=
  (128 <=? nat_of_ascii c)%nat && (nat_of_ascii c <? 192)%nat.

(** [s[:n]]: the first [n] code points of UTF-8 text. *)
Fixpoint take (n : nat) (s : string) : string :=
  match s with
  | EmptyString => EmptyString
  | String c rest =>
      if is_continuation c then String c (take n rest)
      else match n with
           | O => EmptyString
           | S k => String c (take k rest)
           end
  end.

Definition nonempty (s : string) : bool := negb (s =? "").

End PyStr.

(** ** Python values

    The values [json.loads] produces, which are also the only values the
    service passes around.  An [int] is unbounded; a [float] is kept as
    its IEEE-754 binary64 bit pattern; a [dict] keeps insertion order. *)

#[warnings="-register-all"]
Inductive value : Type :=
| JNull
| JBool (b : bool)
| JInt (n : Z)
| JFloat (bits : Z)
| JStr (s : string)
| JList (items : list value)
| JDict (entries : list (string * value)).

(** Truth value of an object, as tested by [if], [not], [and], [or]. *)
Definition truthy (v : value) : bool :=
  match v with
  | JNull => false
  | JBool b => b
  | JInt n => negb (n =? 0)%Z
  | JFloat bits => negb ((bits =? 0)%Z || (bits =? 2 ^ 63)%Z)
  | JStr s => PyStr.nonempty s
  | JList items => match items with [] => false | _ => true end
  | JDict entries => match entries with [] => false | _ => true end
  end.

(** [v == s] for a string literal [s]. *)
Definition eq_str (v : value) (s : string) : bool :=
  match v with
  | JStr t => (t =? s)
  | _ => false
  end.

(** Dictionaries with string keys, in insertion order. *)
Fixpoint dict_lookup {A : Type} (k : string) (d : list (string * A)) : option A :=
  match d with
  | [] => None
  | (k', a) :: rest => if (k' =? k) then Some a else dict_lookup k rest
  end.

Definition dict_keys {A : Type} (d : list (string * A)) : list string :=
  map fst d.

Definition dict_has {A : Type} (k : string) (d : list (string * A)) : bool :=
  match dict_lookup k d with Some _ => true | None => false end.

(** ** Exceptions *)

Record exn : Type := mkExn { exn_class : string; exn_str : string }.

Definition ValueError (msg : string) : exn := mkExn "ValueError" msg.
Definition Exception (msg : string) : exn := mkExn "Exception" msg.

(** Errors the interpreter raises on its own.  Their class and wording
    belong to the interpreter, see [interp_raise]. *)
Inductive fault : Type :=
| NotAMapping (v : value)                  (* keyword unpacking of v *)
| UnexpectedKeyword (k : string)           (* f(k=...) *)
| MissingArgument (k : string)
| MissingKey (k : string)                  (* d[k] *)
| Unhashable (v : value)                   (* d.get(v), v in d *)
| NotIterable (v : value)                  (* x in v *)
| JoinItem (i : nat) (v : value)           (* sep.join([..., v, ...]) *)
| NoAttribute (v : value) (attr : string)  (* v.attr *)
| NotSubscriptable (v : value)             (* v[i], v[:n] *)
| EnvironValue (v : value).                (* os.environ[k] = v *)

(** ** The world outside the module *)

(** A DashScope response: [status_code], [code], [message] and the
    dict-like [output]. *)
Record api_response : Type := mkResponse {
  status_code : Z;
  code : value;
  message : value;
  output : value
}.

(** What a DashScope call is given: the key, the model, the prompt (the
    message list in the multimodal mode) and the keyword parameters. *)
Record api_request : Type := mkRequest {
  req_api_key : string;
  req_model : value;
  req_input : value;
  req_parameters : list (string * value)
}.

(** A [requests] response: what [raise_for_status()] raises, if
    anything, and the body. *)
Record http_response : Type := mkHttp {
  raise_for_status : option exn;
  content : string
}.

(** The process state the service reads and writes: the credential
    variable of [os.environ], a counter of the external calls made so far
    (an external call may answer differently each time), the durations
    passed to [asyncio.sleep], and the lines printed on standard
    output. *)
Record world : Type := mkWorld {
  environ_key : option string;
  ticks : nat;
  sleeps : list Z;
  stdout : list string
}.

Record Externals : Type := mkExternals {
  (* the interpreter *)
  interp_raise : fault -> exn;
  py_repr : value -> string;
  str_strip : string -> string;
  (* json *)
  json_loads : string -> option value;
  json_dumps : value -> string;
  json_dumps_indent : value -> string;
  (* datetime, uuid *)
  total_seconds : nat -> nat -> Z;
  strftime_now : nat -> string;
  uuid4 : nat -> string;
  (* dashscope *)
  MultiModalConversation_call : api_request -> nat -> exn + api_response;
  ImageSynthesis_call : api_request -> nat -> exn + api_response;
  ImageSynthesis_async_call : api_request -> nat -> exn + api_response;
  ImageSynthesis_fetch : value -> string -> nat -> exn + api_response;
  (* os, requests, files *)
  os_path_exists : value -> nat -> exn + bool;
  os_makedirs : value -> nat -> exn + unit;
  os_path_join : value -> string -> exn + string;
  requests_get : value -> Z -> nat -> exn + http_response;
  write_file : string -> string -> nat -> exn + unit
}.

(** ** The monad: state, exceptions, and a bound on polling

    [Pending] is the outcome of a run whose polling budget ran out while
    the program was still inside its [while True] loop. *)

Inductive outcome (A : Type) : Type :=
| Returns (a : A) (w : world)
| Raises (e : exn) (w : world)
| Pending.

Arguments Returns {A} a w.
Arguments Raises {A} e w.
Arguments Pending {A}.

Definition M (A : Type) : Type := world -> outcome A.

Definition ret {A : Type} (a : A) : M A := fun w => Returns a w.

Definition raise {A : Type} (e : exn) : M A := fun w => Raises e w.

Definition bind {A B : Type} (m : M A) (k : A -> M B) : M B :=
  fun w =>
    match m w with
    | Returns a w' => k a w'
    | Raises e w' => Raises e w'
    | Pending => Pending
    end.

(** [try: body / except Exception as e: handler e] *)
Definition try_except {A : Type} (body : M A) (handler : exn -> M A) : M A :=
  fun w =>
    match body w with
    | Raises e w' => handler e w'
    | o => o
    end.

Declare Scope py_scope.
Delimit Scope py_scope with py.
Notation "x <- m ;; k" := (bind m (fun x => k))
  (at level 61, m at next level, right associativity) : py_scope.
Notation "m ;;; k" := (bind m (fun _ => k))
  (at level 61, right associativity) : py_scope.
Local Open Scope py_scope.

(** The world after an external call, after a sleep, after a print. *)
Definition ticked (w : world) : world :=
  mkWorld (environ_key w) (S (ticks w)) (sleeps w) (stdout w).

Definition slept (seconds : Z) (w : world) : world :=
  mkWorld (environ_key w) (ticks w) (sleeps w ++ [seconds])%list (stdout w).

Definition printed (line : string) (w : world) : world :=
  mkWorld (environ_key w) (ticks w) (sleeps w) (stdout w ++ [line])%list.

(** One call into the outside world. *)
Definition external {A : Type} (f : nat -> exn + A) : M A :=
  fun w =>
    match f (ticks w) with
    | inl e => Raises e (ticked w)
    | inr a => Returns a (ticked w)
    end.

(** [datetime.now()]: the reading is identified by the tick it is taken at. *)
Definition datetime_now : M nat := external (fun t => inr t).

(** [await asyncio.sleep(seconds)] *)
Definition asyncio_sleep (seconds : Z) : M unit :=
  fun w => Returns tt (slept seconds w).

(** [print(line)] *)
Definition print (line : string) : M unit :=
  fun w => Returns tt (printed line w).

(** [os.environ.get("DASHSCOPE_API_KEY")] *)
Definition os_environ_get_key : M value :=
  fun w => Returns (match environ_key w with Some s => JStr s | None => JNull end) w.

(** ** The template registry *)

Record StyleTemplate : Type := mkStyle {
  style_name : string;
  base_prompt : string;
  negative_prompt : string;
  photography_style : string;
  lighting : string;
  quality_keywords : list string
}.

Record PlatformConfig : Type := mkPlatform {
  platform_name : string;
  suffix : string;
  preferred_sizes : list string;
  style_modifier : string
}.

(** The [Literal] aliases of the module. *)
Definition ImageSize : list string :=
  ["1328*1328"; "1664*928"; "1472*1140"; "1140*1472"; "928*1664"].

Definition ContentStyle : list string :=
  ["general"; "lifestyle"; "food"; "fashion"; "travel";
   "beauty"; "tech"; "art"; "traditional"; "business";
   "nature"; "portrait"; "abstract"; "cartoon"].

Definition Platform : list string :=
  ["general"; "xiaohongshu"; "weibo"; "douyin"; "kuaishou";
   "instagram"; "twitter"; "facebook"; "pinterest"; "tiktok"].

Definition CallMode : list string := ["sync"; "async"; "multimodal"].

Definition _load_style_templates : list (string * StyleTemplate) :=
  [ ("general",
     {| style_name := "通用";
        base_prompt := "高质量图片";
        negative_prompt := "低分辨率，错误，最差质量，低质量";
        photography_style := "专业摄影";
        lighting := "自然光线";
        quality_keywords := ["高清"; "精细"; "清晰"; "专业"] |});
    ("lifestyle",
     {| style_name := "生活方式";
        base_prompt := "温馨生活场景，ins风格";
        negative_prompt := "杂乱，阴暗，低质量";
        photography_style := "生活摄影，自然抓拍";
        lighting := "温暖自然光线";
        quality_keywords := ["温馨"; "自然"; "生活感"; "舒适"] |});
    ("food",
     {| style_name := "美食";
        base_prompt := "美食摄影，精致摆盘";
        negative_prompt := "模糊，暗淡，不新鲜，杂乱";
        photography_style := "美食特写，精致摆盘";
        lighting := "柔和自然光，突出食物色泽";
        quality_keywords := ["诱人"; "新鲜"; "精致"; "色彩鲜艳"] |});
    ("fashion",
     {| style_name := "时尚";
        base_prompt := "时尚摄影，现代穿搭";
        negative_prompt := "过时，廉价，杂乱，低质量";
        photography_style := "时尚摄影，现代构图";
        lighting := "专业打光，突出服装质感";
        quality_keywords := ["时尚"; "现代"; "优雅"; "高端"] |});
    ("travel",
     {| style_name := "旅行";
        base_prompt := "旅行摄影，风景如画";
        negative_prompt := "污染，破败，阴暗，模糊";
        photography_style := "风景摄影，壮美构图";
        lighting := "自然光线，展现景色美感";
        quality_keywords := ["壮美"; "自然"; "清新"; "辽阔"] |});
    ("beauty",
     {| style_name := "美妆";
        base_prompt := "美妆护肤，清新自然";
        negative_prompt := "粗糙，瑕疵，不自然，过度修饰";
        photography_style := "美妆摄影，清新自然";
        lighting := "柔和光线，突出肌肤质感";
        quality_keywords := ["清新"; "自然"; "细腻"; "光滑"] |});
    ("tech",
     {| style_name := "科技";
        base_prompt := "科技产品，现代简约";
        negative_prompt := "过时，复杂，杂乱，低端";
        photography_style := "产品摄影，简约现代";
        lighting := "专业打光，突出科技感";
        quality_keywords := ["现代"; "简约"; "高科技"; "精工"] |});
    ("art",
     {| style_name := "艺术";
        base_prompt := "艺术创作，创意构图";
        negative_prompt := "平庸，无创意，粗糙，低质量";
        photography_style := "艺术摄影，创意表达";
        lighting := "艺术光影，营造氛围";
        quality_keywords := ["艺术"; "创意"; "独特"; "富有表现力"] |});
    ("traditional",
     {| style_name := "传统文化";
        base_prompt := "中国传统文化，古典雅致";
        negative_prompt := "现代化，西式，粗糙，不协调";
        photography_style := "传统文化摄影，古典构图";
        lighting := "古典光影，传统韵味";
        quality_keywords := ["古典"; "雅致"; "传统"; "文化底蕴"] |});
    ("business",
     {| style_name := "商务";
        base_prompt := "商务场景，专业正式";
        negative_prompt := "随意，不专业，杂乱，低端";
        photography_style := "商务摄影，正式构图";
        lighting := "专业商务光线";
        quality_keywords := ["专业"; "正式"; "高端"; "商务"] |});
    ("nature",
     {| style_name := "自然";
        base_prompt := "自然景观，生态环境";
        negative_prompt := "人工，破坏，污染，不自然";
        photography_style := "自然摄影，生态记录";
        lighting := "自然光线，真实环境";
        quality_keywords := ["自然"; "生态"; "真实"; "和谐"] |});
    ("portrait",
     {| style_name := "人像";
        base_prompt := "人物肖像，情感表达";
        negative_prompt := "模糊，失真，不自然表情";
        photography_style := "人像摄影，情感捕捉";
        lighting := "人像打光，突出神态";
        quality_keywords := ["生动"; "自然"; "有神"; "情感丰富"] |});
    ("abstract",
     {| style_name := "抽象";
        base_prompt := "抽象艺术，概念表达";
        negative_prompt := "具象，写实，平庸，无创意";
        photography_style := "抽象表现，概念艺术";
        lighting := "创意光效，抽象表现";
        quality_keywords := ["抽象"; "概念"; "创新"; "独特"] |});
    ("cartoon",
     {| style_name := "卡通";
        base_prompt := "卡通动漫，可爱风格";
        negative_prompt := "写实，阴暗，成人内容";
        photography_style := "卡通风格，动漫表现";
        lighting := "明亮活泼，卡通光效";
        quality_keywords := ["可爱"; "活泼"; "色彩鲜艳"; "有趣"] |}) ].

Definition _load_platform_configs : list (string * PlatformConfig) :=
  [ ("general",
     {| platform_name := "通用";
        suffix := "";
        preferred_sizes := ["1328*1328"; "1664*928"; "1472*1140"];
        style_modifier := "" |});
    ("xiaohongshu",
     {| platform_name := "小红书";
        suffix := "适合小红书分享，社交媒体风格";
        preferred_sizes := ["1472*1140"; "1328*1328"; "1140*1472"];
        style_modifier := "生活化，亲和力强" |});
    ("weibo",
     {| platform_name := "微博";
        suffix := "适合微博分享，话题性强";
        preferred_sizes := ["1664*928"; "1328*1328"];
        style_modifier := "话题性，吸引眼球" |});
    ("douyin",
     {| platform_name := "抖音";
        suffix := "适合抖音短视频，竖屏优化";
        preferred_sizes := ["928*1664"; "1140*1472"];
        style_modifier := "动感，年轻化" |});
    ("kuaishou",
     {| platform_name := "快手";
        suffix := "适合快手平台，接地气风格";
        preferred_sizes := ["928*1664"; "1328*1328"];
        style_modifier := "真实，接地气" |});
    ("instagram",
     {| platform_name := "Instagram";
        suffix := "Instagram style, international aesthetic";
        preferred_sizes := ["1328*1328"; "1140*1472"];
        style_modifier := "国际化，现代感" |});
    ("pinterest",
     {| platform_name := "Pinterest";
        suffix := "Pinterest optimized, visual impact";
        preferred_sizes := ["1140*1472"; "928*1664"];
        style_modifier := "视觉冲击，创意" |});
    ("tiktok",
     {| platform_name := "TikTok";
        suffix := "TikTok ready, vertical format";
        preferred_sizes := ["928*1664"; "1140*1472"];
        style_modifier := "年轻潮流，国际化" |}) ].

Record QwenImageMCPService : Type := mkService {
  protocol_version : string;
  server_info : value;
  _style_templates : list (string * StyleTemplate);
  _platform_configs : list (string * PlatformConfig)
}.

Definition __init__ : QwenImageMCPService :=
  {| protocol_version := "2025-03-26";
     server_info := JDict [("name", JStr "qwen-image-mcp"); ("version", JStr "1.0.0")];
     _style_templates := _load_style_templates;
     _platform_configs := _load_platform_configs |}.

(** The dictionary form of a template, as [json.dumps] sees it. *)
Definition style_to_value (t : StyleTemplate) : value :=
  JDict [("name", JStr (style_name t));
         ("base_prompt", JStr (base_prompt t));
         ("negative_prompt", JStr (negative_prompt t));
         ("photography_style", JStr (photography_style t));
         ("lighting", JStr (lighting t));
         ("quality_keywords", JList (map JStr (quality_keywords t)))].

(** [ImageGenerationResult]; [None] is [JNull]. *)
Record ImageGenerationResult : Type := mkResult {
  success : bool;
  image_url : value;
  local_path : value;
  error_message : value;
  generation_time : value;
  config_used : value
}.

(** The parameters of [generate_image] after the call has bound them. *)
Record GenerateArgs : Type := mkArgs {
  arg_prompt : value;
  arg_api_key : value;
  arg_style : value;
  arg_platform : value;
  arg_size : value;
  arg_model : value;
  arg_call_mode : value;
  arg_prompt_extend : value;
  arg_watermark : value;
  arg_negative_prompt : value;
  arg_seed : value;
  arg_enable_enhancement : value;
  arg_custom_enhancement : value;
  arg_save_local : value;
  arg_output_dir : value
}.

(** The keyword parameters of [generate_image]. *)
Definition generate_image_keywords : list string :=
  ["prompt"; "api_key"; "style"; "platform"; "size"; "model"; "call_mode";
   "prompt_extend"; "watermark"; "negative_prompt"; "seed";
   "enable_enhancement"; "custom_enhancement"; "save_local"; "output_dir"].

(** The tool descriptors of [handle_tools_list]. *)
Definition tools_list_tools (self : QwenImageMCPService) : value :=
  JList
  [ JDict
    [ ("name", JStr "generate_image");
      ("description", JStr "使用阿里云 Qwen 生成高质量图片");
      ("inputSchema",
       JDict
        [ ("type", JStr "object");
          ("properties",
           JDict
            [ ("prompt",
               JDict
                [ ("type", JStr "string");
                  ("description", JStr "图片描述提示词（必填）") ]);
              ("api_key",
               JDict
                [ ("type", JStr "string");
                  ("description", JStr "阿里云 DashScope API 密钥（可选，可通过环境变量设置）") ]);
              ("style",
               JDict
                [ ("type", JStr "string");
                  ("enum", JList (map JStr (dict_keys (_style_templates self))));
                  ("description", JStr "图片风格（默认: general）");
                  ("default", JStr "general") ]);
              ("platform",
               JDict
                [ ("type", JStr "string");
                  ("enum", JList (map JStr (dict_keys (_platform_configs self))));
                  ("description", JStr "目标平台（默认: general）");
                  ("default", JStr "general") ]);
              ("size",
               JDict
                [ ("type", JStr "string");
                  ("enum",
                   JList [JStr "1328*1328"; JStr "1664*928"; JStr "1472*1140"; JStr "1140*1472"; JStr "928*1664"]);
                  ("description", JStr "图片尺寸（默认: 1328*1328）");
                  ("default", JStr "1328*1328") ]);
              ("model",
               JDict
                [ ("type", JStr "string");
                  ("description", JStr "模型名称（默认: qwen-image）");
                  ("default", JStr "qwen-image") ]);
              ("call_mode",
               JDict
                [ ("type", JStr "string");
                  ("enum", JList [JStr "sync"; JStr "async"; JStr "multimodal"]);
                  ("description", JStr "调用模式（默认: multimodal）");
                  ("default", JStr "multimodal") ]);
              ("prompt_extend",
               JDict
                [ ("type", JStr "boolean");
                  ("description", JStr "是否启用智能改写（默认: true）");
                  ("default", JBool true) ]);
              ("watermark",
               JDict
                [ ("type", JStr "boolean");
                  ("description", JStr "是否添加水印（默认: false）");
                  ("default", JBool false) ]);
              ("negative_prompt",
               JDict
                [ ("type", JStr "string");
                  ("description", JStr "反向提示词（可选）") ]);
              ("seed",
               JDict
                [ ("type", JStr "integer");
                  ("description", JStr "随机种子（可选）") ]);
              ("enable_enhancement",
               JDict
                [ ("type", JStr "boolean");
                  ("description", JStr "是否启用提示词增强（默认: true）");
                  ("default", JBool true) ]);
              ("custom_enhancement",
               JDict
                [ ("type", JStr "string");
                  ("description", JStr "自定义增强文本（可选）") ]);
              ("save_local",
               JDict
                [ ("type", JStr "boolean");
                  ("description", JStr "是否保存到本地（默认: true）");
                  ("default", JBool true) ]);
              ("output_dir",
               JDict
                [ ("type", JStr "string");
                  ("description", JStr "输出目录（默认: generated_images）");
                  ("default", JStr "generated_images") ]) ]);
          ("required", JList [JStr "prompt"]) ]) ];
    JDict
    [ ("name", JStr "list_styles");
      ("description", JStr "获取所有可用的图片风格");
      ("inputSchema",
       JDict
        [ ("type", JStr "object");
          ("properties", JDict []) ]) ];
    JDict
    [ ("name", JStr "list_platforms");
      ("description", JStr "获取所有支持的目标平台");
      ("inputSchema",
       JDict
        [ ("type", JStr "object");
          ("properties", JDict []) ]) ];
    JDict
    [ ("name", JStr "get_style_info");
      ("description", JStr "获取特定风格的详细信息");
      ("inputSchema",
       JDict
        [ ("type", JStr "object");
          ("properties",
           JDict
            [ ("style",
               JDict
                [ ("type", JStr "string");
                  ("enum", JList (map JStr (dict_keys (_style_templates self))));
                  ("description", JStr "风格名称") ]) ]);
          ("required", JList [JStr "style"]) ]) ] ].

Section Service.

Variable E : Externals.

(** *** Interpreter-level operations *)

Definition fault_ {A : Type} (f : fault) : M A := raise (interp_raise E f).

(** [str(v)], as an f-string formats a value. *)
Definition py_str (v : value) : string :=
  match v with
  | JStr s => s
  | _ => py_repr E v
  end.

(** [d[k]] on a registry. *)
Definition dict_getitem {A : Type} (d : list (string * A)) (k : string) : M A :=
  match dict_lookup k d with
  | Some a => ret a
  | None => fault_ (MissingKey k)
  end.

(** [d.get(key, default)] on a registry whose keys are strings: a list
    or a dict cannot be hashed, any other non-string equals no key. *)
Definition dict_get {A : Type} (d : list (string * A)) (key : value) (default : A) : M A :=
  match key with
  | JStr k => ret (match dict_lookup k d with Some a => a | None => default end)
  | JList _ | JDict _ => fault_ (Unhashable key)
  | _ => ret default
  end.

(** [key in d] on a registry. *)
Definition dict_contains {A : Type} (d : list (string * A)) (key : value) : M bool :=
  match key with
  | JStr k => ret (dict_has k d)
  | JList _ | JDict _ => fault_ (Unhashable key)
  | _ => ret false
  end.

(** [obj.get(k)] and [obj.get(k, default)] on a parsed JSON value:
    only a dict has the method. *)
Definition value_get (obj : value) (k : string) (default : value) : M value :=
  match obj with
  | JDict d => ret (match dict_lookup k d with Some v => v | None => default end)
  | _ => fault_ (NoAttribute obj "get")
  end.

(** [obj.attr] and [obj[key]] on the SDK's dict-like response parts. *)
Definition getattr (obj : value) (attr : string) : M value :=
  match obj with
  | JDict d =>
      match dict_lookup attr d with
      | Some v => ret v
      | None => fault_ (NoAttribute obj attr)
      end
  | _ => fault_ (NoAttribute obj attr)
  end.

(** [obj[0]]: the first item of a list, the first character of a string. *)
Definition getitem0 (obj : value) : M value :=
  match obj with
  | JList (v :: _) => ret v
  | JStr s =>
      if PyStr.nonempty s then ret (JStr (PyStr.take 1 s))
      else fault_ (NotSubscriptable obj)
  | _ => fault_ (NotSubscriptable obj)
  end.

(** [s in container] for a string [s]. *)
Definition py_contains (s : string) (container : value) : M bool :=
  match container with
  | JStr hay => ret (PyStr.contains s hay)
  | JList items => ret (existsb (fun v => eq_str v s) items)
  | JDict d => ret (dict_has s d)
  | _ => fault_ (NotIterable container)
  end.

(** [sep.join(parts)]: every item must be a [str]. *)
Fixpoint join_items (i : nat) (parts : list value) : M (list string) :=
  match parts with
  | [] => ret []
  | JStr s :: rest => l <- join_items (S i) rest ;; ret (s :: l)
  | v :: _ => fault_ (JoinItem i v)
  end.

Definition py_join (sep : string) (parts : list value) : M value :=
  l <- join_items 0 parts ;; ret (JStr (PyStr.join sep l)).

(** The delimiter of both prompt builders, U+FF0C. *)
Definition delimiter : string := "，".

(** *** Credential *)

Definition _get_api_key (self : QwenImageMCPService) (provided_key : value) : M value :=
  api_key <- (if truthy provided_key then ret provided_key else os_environ_get_key) ;;
  if negb (truthy api_key)
  then raise (ValueError "API密钥未提供。请通过参数或环境变量 DASHSCOPE_API_KEY 设置")
  else ret api_key.

(** *** Prompt composition *)

(** [self._style_templates.get(style, self._style_templates["general"])] *)
Definition style_template_of (self : QwenImageMCPService) (style : value) : M StyleTemplate :=
  default <- dict_getitem (_style_templates self) "general" ;;
  dict_get (_style_templates self) style default.

(** [self._platform_configs.get(platform, self._platform_configs["general"])] *)
Definition platform_config_of (self : QwenImageMCPService) (platform : value) : M PlatformConfig :=
  default <- dict_getitem (_platform_configs self) "general" ;;
  dict_get (_platform_configs self) platform default.

(** [if c: parts.append(v)] and [if c: parts.extend(more)] *)
Definition append_if (c : bool) (parts : list value) (v : value) : list value :=
  if c then (parts ++ [v])%list else parts.

Definition extend_if (c : bool) (parts more : list value) : list value :=
  if c then (parts ++ more)%list else parts.

(** Truth value of a list. *)
Definition nonempty_list {A : Type} (l : list A) : bool :=
  match l with
  | [] => false
  | _ => true
  end.

Definition _enhance_prompt (self : QwenImageMCPService)
    (prompt style platform enable_enhancement custom_enhancement : value) : M value :=
  if negb (truthy enable_enhancement) then ret prompt
  else
    let enhanced_parts := [prompt] in
    let enhanced_parts :=
      append_if (truthy custom_enhancement) enhanced_parts custom_enhancement in
    style_template <- style_template_of self style ;;
    add_base <-
      (if PyStr.nonempty (base_prompt style_template)
       then found <- py_contains (base_prompt style_template) prompt ;; ret (negb found)
       else ret false) ;;
    let enhanced_parts :=
      append_if add_base enhanced_parts (JStr (base_prompt style_template)) in
    let enhanced_parts :=
      append_if (PyStr.nonempty (photography_style style_template))
                enhanced_parts (JStr (photography_style style_template)) in
    let enhanced_parts :=
      append_if (PyStr.nonempty (lighting style_template))
                enhanced_parts (JStr (lighting style_template)) in
    let enhanced_parts :=
      extend_if (nonempty_list (quality_keywords style_template))
                enhanced_parts (map JStr (quality_keywords style_template)) in
    platform_config <- platform_config_of self platform ;;
    let enhanced_parts :=
      append_if (PyStr.nonempty (suffix platform_config))
                enhanced_parts (JStr (suffix platform_config)) in
    let enhanced_parts :=
      append_if (PyStr.nonempty (style_modifier platform_config))
                enhanced_parts (JStr (style_modifier platform_config)) in
    py_join delimiter enhanced_parts.

Definition _get_negative_prompt (self : QwenImageMCPService)
    (style custom_negative : value) : M value :=
  let negative_parts := [] in
  let negative_parts := append_if (truthy custom_negative) negative_parts custom_negative in
  style_template <- style_template_of self style ;;
  let negative_parts :=
    append_if (PyStr.nonempty (negative_prompt style_template))
              negative_parts (JStr (negative_prompt style_template)) in
  py_join delimiter negative_parts.

(** *** Result materialisation *)

Definition _generate_filename (self : QwenImageMCPService)
    (prompt style size : value) : M string :=
  timestamp <- external (fun t => inr (strftime_now E t)) ;;
  size_str <-
    match size with
    | JStr s => ret (PyStr.replace "*" "x" s)
    | _ => fault_ (NoAttribute size "replace")
    end ;;
  unique_id <- external (fun t => inr (PyStr.take 8 (uuid4 E t))) ;;
  desc <-
    match prompt with
    | JStr p =>
        ret (PyStr.replace "," "_"
              (PyStr.replace "，" "_"
                (PyStr.replace " " "_" (PyStr.take 10 p))))
    | JList items => fault_ (NoAttribute (JList (firstn 10 items)) "replace")
    | _ => fault_ (NotSubscriptable prompt)
    end ;;
  ret ("qwen_" ++ timestamp ++ "_" ++ size_str ++ "_" ++ py_str style
       ++ "_" ++ desc ++ "_" ++ unique_id ++ ".png").

Definition _download_image (self : QwenImageMCPService)
    (url : value) (filename : string) (output_dir : value) : M string :=
  present <- external (os_path_exists E output_dir) ;;
  (if negb present then external (os_makedirs E output_dir) else ret tt) ;;;
  filepath <- (match os_path_join E output_dir filename with
               | inl e => raise e
               | inr p => ret p
               end) ;;
  try_except
    (response <- external (requests_get E url 30) ;;
     (match raise_for_status response with
      | Some e => raise e
      | None => ret tt
      end) ;;;
     external (write_file E filepath (content response)) ;;;
     ret filepath)
    (fun e => raise e).

(** *** Provider gateway *)

(** [os.environ["DASHSCOPE_API_KEY"] = api_key]: the value must be a [str]. *)
Definition os_environ_set_key (api_key : value) : M string :=
  match api_key with
  | JStr s => fun w => Returns s (mkWorld (Some s) (ticks w) (sleeps w) (stdout w))
  | _ => fault_ (EnvironValue api_key)
  end.

(** The [while True] loop of the async mode.  [fuel] bounds the number of
    polls the run is given; the source has no such bound. *)
Fixpoint poll_task (fuel : nat) (task_id : value) (api_key : string) : M api_response :=
  match fuel with
  | O => fun _ => Pending
  | S fuel' =>
      result <- external (ImageSynthesis_fetch E task_id api_key) ;;
      task_status <- getattr (output result) "task_status" ;;
      if eq_str task_status "SUCCEEDED" then ret result
      else if eq_str task_status "FAILED"
      then raise (Exception ("异步任务失败: " ++ py_str (output result)))
      else asyncio_sleep 3 ;;; poll_task fuel' task_id api_key
  end.

Definition is_none (v : value) : bool :=
  match v with JNull => true | _ => false end.

(** The [parameters] dictionary that every calling mode starts from. *)
Definition call_parameters (negative_prompt size prompt_extend watermark seed : value)
    : list (string * value) :=
  let parameters :=
    [("size", size); ("prompt_extend", prompt_extend); ("watermark", watermark)] in
  let parameters :=
    if truthy negative_prompt
    then (parameters ++ [("negative_prompt", negative_prompt)])%list else parameters in
  let parameters :=
    if negb (is_none seed) then (parameters ++ [("seed", seed)])%list else parameters in
  parameters.

Definition _call_qwen_api (self : QwenImageMCPService) (fuel : nat)
    (prompt api_key negative_prompt size model call_mode
     prompt_extend watermark seed : value) : M api_response :=
  key <- os_environ_set_key api_key ;;
  let parameters := call_parameters negative_prompt size prompt_extend watermark seed in
  try_except
    (if eq_str call_mode "multimodal" then
       let messages :=
         JList [JDict [("role", JStr "user");
                       ("content", JList [JDict [("text", prompt)]])]] in
       response <- external (MultiModalConversation_call E
                               (mkRequest key model messages parameters)) ;;
       if (status_code response =? 200)%Z then ret response
       else raise (Exception ("多模态API调用失败: " ++ py_str (code response)
                              ++ " - " ++ py_str (message response)))
     else
       let parameters := (parameters ++ [("n", JInt 1)])%list in
       if eq_str call_mode "async" then
         response <- external (ImageSynthesis_async_call E
                                 (mkRequest key model prompt parameters)) ;;
         task_id <- getattr (output response) "task_id" ;;
         poll_task fuel task_id key
       else
         response <- external (ImageSynthesis_call E
                                 (mkRequest key model prompt parameters)) ;;
         if (status_code response =? 200)%Z then ret response
         else raise (Exception ("同步API调用失败: " ++ py_str (code response)
                                ++ " - " ++ py_str (message response))))
    (fun e => raise e).

(** *** generate_image *)

(** [response.output.choices[0].message.content[0]['image']] *)
Definition multimodal_image_url (response : api_response) : M value :=
  choices <- getattr (output response) "choices" ;;
  choice <- getitem0 choices ;;
  msg <- getattr choice "message" ;;
  parts <- getattr msg "content" ;;
  part <- getitem0 parts ;;
  getattr part "image".

(** [response.output.results[0].url] *)
Definition synthesis_image_url (response : api_response) : M value :=
  results <- getattr (output response) "results" ;;
  first <- getitem0 results ;;
  getattr first "url".

(** The [try] block of [generate_image] up to the extraction of the image
    URL; it yields the enhanced prompt, the negative prompt and the URL. *)
Definition request_image (self : QwenImageMCPService) (fuel : nat)
    (a : GenerateArgs) : M (value * value * value) :=
  actual_api_key <- _get_api_key self (arg_api_key a) ;;
  enhanced_prompt <-
    _enhance_prompt self (arg_prompt a) (arg_style a) (arg_platform a)
                    (arg_enable_enhancement a) (arg_custom_enhancement a) ;;
  final_negative_prompt <-
    _get_negative_prompt self (arg_style a) (arg_negative_prompt a) ;;
  response <-
    _call_qwen_api self fuel enhanced_prompt actual_api_key final_negative_prompt
                   (arg_size a) (arg_model a) (arg_call_mode a)
                   (arg_prompt_extend a) (arg_watermark a) (arg_seed a) ;;
  url <- (if eq_str (arg_call_mode a) "multimodal"
          then multimodal_image_url response
          else synthesis_image_url response) ;;
  ret (enhanced_prompt, final_negative_prompt, url).

Definition generate_image (self : QwenImageMCPService) (fuel : nat)
    (a : GenerateArgs) : M ImageGenerationResult :=
  start_time <- datetime_now ;;
  try_except
    (requested <- request_image self fuel a ;;
     let '(enhanced_prompt, final_negative_prompt, url) := requested in
     path <- (if truthy (arg_save_local a)
              then filename <- _generate_filename self (arg_prompt a) (arg_style a) (arg_size a) ;;
                   p <- _download_image self url filename (arg_output_dir a) ;;
                   ret (JStr p)
              else ret JNull) ;;
     end_time <- datetime_now ;;
     let config :=
       JDict [("prompt", arg_prompt a);
              ("enhanced_prompt", enhanced_prompt);
              ("style", arg_style a);
              ("platform", arg_platform a);
              ("size", arg_size a);
              ("model", arg_model a);
              ("call_mode", arg_call_mode a);
              ("prompt_extend", arg_prompt_extend a);
              ("watermark", arg_watermark a);
              ("negative_prompt", final_negative_prompt);
              ("seed", arg_seed a)] in
     ret {| success := true;
            image_url := url;
            local_path := path;
            error_message := JNull;
            generation_time := JFloat (total_seconds E start_time end_time);
            config_used := config |})
    (fun e =>
       end_time <- datetime_now ;;
       let error_msg := "生成图片失败: " ++ exn_str e in
       ret {| success := false;
              image_url := JNull;
              local_path := JNull;
              error_message := JStr error_msg;
              generation_time := JFloat (total_seconds E start_time end_time);
              config_used := JNull |}).

(** Binding of the keyword arguments of [generate_image] from an unpacked
    mapping: an unknown keyword and a missing [prompt] are refused, the
    values themselves are not inspected. *)
Fixpoint first_unexpected (kw : list (string * value)) : option string :=
  match kw with
  | [] => None
  | (k, _) :: rest =>
      if existsb (String.eqb k) generate_image_keywords
      then first_unexpected rest else Some k
  end.

Definition keyword (kw : list (string * value)) (k : string) (default : value) : value :=
  match dict_lookup k kw with
  | Some v => v
  | None => default
  end.

Definition bind_generate_image (arguments : value) : M GenerateArgs :=
  match arguments with
  | JDict kw =>
      match first_unexpected kw with
      | Some k => fault_ (UnexpectedKeyword k)
      | None =>
          match dict_lookup "prompt" kw with
          | None => fault_ (MissingArgument "prompt")
          | Some prompt =>
              ret {| arg_prompt := prompt;
                     arg_api_key := keyword kw "api_key" JNull;
                     arg_style := keyword kw "style" (JStr "general");
                     arg_platform := keyword kw "platform" (JStr "general");
                     arg_size := keyword kw "size" (JStr "1328*1328");
                     arg_model := keyword kw "model" (JStr "qwen-image");
                     arg_call_mode := keyword kw "call_mode" (JStr "multimodal");
                     arg_prompt_extend := keyword kw "prompt_extend" (JBool true);
                     arg_watermark := keyword kw "watermark" (JBool false);
                     arg_negative_prompt := keyword kw "negative_prompt" JNull;
                     arg_seed := keyword kw "seed" JNull;
                     arg_enable_enhancement := keyword kw "enable_enhancement" (JBool true);
                     arg_custom_enhancement := keyword kw "custom_enhancement" JNull;
                     arg_save_local := keyword kw "save_local" (JBool true);
                     arg_output_dir := keyword kw "output_dir" (JStr "generated_images") |}
          end
      end
  | _ => fault_ (NotAMapping arguments)
  end.

(** *** Protocol methods *)

Definition handle_initialize (self : QwenImageMCPService) (params : value) : M value :=
  ret (JDict [("protocolVersion", JStr (protocol_version self));
              ("capabilities", JDict [("tools", JDict [])]);
              ("serverInfo", server_info self)]).

Definition handle_tools_list (self : QwenImageMCPService) : M value :=
  ret (JDict [("tools", tools_list_tools self)]).

Definition text_block (text : string) : value :=
  JDict [("type", JStr "text"); ("text", JStr text)].

Definition tool_result (text : string) : value :=
  JDict [("content", JList [text_block text])].

Definition tool_error (text : string) : value :=
  JDict [("content", JList [text_block text]); ("isError", JBool true)].

(** The [try] block of [handle_tool_call]. *)
Definition dispatch_tool (self : QwenImageMCPService) (fuel : nat)
    (name arguments : value) : M value :=
  if eq_str name "generate_image" then
    args <- bind_generate_image arguments ;;
    result <- generate_image self fuel args ;;
    let response_data :=
      [("success", JBool (success result));
       ("image_url", image_url result);
       ("local_path", local_path result);
       ("generation_time", generation_time result)] in
    let response_data :=
      if truthy (error_message result)
      then (response_data ++ [("error_message", error_message result)])%list
      else response_data in
    let response_data :=
      if truthy (config_used result)
      then (response_data ++ [("config_used", config_used result)])%list
      else response_data in
    ret (tool_result (json_dumps_indent E (JDict response_data)))
  else if eq_str name "list_styles" then
    let styles :=
      map (fun kv => (fst kv, JStr (style_name (snd kv)))) (_style_templates self) in
    ret (tool_result (json_dumps_indent E (JDict styles)))
  else if eq_str name "list_platforms" then
    let platforms :=
      map (fun kv => (fst kv, JStr (platform_name (snd kv)))) (_platform_configs self) in
    ret (tool_result (json_dumps_indent E (JDict platforms)))
  else if eq_str name "get_style_info" then
    style <- value_get arguments "style" JNull ;;
    found <- dict_contains (_style_templates self) style ;;
    if found then
      style_info <-
        match style with
        | JStr k => dict_getitem (_style_templates self) k
        | _ => fault_ (Unhashable style)
        end ;;
      ret (tool_result (json_dumps_indent E (style_to_value style_info)))
    else
      ret (tool_error ("未找到风格: " ++ py_str style))
  else
    ret (tool_error ("未知工具: " ++ py_str name)).

Definition handle_tool_call (self : QwenImageMCPService) (fuel : nat)
    (name arguments : value) : M value :=
  try_except
    (dispatch_tool self fuel name arguments)
    (fun e => ret (tool_error ("工具调用失败: " ++ exn_str e))).

Definition rpc_result (request_id result : value) : value :=
  JDict [("jsonrpc", JStr "2.0"); ("id", request_id); ("result", result)].

Definition rpc_error (request_id : value) (code : Z) (message : string) : value :=
  JDict [("jsonrpc", JStr "2.0"); ("id", request_id);
         ("error", JDict [("code", JInt code); ("message", JStr message)])].

Definition handle_mcp_request (self : QwenImageMCPService) (fuel : nat)
    (request : value) : M value :=
  method <- value_get request "method" JNull ;;
  params <- value_get request "params" (JDict []) ;;
  request_id <- value_get request "id" JNull ;;
  try_except
    (if eq_str method "initialize" then
       result <- handle_initialize self params ;;
       ret (rpc_result request_id result)
     else if eq_str method "tools/list" then
       result <- handle_tools_list self ;;
       ret (rpc_result request_id result)
     else if eq_str method "tools/call" then
       tool_name <- value_get params "name" JNull ;;
       tool_args <- value_get params "arguments" (JDict []) ;;
       result <- handle_tool_call self fuel tool_name tool_args ;;
       ret (rpc_result request_id result)
     else
       ret (rpc_error request_id (-32601) ("未知方法: " ++ py_str method)))
    (fun e => ret (rpc_error request_id (-32603) ("内部错误: " ++ exn_str e))).

(** The read loop.  [lines] is what successive [sys.stdin.readline()]
    calls return; after the last one [readline] returns the empty string.
    Log records go to the standard error stream and are not part of the
    model. *)
Fixpoint run_mcp_server (self : QwenImageMCPService) (fuel : nat)
    (lines : list string) : M unit :=
  match lines with
  | [] => ret tt
  | line :: rest =>
      if negb (PyStr.nonempty line) then ret tt
      else
        let line := str_strip E line in
        if negb (PyStr.nonempty line) then run_mcp_server self fuel rest
        else
          match json_loads E line with
          | None => run_mcp_server self fuel rest
          | Some request =>
              try_except
                (response <- handle_mcp_request self fuel request ;;
                 print (json_dumps E response))
                (fun e => ret tt) ;;;
              run_mcp_server self fuel rest
          end
  end.

End Service.
(** ** The specification's vocabulary

    The definitions of this part follow the wording of the written
    specification; the theorems below compare them with the code. *)

Module Spec.

(** The [general] entries, which the registries fall back to. *)
Definition general_style : StyleTemplate :=
  {| style_name := "通用";
     base_prompt := "高质量图片";
     negative_prompt := "低分辨率，错误，最差质量，低质量";
     photography_style := "专业摄影";
     lighting := "自然光线";
     quality_keywords := ["高清"; "精细"; "清晰"; "专业"] |}.

Definition general_platform : PlatformConfig :=
  {| platform_name := "通用";
     suffix := "";
     preferred_sizes := ["1328*1328"; "1664*928"; "1472*1140"];
     style_modifier := "" |}.

(** [lookupStyle], [lookupPlatform]: total, with the [general] fallback. *)
Definition lookupStyle (key : string) : StyleTemplate :=
  match dict_lookup key (_style_templates __init__) with
  | Some t => t
  | None => general_style
  end.

Definition lookupPlatform (key : string) : PlatformConfig :=
  match dict_lookup key (_platform_configs __init__) with
  | Some c => c
  | None => general_platform
  end.

Definition skip_empty (fragments : list string) : list string :=
  filter PyStr.nonempty fragments.

Definition if_present (text : option string) : list string :=
  match text with
  | Some s => [s]
  | None => []
  end.

(** The fragments of [composePrompt], in order: the raw prompt, then
    whatever is not empty of custom text, base prompt (unless the raw
    prompt already contains it), photography style, lighting, the quality
    keywords, platform suffix and style modifier. *)
Definition composePrompt_fragments (raw : string) (style platform : string)
    (custom : option string) : list string :=
  let st := lookupStyle style in
  let pc := lookupPlatform platform in
  raw :: skip_empty
           (if_present custom
            ++ (if PyStr.contains (base_prompt st) raw then [] else [base_prompt st])
            ++ [photography_style st; lighting st]
            ++ quality_keywords st
            ++ [suffix pc; style_modifier pc])%list.

Definition composePrompt (raw style platform : string) (custom : option string) : string :=
  PyStr.join "，" (composePrompt_fragments raw style platform custom).

(** [composeNegativePrompt]: custom first, then the style's fragment. *)
Definition composeNegativePrompt (style : string) (custom : option string) : string :=
  PyStr.join "，"
    (skip_empty (if_present custom ++ [negative_prompt (lookupStyle style)])%list).

(** A credential counts only when it is present and not empty. *)
Definition usable (key : option string) : option string :=
  match key with
  | Some s => if PyStr.nonempty s then Some s else None
  | None => None
  end.

Definition resolve_credential (provided env : option string) : option string :=
  match usable provided with
  | Some k => Some k
  | None => usable env
  end.

(** The four tools of [tools/list]. *)
Definition registered_tools : list string :=
  ["generate_image"; "list_styles"; "list_platforms"; "get_style_info"].

Definition is_registered_tool (name : value) : bool :=
  existsb (eq_str name) registered_tools.

End Spec.

(** An optional string argument as the Python value it is passed as. *)
Definition of_option (s : option string) : value :=
  match s with
  | Some t => JStr t
  | None => JNull
  end.

(** *** Reading a response *)

Definition is_dict (v : value) : bool :=
  match v with JDict _ => true | _ => false end.

(** The member [k] of a JSON object, [None] when there is none. *)
Definition member (k : string) (v : value) : option value :=
  match v with
  | JDict d => dict_lookup k d
  | _ => None
  end.

(** The [error.code] of a JSON-RPC response. *)
Definition error_code (response : value) : option value :=
  match member "error" response with
  | Some err => member "code" err
  | None => None
  end.

(** Whether a response carries a tool result flagged [isError: true]. *)
Definition is_tool_error (response : value) : bool :=
  match member "result" response with
  | Some r =>
      match member "isError" r, member "content" r with
      | Some (JBool true), Some (JList (_ :: _)) => true
      | _, _ => false
      end
  | None => false
  end.

(** The [enum] of a field of a tool's input schema in a [tools/list]
    result. *)
Fixpoint find_tool (name : string) (tools : list value) : option value :=
  match tools with
  | [] => None
  | t :: rest =>
      if match member "name" t with Some n => eq_str n name | None => false end
      then Some t else find_tool name rest
  end.

Definition schema_enum (listing : value) (tool field : string) : option value :=
  match member "tools" listing with
  | Some (JList tools) =>
      match find_tool tool tools with
      | Some t =>
          match member "inputSchema" t with
          | Some schema =>
              match member "properties" schema with
              | Some props =>
                  match member field props with
                  | Some f => member "enum" f
                  | None => None
                  end
              | None => None
              end
          | None => None
          end
      | None => None
      end
  | _ => None
  end.

(** A computation settles when no polling budget can leave it pending. *)
Definition settles {A : Type} (m : M A) : Prop :=
  forall w, m w <> Pending.

(** *** What one poll of an async task shows *)

Inductive poll_view : Type :=
| PollSucceeded (result : api_response)
| PollFailed (result : api_response)
| PollRunning
| PollBroken (e : exn).

Definition observe_poll (E : Externals) (task_id : value) (api_key : string)
    (tick : nat) : poll_view :=
  match ImageSynthesis_fetch E task_id api_key tick with
  | inl e => PollBroken e
  | inr result =>
      match member "task_status" (output result) with
      | Some st =>
          if eq_str st "SUCCEEDED" then PollSucceeded result
          else if eq_str st "FAILED" then PollFailed result
          else PollRunning
      | None => PollBroken (interp_raise E (NoAttribute (output result) "task_status"))
      end
  end.

(** The task is running at each of the [n] polls made from tick [t0] on. *)
Definition running_until (E : Externals) (task_id : value) (api_key : string)
    (t0 n : nat) : Prop :=
  forall m, m < n -> observe_poll E task_id api_key (t0 + m) = PollRunning.

(** The world after [n] polls that showed a running task, each followed
    by a sleep of three seconds. *)
Definition after_running (w : world) (n : nat) : world :=
  mkWorld (environ_key w) (ticks w + n) (sleeps w ++ repeat 3%Z n)%list (stdout w).

(** The world in which an async call starts to poll: the credential is
    set and the submission has been made. *)
Definition submitted_world (api_key : string) (w : world) : world :=
  mkWorld (Some api_key) (S (ticks w)) (sleeps w) (stdout w).

(** The error the async mode raises on the failure state. *)
Definition task_failed (E : Externals) (result : api_response) : exn :=
  Exception ("异步任务失败: " ++ py_str E (output result)).

(** *** Auxiliary notions of the proofs *)

(** A fragment that is there only under a condition. *)
Definition fragment (c : bool) (s : string) : list string :=
  if c then [s] else [].

(** Every registered style has fragments and keywords that are not empty. *)
Definition well_filled (t : StyleTemplate) : bool :=
  PyStr.nonempty (base_prompt t)
  && PyStr.nonempty (photography_style t)
  && PyStr.nonempty (lighting t)
  && PyStr.nonempty (negative_prompt t)
  && forallb PyStr.nonempty (quality_keywords t)
  && negb (Nat.eqb (List.length (quality_keywords t)) 0).

(** ** A concrete outside world

    One instance of [Externals], small enough to run the service on:
    the examples and instances below are evaluated in it. *)

Module Demo.

Definition image_link : value := JStr "https://dashscope.example/result/1.png".

Definition is_space (c : ascii) : bool :=
  existsb (Ascii.eqb c) [" "%char; "009"%char; "010"%char; "013"%char].

Fixpoint lstrip (s : string) : string :=
  match s with
  | String c rest => if is_space c then lstrip rest else s
  | EmptyString => EmptyString
  end.

Fixpoint rstrip (s : string) : string :=
  match s with
  | String c rest =>
      match rstrip rest with
      | EmptyString => if is_space c then EmptyString else String c EmptyString
      | rest' => String c rest'
      end
  | EmptyString => EmptyString
  end.

Definition strip (s : string) : string := rstrip (lstrip s).

(** A serializer for the values of the examples: compact, strings
    without escapes, every float printed as [0.0]. *)
Definition quote : string := String (ascii_of_nat 34) EmptyString.

Definition quoted (s : string) : string := quote ++ s ++ quote.

Fixpoint dumps (v : value) : string :=
  match v with
  | JNull => "null"
  | JBool true => "true"
  | JBool false => "false"
  | JInt n => NilZero.string_of_int (Z.to_int n)
  | JFloat _ => "0.0"
  | JStr s => quoted s
  | JList items => "[" ++ PyStr.join ", " (map dumps items) ++ "]"
  | JDict entries =>
      "{" ++ PyStr.join ", "
               (map (fun kv => let '(k, x) := kv in quoted k ++ ": " ++ dumps x) entries)
          ++ "}"
  end.

(** The requests the parser of the examples knows: it reads back what
    [dumps] writes for them and refuses every other text. *)
Definition call_of (params : value) : value :=
  JDict [("jsonrpc", JStr "2.0"); ("id", JInt 1);
         ("method", JStr "tools/call"); ("params", params)].

Definition known_requests : list value :=
  [JDict [];
   JNull;
   JDict [("jsonrpc", JStr "2.0"); ("id", JInt 0); ("method", JStr "tools/list")];
   call_of JNull;
   call_of (JDict [("name", JStr "resize_image"); ("arguments", JDict [])]);
   call_of (JDict [("name", JStr "generate_image");
                   ("arguments", JDict [("prompt", JStr "a red bicycle");
                                        ("colour", JStr "red")])])].

Definition loads (s : string) : option value :=
  find (fun v => dumps v =? s) known_requests.

(** A line of input: the text and the newline [readline] keeps. *)
Definition input_line (text : string) : string :=
  text ++ String (ascii_of_nat 10) EmptyString.

Definition class_of (f : fault) : string :=
  match f with
  | MissingKey _ => "KeyError"
  | NoAttribute _ _ => "AttributeError"
  | _ => "TypeError"
  end.

Definition wording (f : fault) : string :=
  match f with
  | NotAMapping _ => "argument after ** must be a mapping"
  | UnexpectedKeyword k => "got an unexpected keyword argument '" ++ k ++ "'"
  | MissingArgument k => "missing 1 required positional argument: '" ++ k ++ "'"
  | MissingKey k => "'" ++ k ++ "'"
  | Unhashable _ => "unhashable type"
  | NotIterable _ => "argument is not iterable"
  | JoinItem _ _ => "sequence item: expected str instance"
  | NoAttribute _ attr => "object has no attribute '" ++ attr ++ "'"
  | NotSubscriptable _ => "object is not subscriptable"
  | EnvironValue _ => "str expected"
  end.

Definition repr (v : value) : string :=
  match v with
  | JNull => "None"
  | JBool true => "True"
  | JBool false => "False"
  | JStr s => s
  | _ => "<object>"
  end.

Definition chat_reply : api_response :=
  {| status_code := 200;
     code := JStr "";
     message := JStr "";
     output :=
       JDict [("choices",
               JList [JDict [("message",
                              JDict [("content",
                                      JList [JDict [("image", image_link)]])])]])] |}.

Definition synthesis_reply (status : string) : api_response :=
  {| status_code := 200;
     code := JStr "";
     message := JStr "";
     output :=
       JDict [("task_id", JStr "task-1");
              ("task_status", JStr status);
              ("results", JList [JDict [("url", image_link)]])] |}.

Definition not_found : exn :=
  mkExn "HTTPError" "404 Client Error: Not Found for url".

Definition path_join (dir : value) (filename : string) : exn + string :=
  match dir with
  | JStr d => inr (d ++ "/" ++ filename)
  | _ => inl (mkExn "TypeError" "expected str, bytes or os.PathLike object")
  end.

(** [fetch] is the provider's answer to the poll made at a given tick,
    [download] the answer of the image host. *)
Definition externals (fetch : nat -> exn + api_response)
    (download : http_response) : Externals :=
  {| interp_raise := fun f => mkExn (class_of f) (wording f);
     py_repr := repr;
     str_strip := strip;
     json_loads := loads;
     json_dumps := dumps;
     json_dumps_indent := dumps;
     total_seconds := fun _ _ => 0%Z;
     strftime_now := fun _ => "20250101_000000";
     uuid4 := fun _ => "123e4567-e89b-12d3-a456-426614174000";
     MultiModalConversation_call := fun _ _ => inr chat_reply;
     ImageSynthesis_call := fun _ _ => inr (synthesis_reply "SUCCEEDED");
     ImageSynthesis_async_call := fun _ _ => inr (synthesis_reply "PENDING");
     ImageSynthesis_fetch := fun _ _ t => fetch t;
     os_path_exists := fun _ _ => inr true;
     os_makedirs := fun _ _ => inr tt;
     os_path_join := path_join;
     requests_get := fun _ _ _ => inr download;
     write_file := fun _ _ _ => inr tt |}.

Definition image_bytes : http_response :=
  {| raise_for_status := None; content := "PNG" |}.

Definition missing_image : http_response :=
  {| raise_for_status := Some not_found; content := "" |}.

(** A task that is running for the polls at ticks below [ready] and has
    the given final status afterwards. *)
Definition task (ready : nat) (final : string) (t : nat) : exn + api_response :=
  if (t <? ready)%nat then inr (synthesis_reply "RUNNING")
  else inr (synthesis_reply final).

Definition stuck (t : nat) : exn + api_response := inr (synthesis_reply "RUNNING").

(** The provider answers, the image host serves the image. *)
Definition healthy : Externals := externals (task 4 "SUCCEEDED") image_bytes.

(** The provider answers, the image host answers 404. *)
Definition download_404 : Externals := externals (task 4 "SUCCEEDED") missing_image.

(** The async task ends in the failure state. *)
Definition failing_task : Externals := externals (task 4 "FAILED") image_bytes.

(** The async task never leaves the running state. *)
Definition stuck_task : Externals := externals stuck image_bytes.

Definition world0 : world :=
  {| environ_key := Some "sk-demo"; ticks := 0; sleeps := []; stdout := [] |}.

Definition args (prompt : string) : GenerateArgs :=
  {| arg_prompt := JStr prompt;
     arg_api_key := JNull;
     arg_style := JStr "general";
     arg_platform := JStr "general";
     arg_size := JStr "1328*1328";
     arg_model := JStr "qwen-image";
     arg_call_mode := JStr "multimodal";
     arg_prompt_extend := JBool true;
     arg_watermark := JBool false;
     arg_negative_prompt := JNull;
     arg_seed := JNull;
     arg_enable_enhancement := JBool true;
     arg_custom_enhancement := JNull;
     arg_save_local := JBool true;
     arg_output_dir := JStr "generated_images" |}.

End Demo.

(** ** Further notions of the proofs *)





(** A computation that neither waits nor touches the world. *)
Definition pure_step {A : Type} (m : M A) : Prop :=
  forall w, (exists a, m w = Returns a w) \/ (exists e, m w = Raises e w).

Definition is_str (v : value) : bool :=
  match v with JStr _ => true | _ => false end.



(** The bytes of a string. *)
Fixpoint bytes (s : string) : list ascii :=
  match s with
  | EmptyString => []
  | String c rest => c :: bytes rest
  end.

(** [s[n:]] on bytes. *)
Fixpoint drop (n : nat) (s : string) : string :=
  match n, s with
  | O, _ => s
  | S k, String _ rest => drop k rest
  | S _, EmptyString => EmptyString
  end.

(** The two results [generate_image] builds, and the local-save step of
    its [try] block, as named terms. *)
Definition failure_result (E : Externals) (e : exn) (t0 t1 : nat) : ImageGenerationResult :=
  {| success := false;
     image_url := JNull;
     local_path := JNull;
     error_message := JStr ("生成图片失败: " ++ exn_str e);
     generation_time := JFloat (total_seconds E t0 t1);
     config_used := JNull |}.

Definition success_result (E : Externals) (a : GenerateArgs)
    (enhanced negative url path : value) (t0 t1 : nat) : ImageGenerationResult :=
  {| success := true;
     image_url := url;
     local_path := path;
     error_message := JNull;
     generation_time := JFloat (total_seconds E t0 t1);
     config_used :=
       JDict [("prompt", arg_prompt a);
              ("enhanced_prompt", enhanced);
              ("style", arg_style a);
              ("platform", arg_platform a);
              ("size", arg_size a);
              ("model", arg_model a);
              ("call_mode", arg_call_mode a);
              ("prompt_extend", arg_prompt_extend a);
              ("watermark", arg_watermark a);
              ("negative_prompt", negative);
              ("seed", arg_seed a)] |}.

Definition save_step (E : Externals) (self : QwenImageMCPService) (a : GenerateArgs)
    (url : value) : M value :=
  if truthy (arg_save_local a)
  then bind (_generate_filename E self (arg_prompt a) (arg_style a) (arg_size a))
         (fun filename =>
            bind (_download_image E self url filename (arg_output_dir a))
                 (fun p => ret (JStr p)))
  else ret JNull.

(** The message of the configuration error. *)
Definition missing_key_error : exn :=
  ValueError "API密钥未提供。请通过参数或环境变量 DASHSCOPE_API_KEY 设置".

(** ** load_env.py *)

Module LoadEnv.

(** What the script works on: [os.environ], where the latest assignment
    of a name comes first, and the lines printed. *)
Record shell : Type := mkShell {
  environ : list (string * string);
  terminal : list string
}.

(** [s.split(sep, 1)] for a one-byte separator that occurs in [s]: the
    text before its first occurrence and the text after it. *)
Fixpoint split_once (sep : ascii) (s : string) : option (string * string) :=
  match s with
  | EmptyString => None
  | String c rest =>
      if Ascii.eqb c sep then Some (EmptyString, rest)
      else match split_once sep rest with
           | Some (before, after) => Some (String c before, after)
           | None => None
           end
  end.

Section Script.

Variable E : Externals.

(** What [os.environ[key] = value] raises, if anything (an empty name, a
    NUL byte). *)
Variable putenv_error : string -> string -> option exn.

(** The body of the [for] loop. *)
Definition load_line (line : string) (sh : shell) : option exn * shell :=
  let line := str_strip E line in
  if PyStr.nonempty line && negb (String.prefix "#" line) && PyStr.contains "=" line
  then
    match split_once "=" line with
    | Some (key, val) =>
        match putenv_error key val with
        | Some e => (Some e, sh)
        | None =>
            (None,
             {| environ := (key, val) :: environ sh;
                terminal := (terminal sh ++ [("✅ 已加载环境变量: " ++ key)%string])%list |})
        end
    | None => (None, sh)
    end
  else (None, sh).

Fixpoint load_lines (lines : list string) (sh : shell) : option exn * shell :=
  match lines with
  | [] => (None, sh)
  | line :: rest =>
      match load_line line sh with
      | (Some e, sh') => (Some e, sh')
      | (None, sh') => load_lines rest sh'
      end
  end.

(** [load_env()]: [env_file] is the lines of the [.env] file when it
    exists, [shown_path] the text the path is printed as. *)
Definition load_env (env_file : option (list string)) (shown_path : string)
    (sh : shell) : option exn * shell :=
  match env_file with
  | Some lines => load_lines lines sh
  | None =>
      (None,
       {| environ := environ sh;
          terminal := (terminal sh ++ [("❌ 未找到 .env 文件: " ++ shown_path)%string])%list |})
  end.

End Script.

End LoadEnv.

(** ** The driver scripts *)

Module Drivers.

Record Task : Type := mkTask {
  task_name : string;
  task_prompt : string;
  task_style : string;
  task_platform : string;
  task_size : string
}.

Definition study_tasks : list Task :=
  [ {| task_name := "整洁学习桌面";
       task_prompt := "整洁有序的学习桌面，MacBook笔记本电脑，咖啡杯，笔记本，暖色调灯光，现代简约风格";
       task_style := "lifestyle";
       task_platform := "xiaohongshu";
       task_size := "1472*1140" |};
    {| task_name := "编程代码界面";
       task_prompt := "程序员编程界面，代码编辑器屏幕，Python代码，专业显示器，键盘鼠标，科技感";
       task_style := "tech";
       task_platform := "xiaohongshu";
       task_size := "1472*1140" |};
    {| task_name := "学习笔记本";
       task_prompt := "精美的学习笔记本摊开，手写笔记，彩色标记笔，知识框架图，文艺清新风格";
       task_style := "lifestyle";
       task_platform := "xiaohongshu";
       task_size := "1472*1140" |} ].

Definition analysis_tasks : list Task :=
  [ {| task_name := "科技发展趋势图表";
       task_prompt := "科技发展趋势分析图表，上升箭头，数据可视化，蓝色科技风格，专业商务背景";
       task_style := "business";
       task_platform := "xiaohongshu";
       task_size := "1472*1140" |};
    {| task_name := "AI芯片技术";
       task_prompt := "先进的AI芯片，半导体技术，电路板特写，高科技感，金属质感，蓝光效果";
       task_style := "tech";
       task_platform := "xiaohongshu";
       task_size := "1472*1140" |};
    {| task_name := "数据中心服务器";
       task_prompt := "现代化数据中心，服务器机架，蓝色指示灯，科技走廊，未来感设计";
       task_style := "tech";
       task_platform := "xiaohongshu";
       task_size := "1472*1140" |};
    {| task_name := "全球网络连接";
       task_prompt := "全球互联网络示意图，地球模型，连接线条，数字化概念，深蓝色背景";
       task_style := "tech";
       task_platform := "xiaohongshu";
       task_size := "1472*1140" |};
    {| task_name := "创新实验室";
       task_prompt := "现代科技实验室，研究人员工作场景，高科技设备，创新氛围，明亮照明";
       task_style := "business";
       task_platform := "xiaohongshu";
       task_size := "1472*1140" |} ].

Definition newline : string := String (ascii_of_nat 10) EmptyString.

(** [str(i)] for a loop index. *)
Definition decimal (n : nat) : string := NilZero.string_of_uint (Nat.to_uint n).

(** ["=" * n] *)
Fixpoint rule (n : nat) : string :=
  match n with
  | O => EmptyString
  | S k => String "="%char (rule k)
  end.

Section Scripts.

Variable E : Externals.

(** The error of reading an attribute that an object does not have, by
    class name and attribute name; class and wording are the
    interpreter's. *)
Variable no_attribute : string -> string -> exn.

(** The keyword arguments the scripts pass; the rest are the defaults of
    [generate_image]. *)
Definition task_args (api_key : value) (output_dir : string) (task : Task) : GenerateArgs :=
  {| arg_prompt := JStr (task_prompt task);
     arg_api_key := api_key;
     arg_style := JStr (task_style task);
     arg_platform := JStr (task_platform task);
     arg_size := JStr (task_size task);
     arg_model := JStr "qwen-image";
     arg_call_mode := JStr "multimodal";
     arg_prompt_extend := JBool true;
     arg_watermark := JBool false;
     arg_negative_prompt := JNull;
     arg_seed := JNull;
     arg_enable_enhancement := JBool true;
     arg_custom_enhancement := JNull;
     arg_save_local := JBool true;
     arg_output_dir := JStr output_dir |}.

(** One turn of the loop over the tasks: the entry appended to
    [results].  [ImageGenerationResult] has no attribute [error], so the
    branch of a failed generation raises when it reads [result.error]. *)
Definition run_task (service : QwenImageMCPService) (api_key : value)
    (output_dir : string) (i : nat) (task : Task) : M value :=
  try_except
    (print (newline ++ "🎨 正在生成第" ++ decimal i ++ "张图片: " ++ task_name task) ;;;
     print ("   提示词: " ++ task_prompt task) ;;;
     result <- generate_image E service 0 (task_args api_key output_dir task) ;;
     if success result then
       print "✅ 生成成功!" ;;;
       print ("   文件路径: " ++ py_str E (local_path result)) ;;;
       ret (JDict [("name", JStr (task_name task));
                   ("path", local_path result);
                   ("success", JBool true)])
     else
       error <- raise (no_attribute "ImageGenerationResult" "error") ;;
       print ("❌ 生成失败: " ++ py_str E error) ;;;
       ret (JDict [("name", JStr (task_name task));
                   ("error", error);
                   ("success", JBool false)]))
    (fun e =>
       print ("❌ 生成第" ++ decimal i ++ "张图片时出错: " ++ exn_str e) ;;;
       ret (JDict [("name", JStr (task_name task));
                   ("error", JStr (exn_str e));
                   ("success", JBool false)])).

Fixpoint run_tasks (service : QwenImageMCPService) (api_key : value)
    (output_dir : string) (i : nat) (tasks : list Task) : M (list value) :=
  match tasks with
  | [] => ret []
  | task :: rest =>
      entry <- run_task service api_key output_dir i task ;;
      entries <- run_tasks service api_key output_dir (S i) rest ;;
      ret (entry :: entries)
  end.

(** The loop that prints the summary. *)
Fixpoint print_summary (i : nat) (results : list value) : M unit :=
  match results with
  | [] => ret tt
  | result :: rest =>
      ok <- getattr E result "success" ;;
      (if truthy ok then
         name <- getattr E result "name" ;;
         path <- getattr E result "path" ;;
         print (decimal i ++ ". ✅ " ++ py_str E name ++ ": " ++ py_str E path)
       else
         name <- getattr E result "name" ;;
         error <- getattr E result "error" ;;
         print (decimal i ++ ". ❌ " ++ py_str E name ++ ": " ++ py_str E error)) ;;;
      print_summary (S i) rest
  end.

Fixpoint print_all (lines : list string) : M unit :=
  match lines with
  | [] => ret tt
  | line :: rest => print line ;;; print_all rest
  end.

(** The body the two scripts share: [no_key_lines] is what is printed
    when there is no credential, [tasks] the list of tasks. *)
Definition generate_images (no_key_lines : list string) (tasks : list Task)
    : M (list value) :=
  api_key <- os_environ_get_key ;;
  if negb (truthy api_key) then
    print_all no_key_lines ;;; ret []
  else
    let service := __init__ in
    let output_dir := "generated_images" in
    external (os_makedirs E (JStr output_dir)) ;;;
    results <- run_tasks service api_key output_dir 1 tasks ;;
    print (newline ++ rule 50) ;;;
    print "📊 生成结果汇总:" ;;;
    print_summary 1 results ;;;
    ret results.

Definition generate_study_images : M (list value) :=
  generate_images
    ["❌ 请设置 DASHSCOPE_API_KEY 环境变量"; "⏭️  跳过AI生成，使用现有图片"]
    study_tasks.

Definition generate_analysis_images : M (list value) :=
  generate_images ["❌ 请设置 DASHSCOPE_API_KEY 环境变量"] analysis_tasks.

End Scripts.

(** The text of the error of reading [result.error]. *)
Definition attribute_error_text (no_attribute : string -> string -> exn) : string :=
  exn_str (no_attribute "ImageGenerationResult" "error").

(** The names of the entries of a result list. *)
Definition entry_names (results : list value) : list value :=
  flat_map (fun r => match member "name" r with Some n => [n] | None => [] end) results.

(** An entry of a generation that succeeded, and the entry the scripts
    record for every other task. *)
Definition is_success_entry (entry : value) : bool :=
  match member "success" entry, member "path" entry, member "error" entry with
  | Some (JBool true), Some _, None => true
  | _, _, _ => false
  end.

Definition is_attribute_error_entry (text : string) (entry : value) : bool :=
  match member "success" entry, member "path" entry, member "error" entry with
  | Some (JBool false), None, Some (JStr t) => (t =? text)
  | _, _, _ => false
  end.

End Drivers.

(** ** More of the concrete world *)

Module Scenes.

(** Random ids that differ from one call to the next. *)
Definition varied_ids : Externals :=
  {| interp_raise := interp_raise Demo.healthy;
     py_repr := py_repr Demo.healthy;
     str_strip := str_strip Demo.healthy;
     json_loads := json_loads Demo.healthy;
     json_dumps := json_dumps Demo.healthy;
     json_dumps_indent := json_dumps_indent Demo.healthy;
     total_seconds := total_seconds Demo.healthy;
     strftime_now := strftime_now Demo.healthy;
     uuid4 := fun t => if Nat.eqb t 1
                       then "0f8fad5b-d9cb-469f-a165-70867728950e"
                       else "7c9e6679-7425-40de-944b-e07fc1f90ae7";
     MultiModalConversation_call := MultiModalConversation_call Demo.healthy;
     ImageSynthesis_call := ImageSynthesis_call Demo.healthy;
     ImageSynthesis_async_call := ImageSynthesis_async_call Demo.healthy;
     ImageSynthesis_fetch := ImageSynthesis_fetch Demo.healthy;
     os_path_exists := os_path_exists Demo.healthy;
     os_makedirs := os_makedirs Demo.healthy;
     os_path_join := os_path_join Demo.healthy;
     requests_get := requests_get Demo.healthy;
     write_file := write_file Demo.healthy |}.

(** A process without the credential variable. *)
Definition bare_world : world :=
  {| environ_key := None; ticks := 0; sleeps := []; stdout := [] |}.

Definition later_world : world :=
  {| environ_key := Some "sk-demo"; ticks := 2; sleeps := []; stdout := [] |}.

Definition putenv_ok (key val : string) : option exn := None.

Definition no_attribute (class attr : string) : exn :=
  mkExn "AttributeError"
        ("'" ++ class ++ "' object has no attribute '" ++ attr ++ "'").

Definition resources_request : list (string * value) :=
  [("jsonrpc", JStr "2.0"); ("id", JInt 3); ("method", JStr "resources/list")].

Definition null_params_request : list (string * value) :=
  [("jsonrpc", JStr "2.0"); ("id", JInt 1);
   ("method", JStr "tools/call"); ("params", JNull)].

Definition list_request : value :=
  JDict [("jsonrpc", JStr "2.0"); ("id", JInt 0); ("method", JStr "tools/list")].

Definition async_args (prompt : string) : GenerateArgs :=
  {| arg_prompt := JStr prompt;
     arg_api_key := JStr "sk-other";
     arg_style := JStr "tech";
     arg_platform := JStr "weibo";
     arg_size := JStr "1664*928";
     arg_model := JStr "qwen-image";
     arg_call_mode := JStr "async";
     arg_prompt_extend := JBool true;
     arg_watermark := JBool false;
     arg_negative_prompt := JStr "文字";
     arg_seed := JInt 0;
     arg_enable_enhancement := JBool true;
     arg_custom_enhancement := JNull;
     arg_save_local := JBool false;
     arg_output_dir := JStr "generated_images" |}.

Definition old_shell : LoadEnv.shell :=
  {| LoadEnv.environ := [("DASHSCOPE_API_KEY", "old")]; LoadEnv.terminal := [] |}.

(** The first task of the study script. *)
Definition desk_task : Drivers.Task :=
  hd (Drivers.mkTask "" "" "" "" "") Drivers.study_tasks.

End Scenes.

(** * Properties *)

Section Properties.

Variable E : Externals.

(** ** The monad *)

Lemma bind_returns {A B : Type} (m : M A) (k : A -> M B) (w w' : world) (a : A) :
  m w = Returns a w' -> bind m k w = k a w'.
Proof. intros H. unfold bind. now rewrite H. Qed.

Lemma bind_raises {A B : Type} (m : M A) (k : A -> M B) (w w' : world) (e : exn) :
  m w = Raises e w' -> bind m k w = Raises e w'.
Proof. intros H. unfold bind. now rewrite H. Qed.

Lemma bind_pending {A B : Type} (m : M A) (k : A -> M B) (w : world) :
  m w = Pending -> bind m k w = Pending.
Proof. intros H. unfold bind. now rewrite H. Qed.

(** [except Exception as e: ...; raise] changes nothing. *)
Lemma try_reraise {A : Type} (m : M A) (w : world) :
  try_except m (fun e => raise e) w = m w.
Proof. unfold try_except, raise. now destruct (m w). Qed.

(** A handler that returns turns every exception into a return. *)
Lemma try_except_total {A : Type} (m : M A) (h : exn -> A) (w : world) :
  match try_except m (fun e => ret (h e)) w with
  | Raises _ _ => False
  | _ => True
  end.
Proof. unfold try_except, ret. now destruct (m w). Qed.

(** ** Strings and lists *)

(** [contains] is the substring test. *)
Lemma prefix_spec (p s : string) :
  String.prefix p s = true <-> exists t, s = p ++ t.
Proof.
  revert s. induction p as [|a p IH]; intros s.
  - split; [intros _; now exists s | intros _; now destruct s].
  - destruct s as [|b s]; simpl.
    + split; [discriminate | intros [t Ht]; discriminate].
    + destruct (ascii_dec a b) as [->|Hab].
      * rewrite IH. split; intros [t Ht]; exists t.
        -- now rewrite Ht.
        -- now injection Ht.
      * split; [discriminate|].
        intros [t Ht]. injection Ht as Hb _. now symmetry in Hb.
Qed.

Lemma contains_spec (needle hay : string) :
  PyStr.contains needle hay = true <-> exists a b, hay = a ++ needle ++ b.
Proof.
  induction hay as [|c hay IH]; cbn [PyStr.contains].
  - rewrite orb_false_r, prefix_spec. split.
    + intros [t Ht]. now exists "", t.
    + intros (a & b & H). destruct a; [|discriminate]. now exists b.
  - rewrite orb_true_iff, prefix_spec, IH. split.
    + intros [[t Ht]|(a & b & H)].
      * now exists "", t.
      * exists (String c a), b. simpl. now rewrite H.
    + intros (a & b & H). destruct a as [|c' a]; simpl in H.
      * left. now exists b.
      * right. injection H as _ H. now exists a, b.
Qed.

Example contains_example :
  PyStr.contains "质量" "高质量图片" = true /\ PyStr.contains "图质" "高质量图片" = false.
Proof. split; reflexivity. Qed.

Example replace_example :
  PyStr.replace "，" "_" "红色，自行车，" = "红色_自行车_"
  /\ PyStr.replace "*" "x" "1328*1328" = "1328x1328".
Proof. split; reflexivity. Qed.

Example take_example :
  PyStr.take 10 "一辆红色的自行车停在海边的路上" = "一辆红色的自行车停在"
  /\ PyStr.take 10 "bike" = "bike".
Proof. split; reflexivity. Qed.

Lemma join_items_strs (i : nat) (l : list string) (w : world) :
  join_items E i (map JStr l) w = Returns l w.
Proof.
  revert i. induction l as [|s l IH]; intros i; simpl.
  - reflexivity.
  - unfold bind. now rewrite IH.
Qed.

Lemma py_join_strs (sep : string) (l : list string) (w : world) :
  py_join E sep (map JStr l) w = Returns (JStr (PyStr.join sep l)) w.
Proof. unfold py_join, bind. now rewrite join_items_strs. Qed.

Lemma append_if_strs (c : bool) (l : list string) (s : string) :
  append_if c (map JStr l) (JStr s) = map JStr (l ++ fragment c s)%list.
Proof.
  destruct c; simpl.
  - now rewrite map_app.
  - now rewrite app_nil_r.
Qed.

Lemma skip_empty_one (s : string) :
  Spec.skip_empty [s] = fragment (PyStr.nonempty s) s.
Proof. unfold Spec.skip_empty; simpl. now destruct (PyStr.nonempty s). Qed.

Lemma skip_empty_app (l1 l2 : list string) :
  Spec.skip_empty (l1 ++ l2)%list = (Spec.skip_empty l1 ++ Spec.skip_empty l2)%list.
Proof. apply filter_app. Qed.

Lemma skip_empty_all (l : list string) :
  forallb PyStr.nonempty l = true -> Spec.skip_empty l = l.
Proof.
  induction l as [|s l IH]; simpl; intros H.
  - reflexivity.
  - apply andb_prop in H. destruct H as [Hs Hl].
    rewrite Hs. now rewrite IH.
Qed.

Lemma dict_lookup_in {A : Type} (k : string) (d : list (string * A)) (a : A) :
  dict_lookup k d = Some a -> In a (map snd d).
Proof.
  induction d as [|[k' a'] d IH]; simpl.
  - discriminate.
  - destruct (k' =? k).
    + intros H. injection H as ->. now left.
    + intros H. right. now apply IH.
Qed.

(** ** The registry *)

Lemma general_style_registered :
  dict_lookup "general" (_style_templates __init__) = Some Spec.general_style.
Proof. reflexivity. Qed.

Lemma general_platform_registered :
  dict_lookup "general" (_platform_configs __init__) = Some Spec.general_platform.
Proof. reflexivity. Qed.

Lemma style_template_of_string (key : string) (w : world) :
  style_template_of E __init__ (JStr key) w = Returns (Spec.lookupStyle key) w.
Proof.
  unfold style_template_of, dict_getitem.
  rewrite general_style_registered.
  reflexivity.
Qed.

Lemma platform_config_of_string (key : string) (w : world) :
  platform_config_of E __init__ (JStr key) w = Returns (Spec.lookupPlatform key) w.
Proof.
  unfold platform_config_of, dict_getitem.
  rewrite general_platform_registered.
  reflexivity.
Qed.

Lemma lookupStyle_well_filled (key : string) :
  well_filled (Spec.lookupStyle key) = true.
Proof.
  unfold Spec.lookupStyle.
  destruct (dict_lookup key (_style_templates __init__)) as [t|] eqn:Hk.
  - apply dict_lookup_in in Hk.
    assert (Hall : forallb well_filled (map snd (_style_templates __init__)) = true)
      by (vm_compute; reflexivity).
    rewrite forallb_forall in Hall. now apply Hall.
  - vm_compute; reflexivity.
Qed.

(** ** Prompt composition *)

Lemma extend_if_strs (l kws : list string) :
  extend_if (nonempty_list kws) (map JStr l) (map JStr kws) = map JStr (l ++ kws)%list.
Proof.
  destruct kws; simpl.
  - now rewrite app_nil_r.
  - now rewrite map_app.
Qed.

Lemma append_custom_strs (raw : string) (custom : option string) :
  append_if (truthy (of_option custom)) [JStr raw] (of_option custom)
  = map JStr (raw :: Spec.skip_empty (Spec.if_present custom)).
Proof.
  destruct custom as [c|]; simpl.
  - now destruct (PyStr.nonempty c).
  - reflexivity.
Qed.

Lemma base_fragment_spec (base raw : string) :
  fragment (if PyStr.nonempty base then negb (PyStr.contains base raw) else false) base
  = Spec.skip_empty (if PyStr.contains base raw then [] else [base]).
Proof.
  unfold Spec.skip_empty.
  destruct (PyStr.contains base raw); simpl; destruct (PyStr.nonempty base); reflexivity.
Qed.

(** The code's prompt for string arguments, enhancement on, is the
    specification's [composePrompt]. *)
Lemma enhance_prompt_strings (raw style platform : string) (custom : option string)
    (w : world) :
  _enhance_prompt E __init__ (JStr raw) (JStr style) (JStr platform)
                  (JBool true) (of_option custom) w
  = Returns (JStr (Spec.composePrompt raw style platform custom)) w.
Proof.
  unfold _enhance_prompt. cbn [truthy negb].
  rewrite (bind_returns _ _ _ _ _ (style_template_of_string style w)).
  pose proof (lookupStyle_well_filled style) as Hwf.
  unfold Spec.composePrompt, Spec.composePrompt_fragments.
  set (st := Spec.lookupStyle style) in *.
  set (pc := Spec.lookupPlatform platform).
  assert (Hbase :
    (if PyStr.nonempty (base_prompt st)
     then bind (py_contains E (base_prompt st) (JStr raw)) (fun found => ret (negb found))
     else ret false) w
    = Returns (if PyStr.nonempty (base_prompt st)
               then negb (PyStr.contains (base_prompt st) raw) else false) w).
  { destruct (PyStr.nonempty (base_prompt st)); reflexivity. }
  rewrite (bind_returns _ _ _ _ _ Hbase).
  rewrite (bind_returns _ _ _ _ _ (platform_config_of_string platform w)).
  fold pc.
  rewrite append_custom_strs.
  rewrite !append_if_strs, extend_if_strs, !append_if_strs.
  rewrite py_join_strs.
  do 2 f_equal. unfold delimiter. f_equal.
  unfold well_filled in Hwf.
  repeat (apply andb_prop in Hwf; destruct Hwf as [Hwf ?]).
  change [photography_style st; lighting st]
    with ([photography_style st] ++ [lighting st])%list.
  change [suffix pc; style_modifier pc]
    with ([suffix pc] ++ [style_modifier pc])%list.
  rewrite !skip_empty_app, !skip_empty_one.
  rewrite (skip_empty_all (quality_keywords st)) by assumption.
  rewrite <- base_fragment_spec.
  simpl. rewrite <- !app_assoc. reflexivity.
Qed.

(** With a raw prompt that is not empty, no listed item of the composed
    prompt is empty: the fragments are the non-empty items of the whole
    list, raw prompt included. *)
Lemma composePrompt_fragments_nonempty_raw (raw style platform : string)
    (custom : option string) :
  PyStr.nonempty raw = true ->
  Spec.composePrompt_fragments raw style platform custom
  = Spec.skip_empty
      (raw :: Spec.if_present custom
           ++ (if PyStr.contains (base_prompt (Spec.lookupStyle style)) raw
               then [] else [base_prompt (Spec.lookupStyle style)])
           ++ [photography_style (Spec.lookupStyle style); lighting (Spec.lookupStyle style)]
           ++ quality_keywords (Spec.lookupStyle style)
           ++ [suffix (Spec.lookupPlatform platform);
               style_modifier (Spec.lookupPlatform platform)])%list.
Proof.
  intros Hraw. unfold Spec.composePrompt_fragments, Spec.skip_empty.
  simpl filter. now rewrite Hraw.
Qed.

(** C3. With enhancement enabled, the composed prompt is the join with
    the full-width comma of: the raw prompt, the custom text if present,
    the style's base prompt unless the raw prompt already contains it, the
    style's photography style, lighting and quality keywords in registry
    order, the platform's suffix and style modifier, where a fragment that
    is empty is left out.  Style and platform are looked up with the
    [general] fallback. *)
Theorem enhance_prompt_enabled (raw style platform : string) (custom : option string)
    (w : world) :
  _enhance_prompt E __init__ (JStr raw) (JStr style) (JStr platform)
                  (JBool true) (of_option custom) w
  = Returns (JStr (PyStr.join "，"
                     (Spec.composePrompt_fragments raw style platform custom))) w.
Proof. apply enhance_prompt_strings. Qed.

(** C4. With enhancement disabled the raw prompt is returned as it is,
    whatever the style, the platform and the custom text are. *)
Theorem enhance_prompt_disabled (self : QwenImageMCPService)
    (prompt style platform custom : value) (w : world) :
  _enhance_prompt E self prompt style platform (JBool false) custom w
  = Returns prompt w.
Proof. reflexivity. Qed.

(** The same for every value that counts as false. *)
Lemma enhance_prompt_falsy (self : QwenImageMCPService)
    (prompt style platform enable custom : value) (w : world) :
  truthy enable = false ->
  _enhance_prompt E self prompt style platform enable custom w = Returns prompt w.
Proof. intros H. unfold _enhance_prompt. now rewrite H. Qed.

(** ** Negative prompt *)

Lemma negative_prompt_strings (style : string) (custom : option string) (w : world) :
  _get_negative_prompt E __init__ (JStr style) (of_option custom) w
  = Returns (JStr (Spec.composeNegativePrompt style custom)) w.
Proof.
  unfold _get_negative_prompt.
  rewrite (bind_returns _ _ _ _ _ (style_template_of_string style w)).
  unfold Spec.composeNegativePrompt.
  rewrite skip_empty_app, skip_empty_one.
  assert (Hc : append_if (truthy (of_option custom)) [] (of_option custom)
               = map JStr (Spec.skip_empty (Spec.if_present custom))).
  { destruct custom as [c|]; simpl; [now destruct (PyStr.nonempty c) | reflexivity]. }
  rewrite Hc, append_if_strs.
  apply py_join_strs.
Qed.

(** ** Lookup *)

Lemma lookupStyle_absent (key : string) :
  dict_has key (_style_templates __init__) = false ->
  Spec.lookupStyle key = Spec.general_style.
Proof.
  unfold dict_has, Spec.lookupStyle.
  now destruct (dict_lookup key (_style_templates __init__)).
Qed.

Lemma lookupPlatform_absent (key : string) :
  dict_has key (_platform_configs __init__) = false ->
  Spec.lookupPlatform key = Spec.general_platform.
Proof.
  unfold dict_has, Spec.lookupPlatform.
  now destruct (dict_lookup key (_platform_configs __init__)).
Qed.

Lemma lookupStyle_present (key : string) (t : StyleTemplate) :
  dict_lookup key (_style_templates __init__) = Some t ->
  Spec.lookupStyle key = t.
Proof. unfold Spec.lookupStyle. now intros ->. Qed.

(** A key that is hashable but not a string is no key of a registry:
    the fallback answers.  A list or a dict cannot be looked up. *)
Lemma style_template_of_value (key : value) (w : world) :
  style_template_of E __init__ key w
  = match key with
    | JStr k => Returns (Spec.lookupStyle k) w
    | JList _ | JDict _ => Raises (interp_raise E (Unhashable key)) w
    | _ => Returns Spec.general_style w
    end.
Proof. destruct key; reflexivity. Qed.

(** C5. Lookup of a style and of a platform never fails, whatever the
    key: it answers the registered template, and the [general] one when
    the key is not registered.  Prompt composition and the negative prompt
    both go through it and return for every key. *)
Theorem lookup_total (key : string) (w : world) :
  style_template_of E __init__ (JStr key) w
    = Returns (match dict_lookup key (_style_templates __init__) with
               | Some t => t
               | None => Spec.general_style
               end) w
  /\ platform_config_of E __init__ (JStr key) w
    = Returns (match dict_lookup key (_platform_configs __init__) with
               | Some c => c
               | None => Spec.general_platform
               end) w
  /\ (forall (raw platform : string) (custom : option string),
        _enhance_prompt E __init__ (JStr raw) (JStr key) (JStr platform)
                        (JBool true) (of_option custom) w
        = Returns (JStr (Spec.composePrompt raw key platform custom)) w)
  /\ (forall (raw style : string) (custom : option string),
        _enhance_prompt E __init__ (JStr raw) (JStr style) (JStr key)
                        (JBool true) (of_option custom) w
        = Returns (JStr (Spec.composePrompt raw style key custom)) w)
  /\ (forall custom : option string,
        _get_negative_prompt E __init__ (JStr key) (of_option custom) w
        = Returns (JStr (Spec.composeNegativePrompt key custom)) w).
Proof.
  split; [apply style_template_of_string|].
  split; [apply platform_config_of_string|].
  split; [intros; apply enhance_prompt_strings|].
  split; [intros; apply enhance_prompt_strings|].
  intros; apply negative_prompt_strings.
Qed.

(** ** Credential *)

Lemma usable_truthy (key : option string) :
  truthy (of_option key) = match Spec.usable key with Some _ => true | None => false end.
Proof.
  destruct key as [s|]; simpl; [|reflexivity].
  now destruct (PyStr.nonempty s).
Qed.

Lemma usable_some (key : option string) (k : string) :
  Spec.usable key = Some k -> key = Some k /\ PyStr.nonempty k = true.
Proof.
  destruct key as [s|]; simpl; [|discriminate].
  destruct (PyStr.nonempty s) eqn:Hs; [|discriminate].
  intros H. injection H as ->. now split.
Qed.

Lemma get_api_key_resolved (self : QwenImageMCPService) (provided : option string)
    (w : world) :
  _get_api_key self (of_option provided) w
  = match Spec.resolve_credential provided (environ_key w) with
    | Some k => Returns (JStr k) w
    | None =>
        Raises (ValueError "API密钥未提供。请通过参数或环境变量 DASHSCOPE_API_KEY 设置") w
    end.
Proof.
  unfold _get_api_key, Spec.resolve_credential, bind.
  rewrite usable_truthy.
  destruct (Spec.usable provided) as [k|] eqn:Hp.
  - apply usable_some in Hp. destruct Hp as [-> Hk].
    unfold ret. simpl. now rewrite Hk.
  - unfold os_environ_get_key.
    change (match environ_key w with Some s => JStr s | None => JNull end)
      with (of_option (environ_key w)).
    rewrite usable_truthy.
    destruct (Spec.usable (environ_key w)) as [k|] eqn:He.
    + apply usable_some in He. destruct He as [-> Hk]. reflexivity.
    + reflexivity.
Qed.

(** C10. An empty [api_key] argument counts as an absent one: a usable
    provided key is returned; without one the environment's credential is
    returned; and the configuration error is raised exactly when neither
    the provided key nor the environment's credential is usable, where
    usable means present and not empty. *)
Theorem get_api_key_credential (self : QwenImageMCPService) (provided : option string)
    (w : world) :
  _get_api_key self (JStr "") w = _get_api_key self JNull w
  /\ (forall k, Spec.usable provided = Some k ->
        _get_api_key self (of_option provided) w = Returns (JStr k) w)
  /\ (forall k, Spec.usable provided = None ->
        Spec.usable (environ_key w) = Some k ->
        _get_api_key self (of_option provided) w = Returns (JStr k) w)
  /\ ((exists e w', _get_api_key self (of_option provided) w = Raises e w')
      <-> Spec.usable provided = None /\ Spec.usable (environ_key w) = None).
Proof.
  split; [reflexivity|].
  rewrite get_api_key_resolved. unfold Spec.resolve_credential.
  split; [intros k ->; reflexivity|].
  split; [intros k -> ->; reflexivity|].
  destruct (Spec.usable provided) as [k|].
  - split; [intros (e & w' & H); discriminate | intros [H _]; discriminate].
  - destruct (Spec.usable (environ_key w)) as [k|].
    + split; [intros (e & w' & H); discriminate | intros [_ H]; discriminate].
    + split; [now split | intros _; eauto].
Qed.

(** ** Async mode: the polling loop *)

Lemma poll_task_step (fuel : nat) (task_id : value) (key : string) (w : world) :
  poll_task E (S fuel) task_id key w
  = match observe_poll E task_id key (ticks w) with
    | PollSucceeded r => Returns r (ticked w)
    | PollFailed r => Raises (task_failed E r) (ticked w)
    | PollRunning => poll_task E fuel task_id key (slept 3 (ticked w))
    | PollBroken e => Raises e (ticked w)
    end.
Proof.
  cbn [poll_task]. unfold bind at 1. unfold external, observe_poll.
  destruct (ImageSynthesis_fetch E task_id key (ticks w)) as [e|r]; [reflexivity|].
  unfold bind at 1. unfold getattr, member.
  destruct (output r) as [| | | | |items|d] eqn:Hout; try reflexivity.
  destruct (dict_lookup "task_status" d) as [st|]; [|reflexivity].
  unfold ret at 1.
  destruct (eq_str st "SUCCEEDED"); [reflexivity|].
  destruct (eq_str st "FAILED").
  - unfold raise, task_failed. now rewrite Hout.
  - reflexivity.
Qed.

Lemma after_running_step (w : world) (n : nat) :
  after_running (slept 3 (ticked w)) n = after_running w (S n).
Proof.
  unfold after_running, slept, ticked; simpl.
  rewrite <- app_assoc. simpl.
  now rewrite Nat.add_succ_r.
Qed.

Lemma after_running_0 (w : world) : after_running w 0 = w.
Proof.
  unfold after_running. destruct w; simpl.
  now rewrite Nat.add_0_r, app_nil_r.
Qed.

Lemma running_until_shift (task_id : value) (key : string) (t0 n : nat) :
  running_until E task_id key t0 (S n) ->
  observe_poll E task_id key t0 = PollRunning
  /\ running_until E task_id key (S t0) n.
Proof.
  intros H. split.
  - rewrite <- (Nat.add_0_r t0). apply H. lia.
  - intros m Hm. replace (S t0 + m) with (t0 + S m) by lia. apply H. lia.
Qed.

Lemma running_until_unshift (task_id : value) (key : string) (t0 n : nat) :
  observe_poll E task_id key t0 = PollRunning ->
  running_until E task_id key (S t0) n ->
  running_until E task_id key t0 (S n).
Proof.
  intros H0 H m Hm. destruct m as [|m].
  - now rewrite Nat.add_0_r.
  - replace (t0 + S m) with (S t0 + m) by lia. apply H. lia.
Qed.

(** [n] running polls use up [n] units of the budget and leave the loop
    where it started, [n] ticks and [n] sleeps later. *)
Lemma poll_task_running (n fuel : nat) (task_id : value) (key : string) (w : world) :
  running_until E task_id key (ticks w) n ->
  poll_task E (n + fuel) task_id key w
  = poll_task E fuel task_id key (after_running w n).
Proof.
  revert w. induction n as [|n IH]; intros w Hrun.
  - now rewrite after_running_0.
  - apply running_until_shift in Hrun. destruct Hrun as [H0 Hrun].
    change (S n + fuel) with (S (n + fuel)).
    rewrite poll_task_step, H0.
    rewrite IH by exact Hrun.
    now rewrite after_running_step.
Qed.

Lemma poll_task_pending (fuel : nat) (task_id : value) (key : string) (w : world) :
  running_until E task_id key (ticks w) fuel ->
  poll_task E fuel task_id key w = Pending.
Proof.
  intros Hrun. rewrite <- (Nat.add_0_r fuel).
  now rewrite poll_task_running.
Qed.

Lemma poll_task_terminal (n fuel : nat) (task_id : value) (key : string) (w : world) :
  running_until E task_id key (ticks w) n ->
  n < fuel ->
  poll_task E fuel task_id key w
  = match observe_poll E task_id key (ticks w + n) with
    | PollSucceeded r => Returns r (ticked (after_running w n))
    | PollFailed r => Raises (task_failed E r) (ticked (after_running w n))
    | PollRunning =>
        poll_task E (fuel - S n) task_id key (slept 3 (ticked (after_running w n)))
    | PollBroken e => Raises e (ticked (after_running w n))
    end.
Proof.
  intros Hrun Hlt.
  replace fuel with (n + S (fuel - S n)) at 1 by lia.
  rewrite poll_task_running by exact Hrun.
  now rewrite poll_task_step.
Qed.

(** Whatever the loop ends with, it ends at the first poll that does not
    show a running task. *)
Lemma poll_task_ends (fuel : nat) (task_id : value) (key : string) (w : world) :
  match poll_task E fuel task_id key w with
  | Pending => running_until E task_id key (ticks w) fuel
  | Returns r w' =>
      exists n, n < fuel /\ running_until E task_id key (ticks w) n
                /\ observe_poll E task_id key (ticks w + n) = PollSucceeded r
                /\ w' = ticked (after_running w n)
  | Raises e w' =>
      exists n, n < fuel /\ running_until E task_id key (ticks w) n
                /\ w' = ticked (after_running w n)
                /\ ((exists r, observe_poll E task_id key (ticks w + n) = PollFailed r
                               /\ e = task_failed E r)
                    \/ observe_poll E task_id key (ticks w + n) = PollBroken e)
  end.
Proof.
  revert w. induction fuel as [|fuel IH]; intros w.
  - simpl. intros m Hm. lia.
  - rewrite poll_task_step.
    destruct (observe_poll E task_id key (ticks w)) as [r|r| |e] eqn:Hobs.
    + exists 0. rewrite Nat.add_0_r, after_running_0.
      repeat split; try lia; try assumption. intros m Hm; lia.
    + exists 0. rewrite Nat.add_0_r, after_running_0.
      repeat split; try lia. { intros m Hm; lia. }
      left. exists r. now split.
    + specialize (IH (slept 3 (ticked w))).
      change (ticks (slept 3 (ticked w))) with (S (ticks w)) in IH.
      destruct (poll_task E fuel task_id key (slept 3 (ticked w))) as [r w'|e w'|].
      * destruct IH as (n & Hn & Hrun & Hobs' & ->).
        exists (S n). rewrite <- after_running_step.
        replace (ticks w + S n) with (S (ticks w) + n) by lia.
        repeat split; try lia; try assumption.
        now apply running_until_unshift.
      * destruct IH as (n & Hn & Hrun & -> & Hend).
        exists (S n). rewrite <- after_running_step.
        replace (ticks w + S n) with (S (ticks w) + n) by lia.
        repeat split; try lia; try assumption.
        now apply running_until_unshift.
      * now apply running_until_unshift.
    + exists 0. rewrite Nat.add_0_r, after_running_0.
      repeat split; try lia. { intros m Hm; lia. }
      now right.
Qed.

Lemma getattr_member (obj : value) (attr : string) (v : value) (w : world) :
  member attr obj = Some v -> getattr E obj attr w = Returns v w.
Proof.
  unfold member, getattr. destruct obj; try discriminate.
  now intros ->.
Qed.

(** In async mode, once the job is submitted, the call is the polling loop. *)
Lemma call_qwen_api_async (self : QwenImageMCPService) (fuel : nat)
    (prompt negative_prompt size model prompt_extend watermark seed : value)
    (key : string) (w : world) (submitted : api_response) (task_id : value) :
  ImageSynthesis_async_call E
    (mkRequest key model prompt
       (call_parameters negative_prompt size prompt_extend watermark seed
        ++ [("n", JInt 1)])%list)
    (ticks w) = inr submitted ->
  member "task_id" (output submitted) = Some task_id ->
  _call_qwen_api E self fuel prompt (JStr key) negative_prompt size model
                 (JStr "async") prompt_extend watermark seed w
  = poll_task E fuel task_id key (submitted_world key w).
Proof.
  intros Hsub Htask.
  unfold _call_qwen_api. unfold bind at 1. cbn [os_environ_set_key].
  rewrite try_reraise. cbn [eq_str].
  change ("async" =? "multimodal") with false.
  change ("async" =? "async") with true. cbv iota.
  unfold bind at 1. unfold external. cbn [ticks environ_key sleeps stdout].
  rewrite Hsub.
  unfold bind at 1. rewrite (getattr_member _ _ _ _ Htask).
  reflexivity.
Qed.

(** C8. In async mode, after the job is submitted, the gateway polls and
    sleeps three seconds after every poll that shows the task running.  It
    returns the polled result exactly when the first poll that does not
    show a running task reports SUCCEEDED, and raises the provider error
    exactly when that poll reports FAILED (a poll that itself breaks
    raises its own error).  No count of polls and no elapsed time ends the
    loop: while the polls show a running task, every budget of polls is
    used up with the call still pending. *)
Theorem async_mode_polls_until_terminal (self : QwenImageMCPService) (fuel : nat)
    (prompt negative_prompt size model prompt_extend watermark seed : value)
    (key : string) (w : world) (submitted : api_response) (task_id : value) :
  ImageSynthesis_async_call E
    (mkRequest key model prompt
       (call_parameters negative_prompt size prompt_extend watermark seed
        ++ [("n", JInt 1)])%list)
    (ticks w) = inr submitted ->
  member "task_id" (output submitted) = Some task_id ->
  let call :=
    _call_qwen_api E self fuel prompt (JStr key) negative_prompt size model
                   (JStr "async") prompt_extend watermark seed w in
  let t0 := S (ticks w) in
  let after n := ticked (after_running (submitted_world key w) n) in
  (forall n r, n < fuel -> running_until E task_id key t0 n ->
     observe_poll E task_id key (t0 + n) = PollSucceeded r ->
     call = Returns r (after n) /\ sleeps (after n) = (sleeps w ++ repeat 3%Z n)%list)
  /\ (forall n r, n < fuel -> running_until E task_id key t0 n ->
        observe_poll E task_id key (t0 + n) = PollFailed r ->
        call = Raises (task_failed E r) (after n))
  /\ (forall r w', call = Returns r w' ->
        exists n, n < fuel /\ running_until E task_id key t0 n
                  /\ observe_poll E task_id key (t0 + n) = PollSucceeded r
                  /\ w' = after n)
  /\ (forall e w', call = Raises e w' ->
        exists n, n < fuel /\ running_until E task_id key t0 n
                  /\ w' = after n
                  /\ ((exists r, observe_poll E task_id key (t0 + n) = PollFailed r
                                 /\ e = task_failed E r)
                      \/ observe_poll E task_id key (t0 + n) = PollBroken e))
  /\ (running_until E task_id key t0 fuel -> call = Pending).
Proof.
  intros Hsub Htask call t0 after.
  assert (Hcall : call = poll_task E fuel task_id key (submitted_world key w))
    by (eapply call_qwen_api_async; eassumption).
  pose proof (poll_task_ends fuel task_id key (submitted_world key w)) as Hends.
  change (ticks (submitted_world key w)) with t0 in Hends.
  rewrite <- Hcall in Hends.
  split; [|split; [|split; [|split]]].
  - intros n r Hn Hrun Hobs. split; [|reflexivity].
    rewrite Hcall.
    rewrite (poll_task_terminal n fuel) by assumption.
    change (ticks (submitted_world key w)) with t0.
    now rewrite Hobs.
  - intros n r Hn Hrun Hobs. rewrite Hcall.
    rewrite (poll_task_terminal n fuel) by assumption.
    change (ticks (submitted_world key w)) with t0.
    now rewrite Hobs.
  - intros r w' Hret. now rewrite Hret in Hends.
  - intros e w' Hraise. now rewrite Hraise in Hends.
  - intros Hrun. rewrite Hcall. now apply poll_task_pending.
Qed.

(** A task that never leaves the running state keeps the call pending
    under every budget of polls. *)
Corollary async_mode_never_terminal (self : QwenImageMCPService)
    (prompt negative_prompt size model prompt_extend watermark seed : value)
    (key : string) (w : world) (submitted : api_response) (task_id : value) :
  ImageSynthesis_async_call E
    (mkRequest key model prompt
       (call_parameters negative_prompt size prompt_extend watermark seed
        ++ [("n", JInt 1)])%list)
    (ticks w) = inr submitted ->
  member "task_id" (output submitted) = Some task_id ->
  (forall t, observe_poll E task_id key t = PollRunning) ->
  forall fuel,
    _call_qwen_api E self fuel prompt (JStr key) negative_prompt size model
                   (JStr "async") prompt_extend watermark seed w = Pending.
Proof.
  intros Hsub Htask Hrun fuel.
  rewrite (call_qwen_api_async _ _ _ _ _ _ _ _ _ _ _ _ _ Hsub Htask).
  apply poll_task_pending. intros m _. apply Hrun.
Qed.

(** ** Computations that cannot stay pending *)

Lemma settles_ret {A : Type} (a : A) : settles (ret a).
Proof. intros w. discriminate. Qed.

Lemma settles_raise {A : Type} (e : exn) : settles (@raise A e).
Proof. intros w. discriminate. Qed.

Lemma settles_fault {A : Type} (f : fault) : settles (@fault_ E A f).
Proof. apply settles_raise. Qed.

Lemma settles_external {A : Type} (f : nat -> exn + A) : settles (external f).
Proof. intros w. unfold external. destruct (f (ticks w)); discriminate. Qed.

Lemma settles_bind {A B : Type} (m : M A) (k : A -> M B) :
  settles m -> (forall a, settles (k a)) -> settles (bind m k).
Proof.
  intros Hm Hk w. unfold bind.
  destruct (m w) as [a w'|e w'|] eqn:Hw.
  - apply Hk.
  - discriminate.
  - now apply Hm in Hw.
Qed.

Lemma settles_try {A : Type} (m : M A) (h : exn -> M A) :
  settles m -> (forall e, settles (h e)) -> settles (try_except m h).
Proof.
  intros Hm Hh w. unfold try_except.
  destruct (m w) as [a w'|e w'|] eqn:Hw.
  - discriminate.
  - apply Hh.
  - now apply Hm in Hw.
Qed.

Ltac settle :=
  repeat (intros;
          first [ assumption
                | discriminate
                | apply settles_ret
                | apply settles_raise
                | apply settles_fault
                | apply settles_external
                | apply settles_bind
                | apply settles_try
                | progress cbv zeta
                | match goal with
                  | |- settles (if ?c then _ else _) => destruct c eqn:?
                  | |- settles (match ?x with _ => _ end) => destruct x eqn:?
                  | |- settles (let '(_, _) := ?x in _) => destruct x
                  end ]).

Lemma settles_join_items (i : nat) (parts : list value) : settles (join_items E i parts).
Proof.
  revert i. induction parts as [|v parts IH]; intros i; simpl.
  - settle.
  - destruct v; settle. apply IH.
Qed.

Lemma settles_enhance_prompt (self : QwenImageMCPService)
    (prompt style platform enable custom : value) :
  settles (_enhance_prompt E self prompt style platform enable custom).
Proof.
  unfold _enhance_prompt, style_template_of, platform_config_of, dict_getitem,
    dict_get, py_contains, py_join.
  settle; apply settles_join_items.
Qed.

Lemma settles_negative_prompt (self : QwenImageMCPService) (style custom : value) :
  settles (_get_negative_prompt E self style custom).
Proof.
  unfold _get_negative_prompt, style_template_of, dict_getitem, dict_get, py_join.
  settle; apply settles_join_items.
Qed.

Lemma settles_get_api_key (self : QwenImageMCPService) (provided : value) :
  settles (_get_api_key self provided).
Proof.
  unfold _get_api_key, os_environ_get_key. settle.
Qed.

Lemma settles_image_url (mode : value) (response : api_response) :
  settles (if eq_str mode "multimodal"
           then multimodal_image_url E response
           else synthesis_image_url E response).
Proof.
  unfold multimodal_image_url, synthesis_image_url, getattr, getitem0.
  settle.
Qed.

Lemma settles_generate_filename (self : QwenImageMCPService) (prompt style size : value) :
  settles (_generate_filename E self prompt style size).
Proof. unfold _generate_filename. settle. Qed.

Lemma settles_download_image (self : QwenImageMCPService) (url : value)
    (filename : string) (output_dir : value) :
  settles (_download_image E self url filename output_dir).
Proof. unfold _download_image. settle. Qed.

(** Outside the async mode the provider call makes a fixed number of
    external calls. *)
Lemma settles_call_qwen_api (self : QwenImageMCPService) (fuel : nat)
    (prompt api_key negative_prompt size model call_mode
     prompt_extend watermark seed : value) :
  eq_str call_mode "async" = false ->
  settles (_call_qwen_api E self fuel prompt api_key negative_prompt size model
                          call_mode prompt_extend watermark seed).
Proof.
  intros Hmode. unfold _call_qwen_api, os_environ_set_key.
  apply settles_bind.
  - destruct api_key; settle.
  - intros key. rewrite Hmode. settle.
Qed.

Lemma settles_generate_image (self : QwenImageMCPService) (fuel : nat) (a : GenerateArgs) :
  eq_str (arg_call_mode a) "async" = false ->
  settles (generate_image E self fuel a).
Proof.
  intros Hmode. unfold generate_image, request_image, datetime_now.
  apply settles_bind; [apply settles_external|]. intros start_time.
  apply settles_try.
  - apply settles_bind.
    + apply settles_bind; [apply settles_get_api_key|]. intros key.
      apply settles_bind; [apply settles_enhance_prompt|]. intros ep.
      apply settles_bind; [apply settles_negative_prompt|]. intros neg.
      apply settles_bind; [now apply settles_call_qwen_api|]. intros response.
      apply settles_bind; [apply settles_image_url|]. settle.
    + intros [[ep neg] url].
      apply settles_bind.
      * destruct (truthy (arg_save_local a)); [|settle].
        apply settles_bind; [apply settles_generate_filename|]. intros filename.
        apply settles_bind; [apply settles_download_image|]. settle.
      * settle.
  - settle.
Qed.

(** ** generate_image *)


(** Every failure result has the same shape: no URL, no path, no echo of
    the configuration. *)
Lemma generate_image_failure_shape (self : QwenImageMCPService) (fuel : nat)
    (a : GenerateArgs) (w w' : world) (r : ImageGenerationResult) :
  generate_image E self fuel a w = Returns r w' ->
  success r = false ->
  image_url r = JNull /\ local_path r = JNull /\ config_used r = JNull
  /\ exists e, error_message r = JStr ("生成图片失败: " ++ exn_str e).
Proof.
  unfold generate_image. unfold bind at 1.
  unfold datetime_now at 1. unfold external at 1. unfold try_except.
  match goal with
  | |- context [match ?body ?w1 with _ => _ end] => destruct (body w1) as [r0 w0|e w0|] eqn:Hbody
  end.
  - intros Hret Hfail. exfalso.
    injection Hret as <- <-.
    revert Hbody. unfold bind at 1.
    destruct (request_image E self fuel a _) as [[[ep neg] url] wr|? ?|]; try discriminate.
    unfold bind at 1.
    match goal with
    | |- context [match ?m wr with _ => _ end] => destruct (m wr) as [path wp|? ?|]
    end; try discriminate.
    unfold bind at 1. unfold datetime_now, external, ret.
    intros H. injection H as <- _. discriminate.
  - unfold bind, datetime_now, external, ret.
    intros Hret _. injection Hret as <- _. simpl. eauto.
  - discriminate.
Qed.

(** ** The read loop *)

(** C6. A line that does not parse as JSON leaves no trace: the loop
    goes on with the lines that follow, having written nothing. *)
Theorem unparsable_line_is_skipped (self : QwenImageMCPService) (fuel : nat)
    (line : string) (rest : list string) (w : world) :
  PyStr.nonempty line = true ->
  json_loads E (str_strip E line) = None ->
  run_mcp_server E self fuel (line :: rest) w = run_mcp_server E self fuel rest w.
Proof.
  intros Hline Hjson. cbn [run_mcp_server].
  rewrite Hline. cbn [negb].
  destruct (PyStr.nonempty (str_strip E line)); cbn [negb].
  - now rewrite Hjson.
  - reflexivity.
Qed.

(** The end of the input ends the loop with the output as it is. *)
Lemma run_mcp_server_eof (self : QwenImageMCPService) (fuel : nat) (w : world) :
  run_mcp_server E self fuel [] w = Returns tt w.
Proof. reflexivity. Qed.

(** ** The dispatcher *)

Lemma handle_tool_call_catches (self : QwenImageMCPService) (fuel : nat)
    (name arguments : value) (w w' : world) (e : exn) :
  dispatch_tool E self fuel name arguments w = Raises e w' ->
  handle_tool_call E self fuel name arguments w
  = Returns (tool_error ("工具调用失败: " ++ exn_str e)) w'.
Proof. intros H. unfold handle_tool_call, try_except. now rewrite H. Qed.

Lemma handle_tool_call_no_raise (self : QwenImageMCPService) (fuel : nat)
    (name arguments : value) (w w' : world) (e : exn) :
  handle_tool_call E self fuel name arguments w <> Raises e w'.
Proof.
  unfold handle_tool_call, try_except, ret.
  destruct (dispatch_tool E self fuel name arguments w); discriminate.
Qed.

Lemma handle_tool_call_unknown (self : QwenImageMCPService) (fuel : nat)
    (name arguments : value) (w : world) :
  Spec.is_registered_tool name = false ->
  handle_tool_call E self fuel name arguments w
  = Returns (tool_error ("未知工具: " ++ py_str E name)) w.
Proof.
  unfold Spec.is_registered_tool, Spec.registered_tools. cbn [existsb].
  intros H.
  repeat (apply orb_false_elim in H; destruct H as [? H]).
  unfold handle_tool_call, try_except, dispatch_tool.
  repeat match goal with Hx : eq_str name _ = false |- _ => rewrite Hx; clear Hx end.
  reflexivity.
Qed.

(** A [tools/call] request whose [params] is an object, or is missing,
    is answered with whatever the tool-call handler does. *)
Lemma handle_mcp_request_tools_call (self : QwenImageMCPService) (fuel : nat)
    (d p : list (string * value)) (w : world) :
  dict_lookup "method" d = Some (JStr "tools/call") ->
  keyword d "params" (JDict []) = JDict p ->
  handle_mcp_request E self fuel (JDict d) w
  = match handle_tool_call E self fuel (keyword p "name" JNull)
                           (keyword p "arguments" (JDict [])) w with
    | Returns r w' => Returns (rpc_result (keyword d "id" JNull) r) w'
    | Raises e w' =>
        Returns (rpc_error (keyword d "id" JNull) (-32603) ("内部错误: " ++ exn_str e)) w'
    | Pending => Pending
    end.
Proof.
  intros Hm Hp.
  unfold handle_mcp_request, value_get, keyword in *.
  rewrite Hm, Hp.
  unfold bind, ret, try_except. cbn [eq_str].
  change ("tools/call" =? "initialize") with false.
  change ("tools/call" =? "tools/list") with false.
  change ("tools/call" =? "tools/call") with true. cbv iota beta.
  destruct (handle_tool_call E self fuel _ _ w); reflexivity.
Qed.

(** A [tools/call] request whose [params] is present and is not an
    object fails in the dispatcher, before any tool is looked at. *)
Lemma handle_mcp_request_bad_params (self : QwenImageMCPService) (fuel : nat)
    (d : list (string * value)) (params : value) (w : world) :
  dict_lookup "method" d = Some (JStr "tools/call") ->
  dict_lookup "params" d = Some params ->
  is_dict params = false ->
  handle_mcp_request E self fuel (JDict d) w
  = Returns (rpc_error (keyword d "id" JNull) (-32603)
               ("内部错误: " ++ exn_str (interp_raise E (NoAttribute params "get")))) w.
Proof.
  intros Hm Hp Hd.
  unfold handle_mcp_request, value_get, keyword.
  rewrite Hm, Hp.
  unfold bind, ret, try_except. cbn [eq_str].
  change ("tools/call" =? "initialize") with false.
  change ("tools/call" =? "tools/list") with false.
  change ("tools/call" =? "tools/call") with true. cbv iota.
  destruct params; try discriminate; reflexivity.
Qed.

(** C7. A [tools/call] request that names none of the four tools is
    answered with a JSON-RPC result whose content block is flagged
    [isError: true]; the response has no [error] member. *)
Theorem unknown_tool_is_tool_error (self : QwenImageMCPService) (fuel : nat)
    (d p : list (string * value)) (w : world) :
  dict_lookup "method" d = Some (JStr "tools/call") ->
  keyword d "params" (JDict []) = JDict p ->
  Spec.is_registered_tool (keyword p "name" JNull) = false ->
  let response :=
    rpc_result (keyword d "id" JNull)
               (tool_error ("未知工具: " ++ py_str E (keyword p "name" JNull))) in
  handle_mcp_request E self fuel (JDict d) w = Returns response w
  /\ is_tool_error response = true
  /\ member "error" response = None.
Proof.
  intros Hm Hp Hname response.
  split; [|split; reflexivity].
  rewrite (handle_mcp_request_tools_call self fuel d p w Hm Hp).
  now rewrite handle_tool_call_unknown.
Qed.

Lemma settles_bind_generate_image (arguments : value) :
  settles (bind_generate_image E arguments).
Proof. unfold bind_generate_image. settle. Qed.

(** Only an async [generate_image] can leave a tool call pending. *)
Lemma handle_tool_call_pending (self : QwenImageMCPService) (fuel : nat)
    (name arguments : value) (w : world) :
  handle_tool_call E self fuel name arguments w = Pending ->
  eq_str name "generate_image" = true
  /\ exists kw, arguments = JDict kw
                /\ eq_str (keyword kw "call_mode" (JStr "multimodal")) "async" = true.
Proof.
  unfold handle_tool_call, try_except.
  destruct (dispatch_tool E self fuel name arguments w) as [? ?|? ?|] eqn:Hd;
    try discriminate.
  intros _. revert Hd. unfold dispatch_tool.
  destruct (eq_str name "generate_image").
  - destruct arguments as [|b|n|bits|s|items|kw];
      try (unfold bind at 1; cbn [bind_generate_image]; unfold fault_, raise;
           discriminate).
    destruct (eq_str (keyword kw "call_mode" (JStr "multimodal")) "async") eqn:Hmode.
    + intros _. split; [reflexivity|]. now exists kw.
    + intros Hd. exfalso. revert Hd.
      unfold bind_generate_image.
      destruct (first_unexpected kw); [settle|].
      destruct (dict_lookup "prompt" kw) as [prompt|]; [|settle].
      unfold bind at 1, ret at 1.
      apply settles_bind; [|settle].
      now apply settles_generate_image.
  - intros Hd. exfalso. revert Hd.
    match goal with
    | |- ?m w = Pending -> False => enough (Hs : settles m) by exact (Hs w)
    end.
    unfold value_get, dict_contains, dict_getitem. settle.
Qed.

(** C9 (as the code has it). Whatever the try block of the tool-call
    handler raises, for a known or an unknown tool, the handler returns
    it as a content block flagged [isError: true]; so it does with the
    error of a [generate_image] argument that the signature does not
    have.  The handler never raises.  Hence a [tools/call] request whose
    [params] is an object, or is missing, is never answered with a
    protocol-level error: the answer is a JSON-RPC result, and there is
    no answer only while an async generation is still polling. *)
Theorem tool_call_errors_are_tool_results (self : QwenImageMCPService) (fuel : nat) :
  (forall name arguments w e w',
      dispatch_tool E self fuel name arguments w = Raises e w' ->
      handle_tool_call E self fuel name arguments w
      = Returns (tool_error ("工具调用失败: " ++ exn_str e)) w')
  /\ (forall kw k w,
        first_unexpected kw = Some k ->
        handle_tool_call E self fuel (JStr "generate_image") (JDict kw) w
        = Returns (tool_error ("工具调用失败: "
                               ++ exn_str (interp_raise E (UnexpectedKeyword k)))) w)
  /\ (forall name arguments w e w',
        handle_tool_call E self fuel name arguments w <> Raises e w')
  /\ (forall d p w,
        dict_lookup "method" d = Some (JStr "tools/call") ->
        keyword d "params" (JDict []) = JDict p ->
        match handle_mcp_request E self fuel (JDict d) w with
        | Returns response w' =>
            (exists r, response = rpc_result (keyword d "id" JNull) r)
            /\ error_code response = None
        | Raises _ _ => False
        | Pending =>
            eq_str (keyword p "name" JNull) "generate_image" = true
            /\ exists kw, keyword p "arguments" (JDict []) = JDict kw
                 /\ eq_str (keyword kw "call_mode" (JStr "multimodal")) "async" = true
        end).
Proof.
  split; [intros; now apply handle_tool_call_catches|].
  split.
  { intros kw k w Hk. apply handle_tool_call_catches.
    unfold dispatch_tool. cbn [eq_str].
    change ("generate_image" =? "generate_image") with true. cbv iota.
    unfold bind at 1. unfold bind_generate_image. now rewrite Hk. }
  split; [intros; apply handle_tool_call_no_raise|].
  intros d p w Hm Hp.
  rewrite (handle_mcp_request_tools_call self fuel d p w Hm Hp).
  destruct (handle_tool_call E self fuel (keyword p "name" JNull)
              (keyword p "arguments" (JDict [])) w) as [r w'|e w'|] eqn:Hcall.
  - split; [now exists r | reflexivity].
  - now apply handle_tool_call_no_raise in Hcall.
  - now apply handle_tool_call_pending in Hcall.
Qed.

(** ** The platform registry *)

(** C2 (what the code has). The platform registry has eight entries,
    not the ten names of the [Platform] type: [twitter] and [facebook]
    are not registered, and the [platform] enum of the [generate_image]
    schema lists the eight registered keys. *)
Theorem platform_registry_has_eight_entries (w : world) :
  List.length (_platform_configs __init__) = 8
  /\ List.length Platform = 10
  /\ filter (fun k => negb (dict_has k (_platform_configs __init__))) Platform
     = ["twitter"; "facebook"]
  /\ exists listing,
       handle_tools_list __init__ w = Returns listing w
       /\ schema_enum listing "generate_image" "platform"
          = Some (JList (map JStr ["general"; "xiaohongshu"; "weibo"; "douyin";
                                   "kuaishou"; "instagram"; "pinterest"; "tiktok"])).
Proof.
  split; [reflexivity|]. split; [reflexivity|]. split; [reflexivity|].
  eexists. split; reflexivity.
Qed.

(** The style registry does have the fourteen names of [ContentStyle]. *)
Lemma style_registry_matches_type :
  dict_keys (_style_templates __init__) = ContentStyle.
Proof. reflexivity. Qed.

(** * Further properties *)

(** ** Relations between the first and the last world *)

Section Frame.

Variable R : world -> world -> Prop.
Hypothesis R_refl : forall w, R w w.
Hypothesis R_trans : forall w1 w2 w3, R w1 w2 -> R w2 w3 -> R w1 w3.
Hypothesis R_ticked : forall w, R w (ticked w).
Hypothesis R_slept : forall s w, R w (slept s w).
























End Frame.

(** ** The dispatcher on every request *)


Lemma handle_mcp_request_not_object (self : QwenImageMCPService) (fuel : nat)
    (request : value) (w : world) :
  is_dict request = false ->
  handle_mcp_request E self fuel request w
  = Raises (interp_raise E (NoAttribute request "get")) w.
Proof. destruct request; try discriminate; reflexivity. Qed.

Lemma handle_mcp_request_other_method (self : QwenImageMCPService) (fuel : nat)
    (d : list (string * value)) (w : world) :
  eq_str (keyword d "method" JNull) "initialize" = false ->
  eq_str (keyword d "method" JNull) "tools/list" = false ->
  eq_str (keyword d "method" JNull) "tools/call" = false ->
  handle_mcp_request E self fuel (JDict d) w
  = Returns (rpc_error (keyword d "id" JNull) (-32601)
               ("未知方法: " ++ py_str E (keyword d "method" JNull))) w.
Proof.
  intros H1 H2 H3.
  unfold handle_mcp_request, value_get. fold (keyword d "method" JNull).
  unfold bind at 1. unfold ret at 1.
  unfold bind at 1. unfold ret at 1.
  unfold bind at 1. unfold ret at 1.
  unfold try_except. now rewrite H1, H2, H3.
Qed.

Lemma handle_mcp_request_initialize (self : QwenImageMCPService) (fuel : nat)
    (d : list (string * value)) (w : world) :
  eq_str (keyword d "method" JNull) "initialize" = true ->
  handle_mcp_request E self fuel (JDict d) w
  = Returns (rpc_result (keyword d "id" JNull)
               (JDict [("protocolVersion", JStr (protocol_version self));
                       ("capabilities", JDict [("tools", JDict [])]);
                       ("serverInfo", server_info self)])) w.
Proof.
  intros H1.
  unfold handle_mcp_request, value_get. fold (keyword d "method" JNull).
  unfold bind at 1. unfold ret at 1.
  unfold bind at 1. unfold ret at 1.
  unfold bind at 1. unfold ret at 1.
  unfold try_except. now rewrite H1.
Qed.

Lemma handle_mcp_request_tools_list (self : QwenImageMCPService) (fuel : nat)
    (d : list (string * value)) (w : world) :
  eq_str (keyword d "method" JNull) "initialize" = false ->
  eq_str (keyword d "method" JNull) "tools/list" = true ->
  handle_mcp_request E self fuel (JDict d) w
  = Returns (rpc_result (keyword d "id" JNull)
               (JDict [("tools", tools_list_tools self)])) w.
Proof.
  intros H1 H2.
  unfold handle_mcp_request, value_get. fold (keyword d "method" JNull).
  unfold bind at 1. unfold ret at 1.
  unfold bind at 1. unfold ret at 1.
  unfold bind at 1. unfold ret at 1.
  unfold try_except. now rewrite H1, H2.
Qed.

Lemma eq_str_true (v : value) (s : string) : eq_str v s = true -> v = JStr s.
Proof.
  destruct v; try discriminate. simpl. intros H.
  apply String.eqb_eq in H. now subst.
Qed.

Lemma keyword_method (d : list (string * value)) (s : string) :
  eq_str (keyword d "method" JNull) s = true ->
  dict_lookup "method" d = Some (JStr s).
Proof.
  unfold keyword. intros H. apply eq_str_true in H.
  destruct (dict_lookup "method" d); [now subst | discriminate].
Qed.

Lemma keyword_params_not_dict (d : list (string * value)) :
  is_dict (keyword d "params" (JDict [])) = false ->
  dict_lookup "params" d = Some (keyword d "params" (JDict [])).
Proof.
  unfold keyword. destruct (dict_lookup "params" d); [reflexivity | discriminate].
Qed.

(** What a request that is a JSON object is answered with, method by
    method. *)
Lemma handle_mcp_request_object (self : QwenImageMCPService) (fuel : nat)
    (d : list (string * value)) (w : world) :
  let method := keyword d "method" JNull in
  let id := keyword d "id" JNull in
  match handle_mcp_request E self fuel (JDict d) w with
  | Returns response w' =>
      (exists r, response = rpc_result id r
                 /\ (eq_str method "initialize" = true
                     \/ eq_str method "tools/list" = true
                     \/ (eq_str method "tools/call" = true
                         /\ is_dict (keyword d "params" (JDict [])) = true)))
      \/ (exists msg, response = rpc_error id (-32601) msg
                      /\ eq_str method "initialize" = false
                      /\ eq_str method "tools/list" = false
                      /\ eq_str method "tools/call" = false)
      \/ (exists msg, response = rpc_error id (-32603) msg
                      /\ eq_str method "tools/call" = true
                      /\ is_dict (keyword d "params" (JDict [])) = false)
  | Raises _ _ => False
  | Pending => eq_str method "tools/call" = true
  end.
Proof.
  intros method id. subst method id.
  destruct (eq_str (keyword d "method" JNull) "initialize") eqn:H1.
  { rewrite handle_mcp_request_initialize by assumption. left. eauto. }
  destruct (eq_str (keyword d "method" JNull) "tools/list") eqn:H2.
  { rewrite handle_mcp_request_tools_list by assumption. left. eauto. }
  destruct (eq_str (keyword d "method" JNull) "tools/call") eqn:H3.
  - pose proof (keyword_method d _ H3) as Hm.
    destruct (keyword d "params" (JDict [])) as [| | | | | |p] eqn:Hp.
    1-6: rewrite (handle_mcp_request_bad_params self fuel d _ w Hm
                    (keyword_params_not_dict d ltac:(now rewrite Hp)));
         [ right; right; rewrite Hp; eauto | now rewrite Hp ].
    rewrite (handle_mcp_request_tools_call self fuel d p w Hm Hp).
    destruct (handle_tool_call E self fuel (keyword p "name" JNull)
                (keyword p "arguments" (JDict [])) w) as [r w'|e w'|] eqn:Hcall.
    + left. exists r. split; [reflexivity|]. right. right. now split.
    + now apply handle_tool_call_no_raise in Hcall.
    + reflexivity.
  - rewrite handle_mcp_request_other_method by assumption.
    right. left. eauto.
Qed.


(** X1. A request object whose method is none of [initialize],
    [tools/list] and [tools/call] (or that has no method at all) is
    answered with the protocol error -32601, which echoes the request id
    and names the method; nothing else happens. *)
Theorem unknown_method_is_rejected (self : QwenImageMCPService) (fuel : nat)
    (d : list (string * value)) (w : world) :
  eq_str (keyword d "method" JNull) "initialize" = false ->
  eq_str (keyword d "method" JNull) "tools/list" = false ->
  eq_str (keyword d "method" JNull) "tools/call" = false ->
  handle_mcp_request E self fuel (JDict d) w
  = Returns (rpc_error (keyword d "id" JNull) (-32601)
               ("未知方法: " ++ py_str E (keyword d "method" JNull))) w
  /\ error_code (rpc_error (keyword d "id" JNull) (-32601)
                   ("未知方法: " ++ py_str E (keyword d "method" JNull)))
     = Some (JInt (-32601)).
Proof.
  intros H1 H2 H3. split; [|reflexivity].
  now apply handle_mcp_request_other_method.
Qed.

(** X2. A request that is a JSON object never makes the dispatcher
    raise.  Its response carries [jsonrpc] 2.0 and the id of the request
    ([null] when there is none), and either a [result] or an [error] with
    code -32601 or -32603, never both.  There is no response only while a
    [tools/call] is still polling. *)
Theorem object_request_envelope (self : QwenImageMCPService) (fuel : nat)
    (d : list (string * value)) (w : world) :
  match handle_mcp_request E self fuel (JDict d) w with
  | Returns response w' =>
      member "jsonrpc" response = Some (JStr "2.0")
      /\ member "id" response = Some (keyword d "id" JNull)
      /\ ((exists r, member "result" response = Some r
                     /\ member "error" response = None)
          \/ (exists c msg,
                 member "error" response
                 = Some (JDict [("code", JInt c); ("message", JStr msg)])
                 /\ member "result" response = None
                 /\ (c = -32601 \/ c = -32603)%Z))
  | Raises _ _ => False
  | Pending => eq_str (keyword d "method" JNull) "tools/call" = true
  end.
Proof.
  pose proof (handle_mcp_request_object self fuel d w) as H. cbv zeta in H.
  destruct (handle_mcp_request E self fuel (JDict d) w) as [response w'|e w'|];
    [|exact H|exact H].
  destruct H as [(r & -> & _)|[(msg & -> & _)|(msg & -> & _)]].
  - repeat split. left. now exists r.
  - repeat split. right. exists (-32601)%Z, msg. repeat split. now left.
  - repeat split. right. exists (-32603)%Z, msg. repeat split. now right.
Qed.

(** X3. The internal error -32603 is the answer to exactly one kind of
    request object: a [tools/call] whose [params] member is present and
    is not an object.  [initialize] and [tools/list] never fail, whatever
    their [params] are. *)
Theorem internal_error_iff_bad_params (self : QwenImageMCPService) (fuel : nat)
    (d : list (string * value)) (w w' : world) (response : value) :
  handle_mcp_request E self fuel (JDict d) w = Returns response w' ->
  (error_code response = Some (JInt (-32603))
   <-> eq_str (keyword d "method" JNull) "tools/call" = true
       /\ is_dict (keyword d "params" (JDict [])) = false)
  /\ (eq_str (keyword d "method" JNull) "initialize" = true
      \/ eq_str (keyword d "method" JNull) "tools/list" = true ->
      error_code response = None /\ w' = w).
Proof.
  intros Hret.
  pose proof (handle_mcp_request_object self fuel d w) as H. cbv zeta in H.
  rewrite Hret in H. split.
  - destruct H as [(r & -> & Hm)|[(msg & -> & H1 & H2 & H3)|(msg & -> & H3 & Hp)]].
    + split; [discriminate|]. intros [H3 Hp].
      destruct Hm as [Hm|[Hm|[_ Hm]]].
      * apply eq_str_true in Hm, H3. rewrite Hm in H3. discriminate.
      * apply eq_str_true in Hm, H3. rewrite Hm in H3. discriminate.
      * rewrite Hp in Hm. discriminate.
    + split; [discriminate|]. intros [H3' _]. rewrite H3 in H3'. discriminate.
    + split; [now intros _ | reflexivity].
  - intros Hm. destruct Hm as [Hm|Hm].
    + rewrite handle_mcp_request_initialize in Hret by assumption.
      injection Hret as <- <-. now split.
    + destruct (eq_str (keyword d "method" JNull) "initialize") eqn:H1.
      * rewrite handle_mcp_request_initialize in Hret by assumption.
        injection Hret as <- <-. now split.
      * rewrite handle_mcp_request_tools_list in Hret by assumption.
        injection Hret as <- <-. now split.
Qed.

(** ** The read loop on every input *)


(** X4. A line that parses to JSON that is not an object (a list, a
    number, a string, [null]) gets no response: the dispatcher raises on
    it, the loop swallows the error and goes on with the next line. *)
Theorem non_object_request_is_dropped (self : QwenImageMCPService) (fuel : nat)
    (line : string) (request : value) (rest : list string) (w : world) :
  PyStr.nonempty line = true ->
  json_loads E (str_strip E line) = Some request ->
  is_dict request = false ->
  run_mcp_server E self fuel (line :: rest) w = run_mcp_server E self fuel rest w.
Proof.
  intros Hline Hjson Hobj. cbn [run_mcp_server].
  rewrite Hline. cbn [negb].
  destruct (PyStr.nonempty (str_strip E line)); cbn [negb]; [|reflexivity].
  rewrite Hjson. unfold bind at 1. unfold try_except.
  unfold bind at 1.
  now rewrite handle_mcp_request_not_object.
Qed.



Lemma bind_ext {A B : Type} (m : M A) (k k' : A -> M B) (w : world) :
  (forall a w', k a w' = k' a w') -> bind m k w = bind m k' w.
Proof. intros H. unfold bind. destruct (m w); auto. Qed.

Lemma bind_assoc {A B C : Type} (m : M A) (k : A -> M B) (h : B -> M C) (w : world) :
  bind (bind m k) h w = bind m (fun a => bind (k a) h) w.
Proof. unfold bind. destruct (m w); reflexivity. Qed.

(** X6. Requests are handled strictly one after the other: reading a
    sequence of lines, none of them the end of the input, and then a
    second sequence is the same as reading the two in one go. *)
Theorem read_loop_sequential (self : QwenImageMCPService) (fuel : nat)
    (lines more : list string) (w : world) :
  forallb PyStr.nonempty lines = true ->
  run_mcp_server E self fuel (lines ++ more)%list w
  = bind (run_mcp_server E self fuel lines)
         (fun _ => run_mcp_server E self fuel more) w.
Proof.
  revert w. induction lines as [|line rest IH]; intros w Hall.
  - reflexivity.
  - cbn [forallb] in Hall. apply andb_prop in Hall. destruct Hall as [Hline Hrest].
    change ((line :: rest) ++ more)%list with (line :: (rest ++ more))%list.
    cbn [run_mcp_server]. rewrite Hline. cbn [negb].
    destruct (PyStr.nonempty (str_strip E line)); cbn [negb]; [|now apply IH].
    destruct (json_loads E (str_strip E line)) as [request|]; [|now apply IH].
    rewrite bind_assoc. apply bind_ext. intros _ w'. now apply IH.
Qed.

(** ** generate_image on every input *)

(** The outcome of [generate_image], step by step. *)
Lemma generate_image_outcome (self : QwenImageMCPService) (fuel : nat)
    (a : GenerateArgs) (w : world) :
  generate_image E self fuel a w
  = match request_image E self fuel a (ticked w) with
    | Returns (enhanced, negative, url) w2 =>
        match save_step E self a url w2 with
        | Returns path w3 =>
            Returns (success_result E a enhanced negative url path (ticks w) (ticks w3))
                    (ticked w3)
        | Raises e w3 => Returns (failure_result E e (ticks w) (ticks w3)) (ticked w3)
        | Pending => Pending
        end
    | Raises e w2 => Returns (failure_result E e (ticks w) (ticks w2)) (ticked w2)
    | Pending => Pending
    end.
Proof.
  unfold generate_image. unfold bind at 1.
  unfold datetime_now at 1. unfold external at 1.
  unfold try_except. unfold bind at 1.
  destruct (request_image E self fuel a (ticked w)) as [[[ep neg] url] w2|e w2|];
    [|reflexivity|reflexivity].
  unfold bind at 1. fold (save_step E self a url).
  destruct (save_step E self a url w2) as [path w3|e w3|]; reflexivity.
Qed.

Lemma save_step_is_str (self : QwenImageMCPService) (a : GenerateArgs)
    (url path : value) (w w' : world) :
  save_step E self a url w = Returns path w' ->
  if truthy (arg_save_local a) then is_str path = true else path = JNull /\ w' = w.
Proof.
  unfold save_step. destruct (truthy (arg_save_local a)).
  - unfold bind at 1.
    destruct (_generate_filename E self _ _ _ w) as [fn w1|? ?|]; try discriminate.
    unfold bind at 1.
    destruct (_download_image E self url fn _ w1) as [p w2|? ?|]; try discriminate.
    unfold ret. intros H. now injection H as <- _.
  - unfold ret. intros H. injection H as <- <-. now split.
Qed.

(** X7. [generate_image] never raises.  Its result is either a success,
    with no error message, the echo of the configuration and a local path
    exactly when saving was asked for; or a failure, with no URL, no
    path, no configuration and a message that starts with the fixed
    prefix.  It can stay without a result only in async mode. *)
Theorem generate_image_result_shape (self : QwenImageMCPService) (fuel : nat)
    (a : GenerateArgs) (w : world) :
  match generate_image E self fuel a w with
  | Returns r w' =>
      (success r = true
       /\ error_message r = JNull
       /\ member "prompt" (config_used r) = Some (arg_prompt a)
       /\ (if truthy (arg_save_local a)
           then is_str (local_path r) = true
           else local_path r = JNull))
      \/ (success r = false
          /\ image_url r = JNull /\ local_path r = JNull /\ config_used r = JNull
          /\ exists e, error_message r = JStr ("生成图片失败: " ++ exn_str e))
  | Raises _ _ => False
  | Pending => eq_str (arg_call_mode a) "async" = true
  end.
Proof.
  destruct (generate_image E self fuel a w) as [r w'|e w'|] eqn:Hgen.
  - rewrite generate_image_outcome in Hgen.
    destruct (request_image E self fuel a (ticked w)) as [[[ep neg] url] w2|e w2|];
      [| |discriminate].
    + destruct (save_step E self a url w2) as [path w3|e w3|] eqn:Hsave;
        [| |discriminate].
      * injection Hgen as <- _. left. repeat split.
        apply save_step_is_str in Hsave.
        destruct (truthy (arg_save_local a)); [exact Hsave | apply Hsave].
      * injection Hgen as <- _. right. repeat split. now exists e.
    + injection Hgen as <- _. right. repeat split. now exists e.
  - rewrite generate_image_outcome in Hgen.
    destruct (request_image E self fuel a (ticked w)) as [[[ep neg] url] w2|e0 w2|];
      [|discriminate|discriminate].
    destruct (save_step E self a url w2); discriminate.
  - destruct (eq_str (arg_call_mode a) "async") eqn:Hmode; [reflexivity|].
    now apply (settles_generate_image self fuel a Hmode) in Hgen.
Qed.

Lemma request_image_raises_first (self : QwenImageMCPService) (fuel : nat)
    (a : GenerateArgs) (w w' : world) (e : exn) :
  _get_api_key self (arg_api_key a) w = Raises e w' ->
  request_image E self fuel a w = Raises e w'.
Proof. intros H. unfold request_image. now apply bind_raises. Qed.

(** X8. Without a credential, that is with an [api_key] argument that
    counts as false and an environment variable that is unset or empty,
    the result is the failure carrying the configuration error, and the
    only external calls made are the two readings of the clock: neither
    the provider nor the file system is touched. *)
Theorem no_credential_no_call (self : QwenImageMCPService) (fuel : nat)
    (a : GenerateArgs) (w : world) :
  truthy (arg_api_key a) = false ->
  Spec.usable (environ_key w) = None ->
  generate_image E self fuel a w
  = Returns (failure_result E missing_key_error (ticks w) (S (ticks w)))
            (ticked (ticked w)).
Proof.
  intros Hkey Henv.
  rewrite generate_image_outcome.
  assert (Hget : _get_api_key self (arg_api_key a) (ticked w)
                 = Raises missing_key_error (ticked w)).
  { unfold _get_api_key. unfold bind at 1. rewrite Hkey.
    unfold os_environ_get_key. cbn [environ_key ticked].
    change (match environ_key w with Some s => JStr s | None => JNull end)
      with (of_option (environ_key w)).
    now rewrite usable_truthy, Henv. }
  now rewrite (request_image_raises_first self fuel a _ _ _ Hget).
Qed.

(** X9. When saving is not asked for, a request that obtained an image
    URL is a success whose local path is absent, and nothing is done
    after the URL is obtained but reading the clock: no file name is
    generated, no download is made. *)
Theorem generation_without_saving (self : QwenImageMCPService) (fuel : nat)
    (a : GenerateArgs) (w w2 : world) (enhanced negative url : value) :
  request_image E self fuel a (ticked w) = Returns (enhanced, negative, url) w2 ->
  truthy (arg_save_local a) = false ->
  generate_image E self fuel a w
  = Returns (success_result E a enhanced negative url JNull (ticks w) (ticks w2))
            (ticked w2).
Proof.
  intros Hreq Hsave. rewrite generate_image_outcome, Hreq.
  unfold save_step. now rewrite Hsave.
Qed.

(** X10. When saving is asked for and the download returns a path, the
    result is a success that carries the URL of the provider, the path of
    the download, and the echo of the configuration with the enhanced
    prompt and the negative prompt that were sent. *)
Theorem generation_with_saving (self : QwenImageMCPService) (fuel : nat)
    (a : GenerateArgs) (w w2 w3 w4 : world) (enhanced negative url : value)
    (filename path : string) :
  request_image E self fuel a (ticked w) = Returns (enhanced, negative, url) w2 ->
  truthy (arg_save_local a) = true ->
  _generate_filename E self (arg_prompt a) (arg_style a) (arg_size a) w2
    = Returns filename w3 ->
  _download_image E self url filename (arg_output_dir a) w3 = Returns path w4 ->
  generate_image E self fuel a w
  = Returns (success_result E a enhanced negative url (JStr path) (ticks w) (ticks w4))
            (ticked w4).
Proof.
  intros Hreq Hsave Hname Hdown. rewrite generate_image_outcome, Hreq.
  unfold save_step. rewrite Hsave.
  rewrite (bind_returns _ _ _ _ _ Hname), (bind_returns _ _ _ _ _ Hdown).
  reflexivity.
Qed.

(** X11. An error of the provider call, in whatever mode, becomes a
    failure result that carries the text of that error; nothing is
    downloaded. *)
Theorem provider_error_is_failure (self : QwenImageMCPService) (fuel : nat)
    (a : GenerateArgs) (w w2 : world) (key enhanced negative : value) (e : exn) :
  _get_api_key self (arg_api_key a) (ticked w) = Returns key (ticked w) ->
  _enhance_prompt E self (arg_prompt a) (arg_style a) (arg_platform a)
                  (arg_enable_enhancement a) (arg_custom_enhancement a) (ticked w)
    = Returns enhanced (ticked w) ->
  _get_negative_prompt E self (arg_style a) (arg_negative_prompt a) (ticked w)
    = Returns negative (ticked w) ->
  _call_qwen_api E self fuel enhanced key negative (arg_size a) (arg_model a)
                 (arg_call_mode a) (arg_prompt_extend a) (arg_watermark a)
                 (arg_seed a) (ticked w)
    = Raises e w2 ->
  generate_image E self fuel a w
  = Returns (failure_result E e (ticks w) (ticks w2)) (ticked w2).
Proof.
  intros Hkey Hep Hneg Hcall. rewrite generate_image_outcome.
  assert (Hreq : request_image E self fuel a (ticked w) = Raises e w2).
  { unfold request_image.
    rewrite (bind_returns _ _ _ _ _ Hkey), (bind_returns _ _ _ _ _ Hep),
      (bind_returns _ _ _ _ _ Hneg).
    now apply bind_raises. }
  now rewrite Hreq.
Qed.

(** ** The credential in the process environment *)







(** ** The blocking modes of the provider call *)


(** The seed is forwarded whenever it is not [None], zero included; the
    negative prompt only when it is not empty. *)
Lemma call_parameters_members (negative_prompt size prompt_extend watermark seed : value) :
  let parameters := call_parameters negative_prompt size prompt_extend watermark seed in
  dict_lookup "size" parameters = Some size
  /\ dict_lookup "prompt_extend" parameters = Some prompt_extend
  /\ dict_lookup "watermark" parameters = Some watermark
  /\ dict_lookup "negative_prompt" parameters
     = (if truthy negative_prompt then Some negative_prompt else None)
  /\ dict_lookup "seed" parameters = (if is_none seed then None else Some seed).
Proof.
  unfold call_parameters.
  destruct (truthy negative_prompt), (is_none seed); repeat split.
Qed.

(** ** Tool calls *)

Lemma generate_image_no_raise (self : QwenImageMCPService) (fuel : nat)
    (a : GenerateArgs) (w w' : world) (e : exn) :
  generate_image E self fuel a w <> Raises e w'.
Proof.
  rewrite generate_image_outcome.
  destruct (request_image E self fuel a (ticked w)) as [[[ep neg] url] w2|e0 w2|];
    try discriminate.
  destruct (save_step E self a url w2); discriminate.
Qed.



(** X15. A [generate_image] call without a [prompt] is refused before
    anything is done: the answer is a content block flagged [isError]
    with the error of the missing argument, and the world is as it
    was. *)
Theorem missing_prompt_is_refused (self : QwenImageMCPService) (fuel : nat)
    (kw : list (string * value)) (w : world) :
  first_unexpected kw = None ->
  dict_lookup "prompt" kw = None ->
  handle_tool_call E self fuel (JStr "generate_image") (JDict kw) w
  = Returns (tool_error ("工具调用失败: "
                         ++ exn_str (interp_raise E (MissingArgument "prompt")))) w.
Proof.
  intros Hkw Hp. apply handle_tool_call_catches.
  unfold dispatch_tool. cbn [eq_str].
  change ("generate_image" =? "generate_image") with true. cbv iota.
  unfold bind at 1. unfold bind_generate_image. now rewrite Hkw, Hp.
Qed.

(** What [handle_tool_call] answers to [get_style_info], by the value
    bound to [style]. *)
Lemma get_style_info_outcome (self : QwenImageMCPService) (fuel : nat)
    (kw : list (string * value)) (w : world) :
  handle_tool_call E self fuel (JStr "get_style_info") (JDict kw) w
  = Returns
      (match keyword kw "style" JNull with
       | JStr s =>
           match dict_lookup s (_style_templates self) with
           | Some t => tool_result (json_dumps_indent E (style_to_value t))
           | None => tool_error ("未找到风格: " ++ s)
           end
       | JList _ | JDict _ =>
           tool_error ("工具调用失败: "
                       ++ exn_str (interp_raise E (Unhashable (keyword kw "style" JNull))))
       | other => tool_error ("未找到风格: " ++ py_repr E other)
       end) w.
Proof.
  unfold handle_tool_call, try_except, dispatch_tool. cbn [eq_str].
  change ("get_style_info" =? "generate_image") with false.
  change ("get_style_info" =? "list_styles") with false.
  change ("get_style_info" =? "list_platforms") with false.
  change ("get_style_info" =? "get_style_info") with true. cbv iota.
  unfold value_get. fold (keyword kw "style" JNull).
  unfold bind at 1. unfold ret at 1.
  destruct (keyword kw "style" JNull) as [|b|n|bits|s|items|d]; try reflexivity.
  unfold bind at 1. cbn [dict_contains]. unfold ret at 1.
  unfold dict_has, dict_getitem.
  destruct (dict_lookup s (_style_templates self)); reflexivity.
Qed.

(** X16. [get_style_info] answers with the template of a registered
    style as JSON text.  It has no fallback: a style that is not
    registered, a missing [style] argument included, is answered with a
    content block flagged [isError] that names the style; a list or a
    dict as style is answered with the caught error. *)
Theorem get_style_info_answer (self : QwenImageMCPService) (fuel : nat)
    (kw : list (string * value)) (w : world) :
  handle_tool_call E self fuel (JStr "get_style_info") (JDict kw) w
  = Returns
      (match keyword kw "style" JNull with
       | JStr s =>
           match dict_lookup s (_style_templates self) with
           | Some t => tool_result (json_dumps_indent E (style_to_value t))
           | None => tool_error ("未找到风格: " ++ s)
           end
       | JList _ | JDict _ =>
           tool_error ("工具调用失败: "
                       ++ exn_str (interp_raise E (Unhashable (keyword kw "style" JNull))))
       | other => tool_error ("未找到风格: " ++ py_repr E other)
       end) w.
Proof.
  apply get_style_info_outcome.
Qed.



(** ** More on the prompts *)

Lemma join_cons (sep x : string) (l : list string) :
  PyStr.join sep (x :: l)
  = x ++ match l with [] => "" | _ => sep ++ PyStr.join sep l end.
Proof.
  destruct l; simpl; [|reflexivity].
  induction x; simpl; [reflexivity | now f_equal].
Qed.

Lemma append_assoc (a b c : string) : (a ++ b) ++ c = a ++ b ++ c.
Proof. induction a; simpl; [reflexivity | now f_equal]. Qed.

Lemma contains_in_join (sep x : string) (l : list string) :
  In x l -> PyStr.contains x (PyStr.join sep l) = true.
Proof.
  induction l as [|y l IH]; [contradiction|].
  intros [->|Hin]; rewrite join_cons, contains_spec.
  - exists "". now eexists.
  - destruct l as [|z l]; [contradiction|].
    apply IH, contains_spec in Hin. destruct Hin as (a & b & Hab).
    exists (y ++ sep ++ a), b. rewrite Hab.
    now rewrite !append_assoc.
Qed.

Lemma in_skip_empty (x : string) (l : list string) :
  In x l -> PyStr.nonempty x = true -> In x (Spec.skip_empty l).
Proof. intros Hin Hx. unfold Spec.skip_empty. apply filter_In. now split. Qed.

(** X18. Enhancement only appends: the composed prompt starts with the
    raw prompt, and whatever the raw prompt is, the base prompt, the
    photography style and the lighting of the style in use are all parts
    of the composed prompt. *)
Theorem enhanced_prompt_extends_raw (raw style platform : string)
    (custom : option string) (w : world) :
  exists composed,
    _enhance_prompt E __init__ (JStr raw) (JStr style) (JStr platform)
                    (JBool true) (of_option custom) w
    = Returns (JStr composed) w
    /\ String.prefix raw composed = true
    /\ PyStr.contains (base_prompt (Spec.lookupStyle style)) composed = true
    /\ PyStr.contains (photography_style (Spec.lookupStyle style)) composed = true
    /\ PyStr.contains (lighting (Spec.lookupStyle style)) composed = true.
Proof.
  eexists. split; [apply enhance_prompt_strings|].
  pose proof (lookupStyle_well_filled style) as Hwf.
  unfold well_filled in Hwf.
  repeat (apply andb_prop in Hwf; destruct Hwf as [Hwf ?]).
  unfold Spec.composePrompt, Spec.composePrompt_fragments.
  set (st := Spec.lookupStyle style) in *.
  set (pc := Spec.lookupPlatform platform).
  assert (Hpre : forall frs, String.prefix raw (PyStr.join "，" (raw :: frs)) = true).
  { intros frs. rewrite join_cons. apply prefix_spec. now eexists. }
  split; [apply Hpre|].
  split; [|split].
  - destruct (PyStr.contains (base_prompt st) raw) eqn:Hc.
    + specialize (Hpre (Spec.skip_empty
                          (Spec.if_present custom ++ [] ++
                           [photography_style st; lighting st] ++
                           quality_keywords st ++ [suffix pc; style_modifier pc]))).
      apply prefix_spec in Hpre. destruct Hpre as [t Ht]. rewrite Ht.
      apply contains_spec in Hc. destruct Hc as (a & b & Hab).
      apply contains_spec. exists a, (b ++ t). rewrite Hab.
      now rewrite !append_assoc.
    + apply contains_in_join. right. apply in_skip_empty; [|assumption].
      apply in_or_app. right. now left.
  - apply contains_in_join. right. apply in_skip_empty; [|assumption].
    apply in_or_app. right. apply in_or_app. right. now left.
  - apply contains_in_join. right. apply in_skip_empty; [|assumption].
    apply in_or_app. right. apply in_or_app. right. right. now left.
Qed.

Lemma append_if_head (c : bool) (x : value) (tl : list value) (v : value) :
  exists tl', append_if c (x :: tl) v = x :: tl'.
Proof. destruct c; simpl; eauto. Qed.

Lemma extend_if_head (c : bool) (x : value) (tl more : list value) :
  exists tl', extend_if c (x :: tl) more = x :: tl'.
Proof. destruct c; simpl; eauto. Qed.

Lemma py_join_head_not_str (sep : string) (x : value) (tl : list value) (w : world) :
  is_str x = false ->
  py_join E sep (x :: tl) w = Raises (interp_raise E (JoinItem 0 x)) w.
Proof. destruct x; try discriminate; reflexivity. Qed.

Lemma pure_step_bind_raises {A B : Type} (m : M A) (k : A -> M B) (w : world) :
  pure_step m ->
  (forall a, exists e, k a w = Raises e w) ->
  exists e, bind m k w = Raises e w.
Proof.
  intros Hm Hk. unfold bind.
  destruct (Hm w) as [[a Ha]|[e He]].
  - rewrite Ha. apply Hk.
  - rewrite He. now exists e.
Qed.

Lemma pure_step_dict_getitem {A : Type} (d : list (string * A)) (k : string) :
  pure_step (dict_getitem E d k).
Proof.
  intros w. unfold dict_getitem.
  destruct (dict_lookup k d); [left | right]; eexists; reflexivity.
Qed.

Lemma pure_step_dict_get {A : Type} (d : list (string * A)) (key : value) (default : A) :
  pure_step (dict_get E d key default).
Proof.
  intros w. destruct key; simpl;
    first [left; eexists; reflexivity | right; eexists; reflexivity].
Qed.

Lemma pure_step_bind {A B : Type} (m : M A) (k : A -> M B) :
  pure_step m -> (forall a, pure_step (k a)) -> pure_step (bind m k).
Proof.
  intros Hm Hk w. unfold bind.
  destruct (Hm w) as [[a Ha]|[e He]].
  - rewrite Ha. apply Hk.
  - rewrite He. right. now exists e.
Qed.

Lemma pure_step_style_template_of (self : QwenImageMCPService) (style : value) :
  pure_step (style_template_of E self style).
Proof.
  unfold style_template_of. apply pure_step_bind.
  - apply pure_step_dict_getitem.
  - intros. apply pure_step_dict_get.
Qed.

Lemma pure_step_platform_config_of (self : QwenImageMCPService) (platform : value) :
  pure_step (platform_config_of E self platform).
Proof.
  unfold platform_config_of. apply pure_step_bind.
  - apply pure_step_dict_getitem.
  - intros. apply pure_step_dict_get.
Qed.

Lemma pure_step_py_contains (s : string) (container : value) :
  pure_step (py_contains E s container).
Proof.
  intros w. destruct container; simpl;
    first [left; eexists; reflexivity | right; eexists; reflexivity].
Qed.

(** X19. With enhancement on, a prompt that is not a string (a number,
    a list, [null], ...) makes prompt composition raise, whatever the
    other arguments and the registries are, and the world is as it
    was. *)
Theorem non_string_prompt_fails_enhancement (self : QwenImageMCPService)
    (prompt style platform enable custom : value) (w : world) :
  is_str prompt = false ->
  truthy enable = true ->
  exists e, _enhance_prompt E self prompt style platform enable custom w = Raises e w.
Proof.
  intros Hprompt Henable. unfold _enhance_prompt. rewrite Henable. cbn [negb].
  apply pure_step_bind_raises; [apply pure_step_style_template_of|]. intros st.
  apply pure_step_bind_raises.
  { destruct (PyStr.nonempty (base_prompt st)).
    - apply pure_step_bind; [apply pure_step_py_contains|].
      intros found w'. left. eexists. reflexivity.
    - intros w'. left. eexists. reflexivity. }
  intros add_base.
  apply pure_step_bind_raises; [apply pure_step_platform_config_of|]. intros pc.
  destruct (append_if_head (truthy custom) prompt [] custom) as [t1 ->].
  destruct (append_if_head add_base prompt t1 (JStr (base_prompt st))) as [t2 ->].
  destruct (append_if_head (PyStr.nonempty (photography_style st)) prompt t2
              (JStr (photography_style st))) as [t3 ->].
  destruct (append_if_head (PyStr.nonempty (lighting st)) prompt t3
              (JStr (lighting st))) as [t4 ->].
  destruct (extend_if_head (nonempty_list (quality_keywords st)) prompt t4
              (map JStr (quality_keywords st))) as [t5 ->].
  destruct (append_if_head (PyStr.nonempty (suffix pc)) prompt t5
              (JStr (suffix pc))) as [t6 ->].
  destruct (append_if_head (PyStr.nonempty (style_modifier pc)) prompt t6
              (JStr (style_modifier pc))) as [t7 ->].
  eexists. now apply py_join_head_not_str.
Qed.

(** X20. For every style key, the negative prompt is the style's
    negative fragment, preceded by the custom text and the delimiter when
    a custom text that is not empty is given.  It is never empty, so the
    provider parameters always carry a [negative_prompt]. *)
Theorem negative_prompt_never_empty (style : string) (custom : option string)
    (size prompt_extend watermark seed : value) (w : world) :
  let fragment := negative_prompt (Spec.lookupStyle style) in
  let negative :=
    match Spec.usable custom with
    | Some c => c ++ "，" ++ fragment
    | None => fragment
    end in
  _get_negative_prompt E __init__ (JStr style) (of_option custom) w
  = Returns (JStr negative) w
  /\ PyStr.nonempty fragment = true
  /\ dict_lookup "negative_prompt"
       (call_parameters (JStr negative) size prompt_extend watermark seed)
     = Some (JStr negative).
Proof.
  intros fragment negative.
  pose proof (lookupStyle_well_filled style) as Hwf.
  unfold well_filled in Hwf.
  repeat (apply andb_prop in Hwf; destruct Hwf as [Hwf ?]).
  fold fragment in H1.
  assert (Hneg : Spec.composeNegativePrompt style custom = negative).
  { unfold Spec.composeNegativePrompt, negative. fold fragment.
    rewrite skip_empty_app, skip_empty_one, H1.
    destruct custom as [c|]; simpl; [|reflexivity].
    destruct (PyStr.nonempty c); reflexivity. }
  split; [rewrite <- Hneg; apply negative_prompt_strings|].
  split; [assumption|].
  assert (Htruthy : truthy (JStr negative) = true).
  { unfold negative. cbn [truthy].
    destruct (Spec.usable custom) as [c|] eqn:Hc; [|assumption].
    apply usable_some in Hc. destruct Hc as [_ Hc].
    destruct c; [discriminate | reflexivity]. }
  pose proof (call_parameters_members (JStr negative) size prompt_extend watermark seed)
    as Hmem. cbv zeta in Hmem.
  destruct Hmem as (_ & _ & _ & Hmem & _). now rewrite Htruthy in Hmem.
Qed.

(** ** Replacement in strings *)

Lemma prefix_empty (s : string) : String.prefix "" s = true.
Proof. now destruct s. Qed.

Lemma contains_empty (s : string) : PyStr.contains "" s = true.
Proof. destruct s; reflexivity. Qed.

Lemma replace_from_drop (old new : string) (k : nat) (s : string) :
  PyStr.replace_from old new k s = PyStr.replace old new (drop k s).
Proof.
  unfold PyStr.replace. revert k. induction s as [|c rest IH]; intros k.
  - now destruct k.
  - destruct k as [|k]; [reflexivity|]. cbn [PyStr.replace_from drop]. apply IH.
Qed.

Lemma length_drop (k : nat) (s : string) :
  String.length (drop k s) <= String.length s.
Proof.
  revert s. induction k as [|k IH]; intros s; [simpl; lia|].
  destruct s as [|c rest]; simpl; [lia|]. specialize (IH rest). lia.
Qed.

Lemma contains_tail (p : string) (c : ascii) (s : string) :
  PyStr.contains p s = true -> PyStr.contains p (String c s) = true.
Proof. intros H. cbn [PyStr.contains]. rewrite H. apply orb_true_r. Qed.

Lemma contains_drop (p : string) (k : nat) (s : string) :
  PyStr.contains p (drop k s) = true -> PyStr.contains p s = true.
Proof.
  revert s. induction k as [|k IH]; intros s; [trivial|].
  destruct s as [|c rest]; [trivial|]. cbn [drop]. intros H.
  now apply contains_tail, IH.
Qed.

(** One step of the replacement of [old] by the single byte [u]. *)
Lemma replace_step (old : string) (u c : ascii) (rest : string) :
  PyStr.replace old (String u "") (String c rest)
  = if String.prefix old (String c rest)
    then String u (PyStr.replace old (String u "")
                     (drop (String.length old - 1) rest))
    else String c (PyStr.replace old (String u "") rest).
Proof.
  unfold PyStr.replace at 1. cbn [PyStr.replace_from].
  destruct (String.prefix old (String c rest)); [|reflexivity].
  now rewrite replace_from_drop.
Qed.

Lemma prefix_cons_other (a : ascii) (p : string) (u : ascii) (s : string) :
  Ascii.eqb u a = false -> String.prefix (String a p) (String u s) = false.
Proof.
  intros H. simpl. destruct (ascii_dec a u) as [->|]; [|reflexivity].
  now rewrite Ascii.eqb_refl in H.
Qed.

(** A pattern without the byte [u] that starts the replaced text starts
    the original text. *)
Lemma prefix_replace (old p : string) (u : ascii) (s : string) :
  existsb (Ascii.eqb u) (bytes p) = false ->
  String.prefix p (PyStr.replace old (String u "") s) = true ->
  String.prefix p s = true.
Proof.
  revert s. induction p as [|a p IH]; intros s Hu; [intros _; apply prefix_empty|].
  cbn [bytes existsb] in Hu. apply orb_false_elim in Hu. destruct Hu as [Hua Hu].
  destruct s as [|c rest]; [trivial|].
  rewrite replace_step.
  destruct (String.prefix old (String c rest)).
  - now rewrite prefix_cons_other.
  - simpl. destruct (ascii_dec a c); [|trivial]. now apply IH.
Qed.

(** The replacement creates no occurrence of a pattern without [u]. *)
Lemma contains_replace (old p : string) (u : ascii) (s : string) :
  existsb (Ascii.eqb u) (bytes p) = false ->
  PyStr.contains p (PyStr.replace old (String u "") s) = true ->
  PyStr.contains p s = true.
Proof.
  intros Hu.
  destruct p as [|a p]; [intros _; apply contains_empty|].
  assert (Hua : Ascii.eqb u a = false).
  { cbn [bytes existsb] in Hu. now apply orb_false_elim in Hu. }
  remember (String.length s) as n eqn:Hn.
  assert (Hle : String.length s <= n) by lia. clear Hn.
  revert s Hle. induction n as [|n IH]; intros s Hle.
  - destruct s; [trivial | simpl in Hle; lia].
  - destruct s as [|c rest]; [trivial|]. simpl in Hle.
    rewrite replace_step.
    destruct (String.prefix old (String c rest)) eqn:Hold.
    + cbn [PyStr.contains]. rewrite prefix_cons_other by assumption.
      cbn [orb]. intros H. apply contains_tail.
      apply contains_drop with (k := String.length old - 1). apply IH; [|exact H].
      pose proof (length_drop (String.length old - 1) rest). lia.
    + intros H. change (PyStr.contains (String a p)
                          (String c (PyStr.replace old (String u "") rest)))
        with (String.prefix (String a p)
                (String c (PyStr.replace old (String u "") rest))
              || PyStr.contains (String a p) (PyStr.replace old (String u "") rest)) in H.
      apply orb_true_iff in H. destruct H as [H|H].
      * assert (Hp : String.prefix (String a p) (String c rest) = true).
        { apply (prefix_replace old (String a p) u (String c rest) Hu).
          now rewrite replace_step, Hold. }
        cbn [PyStr.contains]. now rewrite Hp.
      * apply contains_tail, IH; [lia | exact H].
Qed.

(** After the replacement of [old] by a byte that is not in [old], no
    occurrence of [old] is left. *)
Lemma replace_removes (old : string) (u : ascii) (s : string) :
  PyStr.nonempty old = true ->
  existsb (Ascii.eqb u) (bytes old) = false ->
  PyStr.contains old (PyStr.replace old (String u "") s) = false.
Proof.
  intros Hne Hu.
  destruct old as [|a old]; [discriminate|].
  assert (Hua : Ascii.eqb u a = false).
  { cbn [bytes existsb] in Hu. now apply orb_false_elim in Hu. }
  remember (String.length s) as n eqn:Hn.
  assert (Hle : String.length s <= n) by lia. clear Hn.
  revert s Hle. induction n as [|n IH]; intros s Hle.
  - destruct s; [reflexivity | simpl in Hle; lia].
  - destruct s as [|c rest]; [reflexivity|]. simpl in Hle.
    rewrite replace_step.
    destruct (String.prefix (String a old) (String c rest)) eqn:Hold.
    + cbn [PyStr.contains]. rewrite prefix_cons_other by assumption.
      cbn [orb]. apply IH.
      pose proof (length_drop (String.length (String a old) - 1) rest). lia.
    + change (PyStr.contains (String a old)
                (String c (PyStr.replace (String a old) (String u "") rest)))
        with (String.prefix (String a old)
                (String c (PyStr.replace (String a old) (String u "") rest))
              || PyStr.contains (String a old)
                   (PyStr.replace (String a old) (String u "") rest)).
      rewrite IH by lia. rewrite orb_false_r.
      destruct (String.prefix (String a old)
                  (String c (PyStr.replace (String a old) (String u "") rest)))
        eqn:Hp; [|reflexivity].
      assert (Hp' : String.prefix (String a old) (String c rest) = true).
      { apply (prefix_replace (String a old) (String a old) u (String c rest) Hu).
        now rewrite replace_step, Hold. }
      congruence.
Qed.

(** ** File names *)

Lemma generate_filename_strings (self : QwenImageMCPService)
    (prompt : string) (style : value) (size : string) (w : world) :
  _generate_filename E self (JStr prompt) style (JStr size) w
  = Returns ("qwen_" ++ strftime_now E (ticks w) ++ "_"
             ++ PyStr.replace "*" "x" size ++ "_" ++ py_str E style ++ "_"
             ++ PyStr.replace "," "_"
                  (PyStr.replace "，" "_"
                     (PyStr.replace " " "_" (PyStr.take 10 prompt)))
             ++ "_" ++ PyStr.take 8 (uuid4 E (S (ticks w))) ++ ".png")
            (ticked (ticked w)).
Proof. reflexivity. Qed.

(** X21. For a string prompt and a string size, the file name is
    [qwen_], the time stamp, the size, the style, a description and the
    first eight characters of the random id, joined by underscores and
    ended by [.png]; two external calls are made (clock and id).  The
    description, made from the first ten characters of the prompt, holds
    no space, no comma and no full-width comma, and the size part holds
    no asterisk. *)
Theorem generated_filename_parts (self : QwenImageMCPService)
    (prompt : string) (style : value) (size : string) (w : world) :
  exists desc size_str,
    _generate_filename E self (JStr prompt) style (JStr size) w
    = Returns ("qwen_" ++ strftime_now E (ticks w) ++ "_" ++ size_str ++ "_"
               ++ py_str E style ++ "_" ++ desc ++ "_"
               ++ PyStr.take 8 (uuid4 E (S (ticks w))) ++ ".png")
              (ticked (ticked w))
    /\ PyStr.contains " " desc = false
    /\ PyStr.contains "," desc = false
    /\ PyStr.contains "，" desc = false
    /\ PyStr.contains "*" size_str = false.
Proof.
  eexists. eexists. split; [apply generate_filename_strings|].
  split; [|split; [|split]].
  - destruct (PyStr.contains " " _) eqn:H; [|reflexivity].
    apply (contains_replace "," " " "_"%char) in H; [|reflexivity].
    apply (contains_replace "，" " " "_"%char) in H; [|reflexivity].
    now rewrite (replace_removes " " "_"%char) in H.
  - now apply (replace_removes "," "_"%char).
  - destruct (PyStr.contains "，" _) eqn:H; [|reflexivity].
    apply (contains_replace "," "，" "_"%char) in H; [|reflexivity].
    now rewrite (replace_removes "，" "_"%char) in H.
  - now apply (replace_removes "*" "x"%char).
Qed.

Lemma append_inv_head (x a b : string) : x ++ a = x ++ b -> a = b.
Proof. induction x; simpl; intros H; [exact H | injection H as H; auto]. Qed.

Lemma length_append (a b : string) :
  String.length (a ++ b) = String.length a + String.length b.
Proof. induction a; simpl; [reflexivity | now f_equal]. Qed.

Lemma append_inv_tail (a b t : string) : a ++ t = b ++ t -> a = b.
Proof.
  revert b. induction a as [|c a IH]; intros b H.
  - destruct b as [|c b]; [reflexivity|].
    apply (f_equal String.length) in H. rewrite !length_append in H. simpl in H. lia.
  - destruct b as [|c' b].
    + apply (f_equal String.length) in H. rewrite !length_append in H. simpl in H. lia.
    + simpl in H. injection H as -> H. f_equal. now apply IH.
Qed.

(** X22. Two file names generated for the same prompt, style and size
    under the same time stamp differ as soon as the first eight
    characters of their random ids differ. *)
Theorem filenames_differ_with_ids (self : QwenImageMCPService)
    (prompt : string) (style : value) (size : string) (w1 w2 w1' w2' : world)
    (f1 f2 : string) :
  _generate_filename E self (JStr prompt) style (JStr size) w1 = Returns f1 w1' ->
  _generate_filename E self (JStr prompt) style (JStr size) w2 = Returns f2 w2' ->
  strftime_now E (ticks w1) = strftime_now E (ticks w2) ->
  PyStr.take 8 (uuid4 E (S (ticks w1))) <> PyStr.take 8 (uuid4 E (S (ticks w2))) ->
  f1 <> f2.
Proof.
  rewrite !generate_filename_strings.
  intros H1 H2 Hts Hid Heq.
  injection H1 as <- _. injection H2 as <- _. rewrite Hts in Heq.
  repeat first [apply append_inv_head in Heq | injection Heq as Heq].
  now apply append_inv_tail in Heq.
Qed.

(** ** load_env.py *)

Section LoadEnvProperties.

Variable putenv_error : string -> string -> option exn.


Lemma split_once_contains (s : string) :
  LoadEnv.split_once "="%char s = None <-> PyStr.contains "=" s = false.
Proof.
  induction s as [|c s IH]; [now split|].
  cbn [LoadEnv.split_once PyStr.contains].
  assert (Hp : String.prefix "=" (String c s) = Ascii.eqb c "="%char).
  { cbn [String.prefix]. destruct (ascii_dec "="%char c) as [<-|Hne].
    - now rewrite prefix_empty.
    - symmetry. apply Ascii.eqb_neq. congruence. }
  rewrite Hp. destruct (Ascii.eqb c "="%char); [now split|].
  cbn [orb]. rewrite <- IH.
  destruct (LoadEnv.split_once "="%char s) as [[b a]|]; now split.
Qed.



(** X24. A line that is blank once stripped, a line that starts with a
    hash and a line without an equals sign change nothing: nothing is
    assigned and nothing is printed. *)
Theorem other_lines_are_ignored (line : string) (rest : list string)
    (sh : LoadEnv.shell) :
  PyStr.nonempty (str_strip E line) = false
  \/ String.prefix "#" (str_strip E line) = true
  \/ PyStr.contains "=" (str_strip E line) = false ->
  LoadEnv.load_lines E putenv_error (line :: rest) sh
  = LoadEnv.load_lines E putenv_error rest sh.
Proof.
  intros H. cbn [LoadEnv.load_lines].
  assert (Hl : LoadEnv.load_line E putenv_error line sh = (None, sh)).
  { unfold LoadEnv.load_line.
    destruct H as [H|[H|H]]; rewrite H; cbn [negb andb]; try reflexivity.
    - now rewrite andb_false_r.
    - now rewrite andb_false_r. }
  now rewrite Hl.
Qed.

(** X25. The lines are loaded in order, and an error of an assignment
    ends the loading: the lines after it are not read, what was assigned
    before it stays assigned. *)
Theorem load_lines_sequential (lines more : list string) (sh : LoadEnv.shell) :
  LoadEnv.load_lines E putenv_error (lines ++ more)%list sh
  = match LoadEnv.load_lines E putenv_error lines sh with
    | (None, sh') => LoadEnv.load_lines E putenv_error more sh'
    | (Some e, sh') => (Some e, sh')
    end.
Proof.
  revert sh. induction lines as [|line rest IH]; intros sh.
  - reflexivity.
  - change ((line :: rest) ++ more)%list with (line :: (rest ++ more))%list.
    cbn [LoadEnv.load_lines].
    destruct (LoadEnv.load_line E putenv_error line sh) as [[e|] sh1];
      [reflexivity | apply IH].
Qed.

(** Loading never unsets a name. *)
Lemma load_line_keeps_names (line : string) (sh sh' : LoadEnv.shell)
    (r : option exn) (name : string) :
  LoadEnv.load_line E putenv_error line sh = (r, sh') ->
  dict_has name (LoadEnv.environ sh) = true ->
  dict_has name (LoadEnv.environ sh') = true.
Proof.
  unfold LoadEnv.load_line.
  destruct (_ && _ && _); [|intros H; now injection H as _ <-].
  destruct (LoadEnv.split_once _ _) as [[k v]|]; [|intros H; now injection H as _ <-].
  destruct (putenv_error k v); intros H; injection H as _ <-; [trivial|].
  unfold dict_has. cbn [LoadEnv.environ dict_lookup].
  now destruct (k =? name).
Qed.

Lemma load_lines_keeps_names (lines : list string) (sh sh' : LoadEnv.shell)
    (r : option exn) (name : string) :
  LoadEnv.load_lines E putenv_error lines sh = (r, sh') ->
  dict_has name (LoadEnv.environ sh) = true ->
  dict_has name (LoadEnv.environ sh') = true.
Proof.
  revert sh. induction lines as [|line rest IH]; intros sh.
  - cbn. intros H. now injection H as _ <-.
  - cbn [LoadEnv.load_lines].
    destruct (LoadEnv.load_line E putenv_error line sh) as [[e|] sh1] eqn:Hl;
      intros H Hn; pose proof (load_line_keeps_names _ _ _ _ name Hl Hn) as Hn1.
    + now injection H as _ <-.
    + now apply (IH sh1).
Qed.

End LoadEnvProperties.

(** ** The driver scripts *)

Section DriverProperties.

Variable no_attribute : string -> string -> exn.

Lemma bind_print {A : Type} (line : string) (k : unit -> M A) (w : world) :
  bind (print line) k w = k tt (printed line w).
Proof. reflexivity. Qed.

Lemma task_generation_returns (service : QwenImageMCPService) (api_key : value)
    (output_dir : string) (task : Drivers.Task) (w : world) :
  exists r w',
    generate_image E service 0 (Drivers.task_args api_key output_dir task) w
    = Returns r w'.
Proof.
  destruct (generate_image E service 0 (Drivers.task_args api_key output_dir task) w)
    as [r w'|e w'|] eqn:Hgen.
  - eauto.
  - now apply generate_image_no_raise in Hgen.
  - now apply (settles_generate_image service 0
                 (Drivers.task_args api_key output_dir task) eq_refl) in Hgen.
Qed.

(** X28. When the generation of a task fails, the entry the script
    records does not carry the error message of the generation: reading
    [result.error] raises, because the result has no such attribute, and
    the entry carries the text of that attribute error. *)
Theorem failed_task_records_attribute_error (service : QwenImageMCPService)
    (api_key : value) (output_dir : string) (i : nat) (task : Drivers.Task)
    (w w' : world) (r : ImageGenerationResult) :
  generate_image E service 0 (Drivers.task_args api_key output_dir task)
    (printed ("   提示词: " ++ Drivers.task_prompt task)
       (printed (Drivers.newline ++ "🎨 正在生成第" ++ Drivers.decimal i
                 ++ "张图片: " ++ Drivers.task_name task) w))
  = Returns r w' ->
  success r = false ->
  Drivers.run_task E no_attribute service api_key output_dir i task w
  = Returns (JDict [("name", JStr (Drivers.task_name task));
                    ("error", JStr (Drivers.attribute_error_text no_attribute));
                    ("success", JBool false)])
            (printed ("❌ 生成第" ++ Drivers.decimal i ++ "张图片时出错: "
                      ++ (Drivers.attribute_error_text no_attribute)) w').
Proof.
  intros Hgen Hfail.
  unfold Drivers.run_task, try_except.
  rewrite !bind_print, (bind_returns _ _ _ _ _ Hgen), Hfail.
  reflexivity.
Qed.

Lemma run_task_entry (service : QwenImageMCPService) (api_key : value)
    (output_dir : string) (i : nat) (task : Drivers.Task) (w : world) :
  exists entry w',
    Drivers.run_task E no_attribute service api_key output_dir i task w
    = Returns entry w'
    /\ member "name" entry = Some (JStr (Drivers.task_name task))
    /\ (Drivers.is_success_entry entry = true
        \/ Drivers.is_attribute_error_entry (Drivers.attribute_error_text no_attribute) entry = true).
Proof.
  unfold Drivers.run_task, try_except. rewrite !bind_print.
  match goal with
  | |- context [bind (generate_image E service 0 ?a) _ ?w0] =>
      destruct (task_generation_returns service api_key output_dir task w0)
        as (r & w' & Hgen)
  end.
  rewrite (bind_returns _ _ _ _ _ Hgen).
  destruct (success r).
  - rewrite !bind_print. eexists. eexists. split; [reflexivity|].
    split; [reflexivity|]. left. reflexivity.
  - eexists. eexists. split; [reflexivity|]. split; [reflexivity|].
    right. unfold Drivers.is_attribute_error_entry. cbn.
    apply String.eqb_refl.
Qed.

Lemma run_tasks_entries (service : QwenImageMCPService) (api_key : value)
    (output_dir : string) (tasks : list Drivers.Task) (i : nat) (w : world) :
  exists results w',
    Drivers.run_tasks E no_attribute service api_key output_dir i tasks w
    = Returns results w'
    /\ Drivers.entry_names results = map (fun t => JStr (Drivers.task_name t)) tasks
    /\ Forall (fun entry =>
                 Drivers.is_success_entry entry = true
                 \/ Drivers.is_attribute_error_entry (Drivers.attribute_error_text no_attribute) entry = true)
              results.
Proof.
  revert i w. induction tasks as [|task rest IH]; intros i w.
  - exists [], w. repeat split. constructor.
  - destruct (run_task_entry service api_key output_dir i task w)
      as (entry & w1 & Hrun & Hname & Hkind).
    destruct (IH (S i) w1) as (results & w2 & Hrest & Hnames & Hall).
    exists (entry :: results), w2. split; [|split].
    + cbn [Drivers.run_tasks].
      now rewrite (bind_returns _ _ _ _ _ Hrun), (bind_returns _ _ _ _ _ Hrest).
    + unfold Drivers.entry_names in *. cbn [flat_map map].
      now rewrite Hname, Hnames.
    + now constructor.
Qed.

Lemma print_summary_returns (results : list value) (i : nat) (w : world) :
  Forall (fun entry =>
            Drivers.is_success_entry entry = true
            \/ Drivers.is_attribute_error_entry (Drivers.attribute_error_text no_attribute) entry = true)
         results ->
  (forall entry, In entry results -> member "name" entry <> None) ->
  exists w', Drivers.print_summary E i results w = Returns tt w'.
Proof.
  revert i w. induction results as [|entry rest IH]; intros i w Hall Hnames.
  - now exists w.
  - inversion Hall as [|? ? Hentry Hrest]; subst.
    assert (Hname : member "name" entry <> None) by (apply Hnames; now left).
    assert (Hnames' : forall e, In e rest -> member "name" e <> None)
      by (intros e He; apply Hnames; now right).
    cbn [Drivers.print_summary].
    destruct (member "name" entry) as [name|] eqn:Hn; [|contradiction].
    destruct Hentry as [Hentry|Hentry].
    + unfold Drivers.is_success_entry in Hentry.
      destruct (member "success" entry) as [[|[|]| | | | |]|] eqn:Hs; try discriminate.
      destruct (member "path" entry) as [path|] eqn:Hp; try discriminate.
      rewrite (bind_returns _ _ _ _ _ (getattr_member _ _ _ w Hs)). cbn [truthy].
      rewrite bind_assoc, (bind_returns _ _ _ _ _ (getattr_member _ _ _ w Hn)).
      rewrite bind_assoc, (bind_returns _ _ _ _ _ (getattr_member _ _ _ w Hp)).
      rewrite bind_print. now apply IH.
    + unfold Drivers.is_attribute_error_entry in Hentry.
      destruct (member "success" entry) as [[|[|]| | | | |]|] eqn:Hs; try discriminate.
      destruct (member "path" entry) eqn:Hp; try discriminate.
      destruct (member "error" entry) as [error|] eqn:He; try discriminate.
      rewrite (bind_returns _ _ _ _ _ (getattr_member _ _ _ w Hs)). cbn [truthy].
      rewrite bind_assoc, (bind_returns _ _ _ _ _ (getattr_member _ _ _ w Hn)).
      rewrite bind_assoc, (bind_returns _ _ _ _ _ (getattr_member _ _ _ w He)).
      rewrite bind_print. now apply IH.
Qed.

Lemma entry_names_defined (results : list value) (names : list string) :
  Drivers.entry_names results = map JStr names ->
  List.length results = List.length names ->
  forall entry, In entry results -> member "name" entry <> None.
Proof.
  revert names. induction results as [|r rest IH]; intros names Hn Hlen entry Hin.
  - contradiction.
  - destruct names as [|n names]; [discriminate|].
    unfold Drivers.entry_names in Hn. cbn [flat_map map] in Hn.
    destruct (member "name" r) as [x|] eqn:Hr.
    + injection Hn as _ Hn. simpl in Hlen. injection Hlen as Hlen.
      destruct Hin as [<-|Hin]; [congruence|].
      now apply (IH names).
    + exfalso. simpl in Hlen. injection Hlen as Hlen.
      apply (f_equal (@List.length value)) in Hn.
      change (flat_map _ rest) with (Drivers.entry_names rest) in Hn.
      cbn [List.length app] in Hn. rewrite length_map in Hn.
      assert (Hle : List.length (Drivers.entry_names rest) <= List.length rest).
      { clear. induction rest as [|x rest IH]; [simpl; lia|].
        unfold Drivers.entry_names in *. cbn [flat_map].
        destruct (member "name" x); simpl; lia. }
      lia.
Qed.

Lemma run_tasks_length (service : QwenImageMCPService) (api_key : value)
    (output_dir : string) (tasks : list Drivers.Task) (i : nat) (w w' : world)
    (results : list value) :
  Drivers.run_tasks E no_attribute service api_key output_dir i tasks w
  = Returns results w' ->
  List.length results = List.length tasks.
Proof.
  revert i w w' results. induction tasks as [|task rest IH]; intros i w w' results.
  - cbn. intros H. now injection H as <- _.
  - cbn [Drivers.run_tasks]. unfold bind at 1.
    destruct (Drivers.run_task E no_attribute service api_key output_dir i task w)
      as [entry w1|? ?|]; try discriminate.
    unfold bind at 1.
    destruct (Drivers.run_tasks E no_attribute service api_key output_dir (S i) rest w1)
      as [entries w2|? ?|] eqn:Hrest; try discriminate.
    intros H. injection H as <- _. simpl. f_equal. eapply IH. exact Hrest.
Qed.

(** X26. Without a credential in the environment (unset or empty) a
    script returns the empty list and makes no external call: no
    directory is created and the service is not called.  The study script
    prints two lines, the analysis script one. *)
Theorem scripts_stop_without_credential (w : world) :
  Spec.usable (environ_key w) = None ->
  Drivers.generate_study_images E no_attribute w
  = Returns [] (printed "⏭️  跳过AI生成，使用现有图片"
                  (printed "❌ 请设置 DASHSCOPE_API_KEY 环境变量" w))
  /\ Drivers.generate_analysis_images E no_attribute w
     = Returns [] (printed "❌ 请设置 DASHSCOPE_API_KEY 环境变量" w).
Proof.
  intros Henv.
  assert (Hkey : truthy (match environ_key w with Some s => JStr s | None => JNull end)
                 = false).
  { change (match environ_key w with Some s => JStr s | None => JNull end)
      with (of_option (environ_key w)).
    now rewrite usable_truthy, Henv. }
  split.
  - unfold Drivers.generate_study_images, Drivers.generate_images.
    unfold bind at 1. unfold os_environ_get_key. now rewrite Hkey.
  - unfold Drivers.generate_analysis_images, Drivers.generate_images.
    unfold bind at 1. unfold os_environ_get_key. now rewrite Hkey.
Qed.

(** X27. With a credential in the environment and the output directory
    in place, a script does not raise and does not wait: it returns one
    entry for every task, in the order of the tasks and under their
    names; every entry is either that of a success, with its path, or the
    entry of the attribute error. *)
Theorem scripts_return_one_entry_per_task (no_key_lines : list string)
    (tasks : list Drivers.Task) (w : world) (k : string) :
  Spec.usable (environ_key w) = Some k ->
  os_makedirs E (JStr "generated_images") (ticks w) = inr tt ->
  exists results w',
    Drivers.generate_images E no_attribute no_key_lines tasks w = Returns results w'
    /\ Drivers.entry_names results = map (fun t => JStr (Drivers.task_name t)) tasks
    /\ Forall (fun entry =>
                 Drivers.is_success_entry entry = true
                 \/ Drivers.is_attribute_error_entry (Drivers.attribute_error_text no_attribute) entry = true)
              results.
Proof.
  intros Henv Hdir.
  assert (Hkey : truthy (match environ_key w with Some s => JStr s | None => JNull end)
                 = true).
  { change (match environ_key w with Some s => JStr s | None => JNull end)
      with (of_option (environ_key w)).
    now rewrite usable_truthy, Henv. }
  unfold Drivers.generate_images.
  unfold bind at 1. unfold os_environ_get_key. rewrite Hkey. cbn [negb]. cbv zeta.
  unfold bind at 1. unfold external at 1. cbn [ticks]. rewrite Hdir.
  match goal with
  | |- context [bind (Drivers.run_tasks E no_attribute ?s ?a ?d 1 tasks) _ ?w0] =>
      destruct (run_tasks_entries s a d tasks 1 w0)
        as (results & w1 & Hrun & Hnames & Hall)
  end.
  rewrite (bind_returns _ _ _ _ _ Hrun). rewrite !bind_print.
  assert (Hdefined : forall entry, In entry results -> member "name" entry <> None).
  { apply (entry_names_defined results (map Drivers.task_name tasks)).
    - now rewrite map_map.
    - rewrite length_map. eapply run_tasks_length. exact Hrun. }
  match goal with
  | |- context [bind (Drivers.print_summary E 1 results) _ ?w0] =>
      destruct (print_summary_returns results 1 w0 Hall Hdefined) as [w2 Hsum]
  end.
  rewrite (bind_returns _ _ _ _ _ Hsum).
  exists results, w2. now repeat split.
Qed.

End DriverProperties.

End Properties.

(** * Instances in the concrete world *)

(** Scenario A of the specification: the [general] fragments follow the
    raw prompt once each, in registry order; the [general] platform adds
    nothing. *)
Example red_bicycle_prompt (w : world) :
  _enhance_prompt Demo.healthy __init__ (JStr "a red bicycle") (JStr "general")
                  (JStr "general") (JBool true) JNull w
  = Returns (JStr "a red bicycle，高质量图片，专业摄影，自然光线，高清，精细，清晰，专业") w.
Proof. reflexivity. Qed.

(** The base prompt is not repeated when the raw prompt contains it. *)
Example base_prompt_not_repeated (w : world) :
  _enhance_prompt Demo.healthy __init__ (JStr "一张高质量图片") (JStr "general")
                  (JStr "xiaohongshu") (JBool true) (JStr "俯拍") w
  = Returns (JStr "一张高质量图片，俯拍，专业摄影，自然光线，高清，精细，清晰，专业，适合小红书分享，社交媒体风格，生活化，亲和力强") w.
Proof. reflexivity. Qed.

(** An empty raw prompt still takes the first place of the join. *)
Example empty_raw_prompt_is_kept (w : world) :
  _enhance_prompt Demo.healthy __init__ (JStr "") (JStr "general")
                  (JStr "general") (JBool true) JNull w
  = Returns (JStr "，高质量图片，专业摄影，自然光线，高清，精细，清晰，专业") w.
Proof. reflexivity. Qed.

(** [twitter] is a name of the [Platform] type that the registry lacks:
    it is composed as [general]. *)
Example twitter_falls_back (raw : string) (w : world) :
  In "twitter" Platform
  /\ Spec.lookupPlatform "twitter" = Spec.general_platform
  /\ _enhance_prompt Demo.healthy __init__ (JStr raw) (JStr "food") (JStr "twitter")
                     (JBool true) JNull w
     = _enhance_prompt Demo.healthy __init__ (JStr raw) (JStr "food") (JStr "general")
                       (JBool true) JNull w.
Proof.
  split; [simpl; tauto|]. split; [reflexivity|].
  now rewrite !(enhance_prompt_strings Demo.healthy raw _ _ None).
Qed.

(** ** A download that fails *)



(** ** Lines that do not parse *)

Lemma unparsable_line_is_skipped_witness :
  PyStr.nonempty (Demo.input_line "not json") = true
  /\ json_loads Demo.healthy (str_strip Demo.healthy (Demo.input_line "not json")) = None
  /\ forall rest w,
       run_mcp_server Demo.healthy __init__ 0 (Demo.input_line "not json" :: rest) w
       = run_mcp_server Demo.healthy __init__ 0 rest w.
Proof.
  split; [reflexivity|]. split; [reflexivity|].
  intros rest w.
  apply (unparsable_line_is_skipped Demo.healthy __init__ 0); reflexivity.
Defined.

(** A session: a line that does not parse, a request, a truncated
    request.  Only the request is answered. *)
Example unparsable_session :
  let request :=
    JDict [("jsonrpc", JStr "2.0"); ("id", JInt 0); ("method", JStr "tools/list")] in
  exists answer,
    run_mcp_server Demo.healthy __init__ 0
      [Demo.input_line "not json";
       Demo.input_line (Demo.dumps request);
       Demo.input_line "{'id': 1,"]
      Demo.world0
    = Returns tt {| environ_key := Some "sk-demo"; ticks := 0; sleeps := [];
                    stdout := [answer] |}.
Proof. eexists. vm_compute. reflexivity. Qed.

(** ** An unknown tool *)

Lemma unknown_tool_is_tool_error_witness :
  handle_mcp_request Demo.healthy __init__ 0
    (Demo.call_of (JDict [("name", JStr "resize_image"); ("arguments", JDict [])]))
    Demo.world0
  = Returns (rpc_result (JInt 1) (tool_error "未知工具: resize_image")) Demo.world0.
Proof.
  apply (unknown_tool_is_tool_error Demo.healthy __init__ 0
           [("jsonrpc", JStr "2.0"); ("id", JInt 1); ("method", JStr "tools/call");
            ("params", JDict [("name", JStr "resize_image"); ("arguments", JDict [])])]
           [("name", JStr "resize_image"); ("arguments", JDict [])] Demo.world0);
    reflexivity.
Defined.

(** ** Async tasks *)

(** The job is submitted at tick 0; the polls at ticks 1, 2 and 3 show it
    running, the poll at tick 4 shows it succeeded: three sleeps of three
    seconds, five external calls. *)
Lemma async_mode_polls_witness :
  _call_qwen_api Demo.healthy __init__ 10 (JStr "a red bicycle") (JStr "sk-demo")
                 (JStr "") (JStr "1328*1328") (JStr "qwen-image") (JStr "async")
                 (JBool true) (JBool false) JNull Demo.world0
  = Returns (Demo.synthesis_reply "SUCCEEDED")
            {| environ_key := Some "sk-demo"; ticks := 5;
               sleeps := [3%Z; 3%Z; 3%Z]; stdout := [] |}.
Proof.
  apply (proj1 (async_mode_polls_until_terminal Demo.healthy __init__ 10
                  (JStr "a red bicycle") (JStr "") (JStr "1328*1328")
                  (JStr "qwen-image") (JBool true) (JBool false) JNull
                  "sk-demo" Demo.world0
                  (Demo.synthesis_reply "PENDING") (JStr "task-1")
                  eq_refl eq_refl) 3 (Demo.synthesis_reply "SUCCEEDED")).
  - lia.
  - intros m Hm. destruct m as [|[|[|m]]]; [reflexivity .. | lia].
  - reflexivity.
Defined.

(** The same job with a task that ends in the failure state. *)
Example async_mode_failed_task :
  _call_qwen_api Demo.failing_task __init__ 10 (JStr "a red bicycle") (JStr "sk-demo")
                 (JStr "") (JStr "1328*1328") (JStr "qwen-image") (JStr "async")
                 (JBool true) (JBool false) JNull Demo.world0
  = Raises (task_failed Demo.failing_task (Demo.synthesis_reply "FAILED"))
           {| environ_key := Some "sk-demo"; ticks := 5;
              sleeps := [3%Z; 3%Z; 3%Z]; stdout := [] |}.
Proof. reflexivity. Qed.

(** A task that never leaves the running state: pending under every budget. *)
Example async_mode_stuck_task (fuel : nat) :
  _call_qwen_api Demo.stuck_task __init__ fuel (JStr "a red bicycle") (JStr "sk-demo")
                 (JStr "") (JStr "1328*1328") (JStr "qwen-image") (JStr "async")
                 (JBool true) (JBool false) JNull Demo.world0
  = Pending.
Proof.
  apply (async_mode_never_terminal Demo.stuck_task __init__ _ _ _ _ _ _ _ _ _
           (Demo.synthesis_reply "PENDING") (JStr "task-1")); reflexivity.
Qed.

(** ** Errors of a tool call *)

(** A [tools/call] request whose [params] is [null] is answered with the
    protocol-level error -32603. *)
Lemma tools_call_null_params_internal_error :
  member "method" (Demo.call_of JNull) = Some (JStr "tools/call")
  /\ exists response,
       handle_mcp_request Demo.healthy __init__ 0 (Demo.call_of JNull) Demo.world0
       = Returns response Demo.world0
       /\ error_code response = Some (JInt (-32603))
       /\ member "result" response = None.
Proof.
  split; [reflexivity|].
  eexists. split; [reflexivity|]. split; reflexivity.
Qed.

(** The same request as a line of input: one line of output, the error. *)
Example null_params_session :
  run_mcp_server Demo.healthy __init__ 0
    [Demo.input_line (Demo.dumps (Demo.call_of JNull))] Demo.world0
  = Returns tt
      {| environ_key := Some "sk-demo"; ticks := 0; sleeps := [];
         stdout :=
           [Demo.dumps
              (rpc_error (JInt 1) (-32603)
                 "内部错误: object has no attribute 'get'")] |}.
Proof. vm_compute. reflexivity. Qed.

(** An argument outside the schema of [generate_image]. *)
Example unexpected_argument_is_tool_error :
  handle_tool_call Demo.healthy __init__ 0 (JStr "generate_image")
    (JDict [("prompt", JStr "a red bicycle"); ("colour", JStr "red")]) Demo.world0
  = Returns (tool_error "工具调用失败: got an unexpected keyword argument 'colour'")
            Demo.world0.
Proof. reflexivity. Qed.

(** ** Credential *)

Example empty_key_uses_environment :
  _get_api_key __init__ (JStr "") Demo.world0 = Returns (JStr "sk-demo") Demo.world0.
Proof. reflexivity. Qed.

(** ** The request handler on concrete requests *)

Lemma unknown_method_is_rejected_witness :
  handle_mcp_request Demo.healthy __init__ 0 (JDict Scenes.resources_request)
                     Demo.world0
  = Returns (rpc_error (JInt 3) (-32601) "未知方法: resources/list") Demo.world0
  /\ error_code (rpc_error (JInt 3) (-32601) "未知方法: resources/list")
     = Some (JInt (-32601)).
Proof.
  apply (unknown_method_is_rejected Demo.healthy __init__ 0
           Scenes.resources_request Demo.world0); reflexivity.
Defined.

Lemma internal_error_iff_bad_params_witness :
  exists response w',
    handle_mcp_request Demo.healthy __init__ 0 (JDict Scenes.null_params_request)
                       Demo.world0
    = Returns response w'
    /\ error_code response = Some (JInt (-32603)).
Proof.
  do 2 eexists. split; [vm_compute; reflexivity|].
  apply (internal_error_iff_bad_params Demo.healthy __init__ 0
           Scenes.null_params_request Demo.world0 Demo.world0);
    [vm_compute; reflexivity|].
  split; reflexivity.
Defined.

Lemma non_object_request_is_dropped_witness :
  run_mcp_server Demo.healthy __init__ 0
                 [Demo.input_line "null";
                  Demo.input_line (Demo.dumps Scenes.list_request)] Demo.world0
  = run_mcp_server Demo.healthy __init__ 0
                   [Demo.input_line (Demo.dumps Scenes.list_request)] Demo.world0.
Proof.
  apply (non_object_request_is_dropped Demo.healthy __init__ 0
           (Demo.input_line "null") JNull); reflexivity.
Defined.

Lemma read_loop_sequential_witness :
  run_mcp_server Demo.healthy __init__ 0
                 ([Demo.input_line "null";
                   Demo.input_line (Demo.dumps Scenes.list_request)]
                  ++ [Demo.input_line "{}"])%list Demo.world0
  = bind (run_mcp_server Demo.healthy __init__ 0
                         [Demo.input_line "null";
                          Demo.input_line (Demo.dumps Scenes.list_request)])
         (fun _ => run_mcp_server Demo.healthy __init__ 0 [Demo.input_line "{}"])
         Demo.world0.
Proof.
  apply (read_loop_sequential Demo.healthy __init__ 0); reflexivity.
Defined.

(** ** Generation in the concrete world *)

Lemma no_credential_no_call_witness :
  generate_image Demo.healthy __init__ 0 (Demo.args "a red bicycle")
                 Scenes.bare_world
  = Returns (failure_result Demo.healthy missing_key_error 0 1)
            (ticked (ticked Scenes.bare_world)).
Proof.
  apply (no_credential_no_call Demo.healthy __init__ 0 (Demo.args "a red bicycle")
           Scenes.bare_world); reflexivity.
Defined.

Lemma generation_without_saving_witness :
  exists enhanced negative w2,
    generate_image Demo.healthy __init__ 10 (Scenes.async_args "a red bicycle")
                   Demo.world0
    = Returns (success_result Demo.healthy (Scenes.async_args "a red bicycle")
                 enhanced negative Demo.image_link JNull 0 (ticks w2))
              (ticked w2).
Proof.
  do 3 eexists.
  apply (generation_without_saving Demo.healthy __init__ 10
           (Scenes.async_args "a red bicycle") Demo.world0);
    [vm_compute; reflexivity | reflexivity].
Defined.

Lemma generation_with_saving_witness :
  exists enhanced negative w4,
    generate_image Demo.healthy __init__ 0 (Demo.args "a red bicycle") Demo.world0
    = Returns (success_result Demo.healthy (Demo.args "a red bicycle")
                 enhanced negative Demo.image_link
                 (JStr "generated_images/qwen_20250101_000000_1328x1328_general_a_red_bicy_123e4567.png")
                 0 (ticks w4))
              (ticked w4).
Proof.
  do 3 eexists.
  eapply (generation_with_saving Demo.healthy __init__ 0
            (Demo.args "a red bicycle") Demo.world0);
    [vm_compute; reflexivity | reflexivity
     | vm_compute; reflexivity | vm_compute; reflexivity].
Defined.

Lemma provider_error_is_failure_witness :
  exists e w2,
    generate_image Demo.failing_task __init__ 10 (Scenes.async_args "a red bicycle")
                   Demo.world0
    = Returns (failure_result Demo.failing_task e 0 (ticks w2)) (ticked w2).
Proof.
  do 2 eexists.
  eapply (provider_error_is_failure Demo.failing_task __init__ 10
            (Scenes.async_args "a red bicycle") Demo.world0);
    vm_compute; reflexivity.
Defined.


(** ** Tool calls in the concrete world *)


Lemma missing_prompt_is_refused_witness :
  handle_tool_call Demo.healthy __init__ 0 (JStr "generate_image")
                   (JDict [("style", JStr "tech")]) Demo.world0
  = Returns (tool_error
               ("工具调用失败: "
                ++ exn_str (interp_raise Demo.healthy (MissingArgument "prompt"))))
            Demo.world0.
Proof.
  apply (missing_prompt_is_refused Demo.healthy __init__ 0
           [("style", JStr "tech")] Demo.world0); reflexivity.
Defined.

Lemma non_string_prompt_fails_enhancement_witness :
  exists e,
    _enhance_prompt Demo.healthy __init__ (JInt 5) (JStr "general") (JStr "general")
                    (JBool true) JNull Demo.world0
    = Raises e Demo.world0.
Proof.
  apply (non_string_prompt_fails_enhancement Demo.healthy __init__ (JInt 5));
    reflexivity.
Defined.

Lemma filenames_differ_with_ids_witness :
  "qwen_20250101_000000_1328x1328_general_a_red_bicy_0f8fad5b.png"
  <> "qwen_20250101_000000_1328x1328_general_a_red_bicy_7c9e6679.png".
Proof.
  apply (filenames_differ_with_ids Scenes.varied_ids __init__ "a red bicycle"
           (JStr "general") "1328*1328" Demo.world0 Scenes.later_world
           (ticked (ticked Demo.world0)) (ticked (ticked Scenes.later_world)));
    [vm_compute; reflexivity | vm_compute; reflexivity | reflexivity
     | vm_compute; discriminate].
Defined.

(** ** The environment file and the scripts *)


Lemma other_lines_are_ignored_witness :
  LoadEnv.load_lines Demo.healthy Scenes.putenv_ok
                     [Demo.input_line "# DASHSCOPE_API_KEY=sk-1";
                      Demo.input_line "DASHSCOPE_API_KEY=sk-2"] Scenes.old_shell
  = LoadEnv.load_lines Demo.healthy Scenes.putenv_ok
                       [Demo.input_line "DASHSCOPE_API_KEY=sk-2"] Scenes.old_shell.
Proof.
  apply (other_lines_are_ignored Demo.healthy Scenes.putenv_ok
           (Demo.input_line "# DASHSCOPE_API_KEY=sk-1")).
  right. left. reflexivity.
Defined.

Lemma scripts_stop_without_credential_witness :
  Drivers.generate_study_images Demo.healthy Scenes.no_attribute Scenes.bare_world
  = Returns [] (printed "⏭️  跳过AI生成，使用现有图片"
                  (printed "❌ 请设置 DASHSCOPE_API_KEY 环境变量" Scenes.bare_world))
  /\ Drivers.generate_analysis_images Demo.healthy Scenes.no_attribute
                                      Scenes.bare_world
     = Returns [] (printed "❌ 请设置 DASHSCOPE_API_KEY 环境变量" Scenes.bare_world).
Proof.
  apply (scripts_stop_without_credential Demo.healthy Scenes.no_attribute
           Scenes.bare_world); reflexivity.
Defined.

Lemma scripts_return_one_entry_per_task_witness :
  exists results w',
    Drivers.generate_images Demo.download_404 Scenes.no_attribute
                            ["❌ 请设置 DASHSCOPE_API_KEY 环境变量"]
                            Drivers.analysis_tasks Demo.world0
    = Returns results w'
    /\ Drivers.entry_names results
       = map (fun t => JStr (Drivers.task_name t)) Drivers.analysis_tasks
    /\ Forall (fun entry =>
                 Drivers.is_success_entry entry = true
                 \/ Drivers.is_attribute_error_entry
                      (Drivers.attribute_error_text Scenes.no_attribute) entry = true)
              results.
Proof.
  apply (scripts_return_one_entry_per_task Demo.download_404 Scenes.no_attribute
           ["❌ 请设置 DASHSCOPE_API_KEY 环境变量"] Drivers.analysis_tasks
           Demo.world0 "sk-demo"); reflexivity.
Defined.

Lemma failed_task_records_attribute_error_witness :
  exists w',
    Drivers.run_task Demo.download_404 Scenes.no_attribute __init__ (JStr "sk-demo")
                     "generated_images" 1 Scenes.desk_task
                     Demo.world0
    = Returns (JDict [("name", JStr "整洁学习桌面");
                      ("error",
                       JStr "'ImageGenerationResult' object has no attribute 'error'");
                      ("success", JBool false)])
              (printed "❌ 生成第1张图片时出错: 'ImageGenerationResult' object has no attribute 'error'"
                       w').
Proof.
  eexists.
  eapply (failed_task_records_attribute_error Demo.download_404 Scenes.no_attribute
            __init__ (JStr "sk-demo") "generated_images" 1
            Scenes.desk_task Demo.world0);
    [vm_compute; reflexivity | reflexivity].
Defined.
